(** * Order and payment workflow of the MERN API system

    A shallow embedding of the Express route handlers of
    [server/routes/orders.js], [server/routes/payments.js],
    [server/routes/auth.js] and of the middleware of
    [server/middleware/auth.js], followed by the properties of the order
    lifecycle, the payment confirmation and the refresh-token set.

    Conventions of the embedding:
    - a JavaScript Number is an IEEE-754 binary64 value, that is a Rocq
      primitive [float]; [<], [+], [*] and unary [-] are the float
      operations;
    - a Mongoose collection is a finite map from the document id (the
      hexadecimal ObjectId string) to the document; [findById] of an id is
      the map lookup and [save] the map insert; a [save] of a document
      whose earlier save has not been awaited is rejected, and a value that
      is not an id is cast by [findById] as Mongoose casts it;
    - a handler is a computation in a state-and-exception monad over the
      collections; a [throw] keeps the writes made before it, as the
      source does (nothing is rolled back);
    - what lives outside the repository (the [crypto], [jsonwebtoken] and
      [razorpay] packages, the casts of Mongoose, [process.env], the clock)
      is read from an environment record [Env] or passed in as an
      argument. *)

From Stdlib Require Import ZArith Floats Bool List Lia.
From stdpp Require Import gmap strings list fin_maps.

Local Open Scope Z_scope.
Local Open Scope string_scope.

(** ** Documents *)

Module Image.
Record t := mk { url : string; alt : option string; isPrimary : bool }.
End Image.

(** [productSchema] of the Product model, restricted to the paths the
    order routes read or write. *)
Module Product.
Record t := mk {
  _id : string;
  name : string;
  price : float;
  stock : float;
  images : list Image.t;
  seller : string
}.

Definition set_stock (s : float) (p : t) : t :=
  mk (_id p) (name p) (price p) s (images p) (seller p).
End Product.

(** A line item of an order: the product reference and the snapshot of
    its name, image and price. *)
Module OrderItem.
Record t := mk {
  product : string;
  name : string;
  image : string;
  price : float;
  quantity : float
}.
End OrderItem.

Module StatusEntry.
Record t := mk { status : string; note : string; timestamp : Z }.
End StatusEntry.

Module PaymentResult.
Record t := mk {
  id : option string;
  status : option string;
  razorpayOrderId : option string;
  razorpayPaymentId : option string;
  razorpaySignature : option string
}.

Definition empty : t := mk None None None None None.

Definition set_razorpayOrderId (x : string) (r : t) : t :=
  mk (id r) (status r) (Some x) (razorpayPaymentId r) (razorpaySignature r).
End PaymentResult.

Module ShippingAddress.
Record t := mk {
  fullName : string;
  address : string;
  city : string;
  state : string;
  postalCode : string;
  country : string;
  phone : string
}.
End ShippingAddress.

Module Order.
Record t := mk {
  _id : string;
  orderNumber : string;
  user : string;
  items : list OrderItem.t;
  shippingAddress : ShippingAddress.t;
  paymentMethod : string;
  notes : option string;
  itemsPrice : float;
  shippingPrice : float;
  taxPrice : float;
  totalPrice : float;
  status : string;
  statusHistory : list StatusEntry.t;
  paymentResult : PaymentResult.t;
  paymentStatus : string;
  isPaid : bool;
  paidAt : option Z;
  trackingNumber : option string
}.

Definition set_totals (sh tx tot : float) (o : t) : t :=
  mk (_id o) (orderNumber o) (user o) (items o) (shippingAddress o)
     (paymentMethod o) (notes o) (itemsPrice o) sh tx tot
     (status o) (statusHistory o) (paymentResult o) (paymentStatus o)
     (isPaid o) (paidAt o) (trackingNumber o).

Definition set_status (s : string) (h : list StatusEntry.t) (o : t) : t :=
  mk (_id o) (orderNumber o) (user o) (items o) (shippingAddress o)
     (paymentMethod o) (notes o) (itemsPrice o) (shippingPrice o)
     (taxPrice o) (totalPrice o) s h (paymentResult o) (paymentStatus o)
     (isPaid o) (paidAt o) (trackingNumber o).

Definition set_paymentResult (r : PaymentResult.t) (o : t) : t :=
  mk (_id o) (orderNumber o) (user o) (items o) (shippingAddress o)
     (paymentMethod o) (notes o) (itemsPrice o) (shippingPrice o)
     (taxPrice o) (totalPrice o) (status o) (statusHistory o) r
     (paymentStatus o) (isPaid o) (paidAt o) (trackingNumber o).

Definition set_paymentStatus (s : string) (o : t) : t :=
  mk (_id o) (orderNumber o) (user o) (items o) (shippingAddress o)
     (paymentMethod o) (notes o) (itemsPrice o) (shippingPrice o)
     (taxPrice o) (totalPrice o) (status o) (statusHistory o)
     (paymentResult o) s (isPaid o) (paidAt o) (trackingNumber o).

Definition set_isPaid (b : bool) (o : t) : t :=
  mk (_id o) (orderNumber o) (user o) (items o) (shippingAddress o)
     (paymentMethod o) (notes o) (itemsPrice o) (shippingPrice o)
     (taxPrice o) (totalPrice o) (status o) (statusHistory o)
     (paymentResult o) (paymentStatus o) b (paidAt o) (trackingNumber o).

Definition set_paidAt (d : Z) (o : t) : t :=
  mk (_id o) (orderNumber o) (user o) (items o) (shippingAddress o)
     (paymentMethod o) (notes o) (itemsPrice o) (shippingPrice o)
     (taxPrice o) (totalPrice o) (status o) (statusHistory o)
     (paymentResult o) (paymentStatus o) (isPaid o) (Some d)
     (trackingNumber o).

Definition set_trackingNumber (n : option string) (o : t) : t :=
  mk (_id o) (orderNumber o) (user o) (items o) (shippingAddress o)
     (paymentMethod o) (notes o) (itemsPrice o) (shippingPrice o)
     (taxPrice o) (totalPrice o) (status o) (statusHistory o)
     (paymentResult o) (paymentStatus o) (isPaid o) (paidAt o) n.
End Order.

Module TokenObj.
Record t := mk { token : string }.
End TokenObj.

Module User.
Record t := mk {
  _id : string;
  role : string;
  refreshTokens : list TokenObj.t;
  lockUntil : option Z
}.

Definition set_refreshTokens (l : list TokenObj.t) (u : t) : t :=
  mk (_id u) (role u) l (lockUntil u).
End User.

(** ** The payment gateway

    The requests the handlers hand to the Razorpay SDK.  The SDK and the
    gateway behind it are outside the repository: a call is recorded in the
    world and answered by the environment. *)

Module OrdersCreate.
Record t := mk {
  amount : float;
  currency : string;
  receipt : string;
  notes_orderId : string;
  notes_userId : string
}.
End OrdersCreate.

Module PaymentsRefund.
Record t := mk {
  paymentId : option string;
  amount : float;
  speed : string;
  notes_reason : string
}.
End PaymentsRefund.

Inductive GatewayCall :=
| orders_create (r : OrdersCreate.t)
| payments_refund (r : PaymentsRefund.t).

Module RazorpayOrder.
Record t := mk { id : string; amount : float; currency : string }.
End RazorpayOrder.

(** ** Exceptions, world and the handler monad *)

Inductive Exn :=
| AppError (message : string) (statusCode : Z)
| TypeError (message : string)
| GatewayError (message : string)
(** an error that Mongoose raises, by its name *)
| MongooseError (name : string).

Record World := mkWorld {
  products : gmap string Product.t;
  orders : gmap string Order.t;
  users : gmap string User.t;
  gateway : list GatewayCall
}.

Definition set_products (ps : gmap string Product.t) (w : World) : World :=
  mkWorld ps (orders w) (users w) (gateway w).

Definition set_orders (os : gmap string Order.t) (w : World) : World :=
  mkWorld (products w) os (users w) (gateway w).

Definition set_users (us : gmap string User.t) (w : World) : World :=
  mkWorld (products w) (orders w) us (gateway w).

Definition log_gateway (c : GatewayCall) (w : World) : World :=
  mkWorld (products w) (orders w) (users w) (gateway w ++ [c]).

Inductive Outcome (A : Type) :=
| Returned (a : A)
| Thrown (e : Exn).

Arguments Returned {A} a.
Arguments Thrown {A} e.

Definition M (A : Type) : Type := World -> Outcome A * World.

Definition ret {A} (a : A) : M A := fun w => (Returned a, w).

Definition throw {A} (e : Exn) : M A := fun w => (Thrown e, w).

Definition bind {A B} (c : M A) (k : A -> M B) : M B :=
  fun w =>
    match c w with
    | (Returned a, w') => k a w'
    | (Thrown e, w') => (Thrown e, w')
    end.

Notation "'let!' x ':=' c 'in' k" := (bind c (fun x => k))
  (at level 10, x name, c at level 100, k at level 200).

Definition gets {A} (f : World -> A) : M A := fun w => (Returned (f w), w).

Definition modify (f : World -> World) : M unit := fun w => (Returned tt, f w).

(** ** Collection operations (Mongoose) *)

Definition Product_findById (id : string) : M (option Product.t) :=
  gets (fun w => products w !! id).

(** [Product.findByIdAndUpdate(id, { $inc: { stock: d } })]: adds [d] to
    the stock of the document when it exists, does nothing otherwise. *)
Definition inc_stock (id : string) (d : float)
    (ps : gmap string Product.t) : gmap string Product.t :=
  match ps !! id with
  | Some p => <[id := Product.set_stock (PrimFloat.add (Product.stock p) d) p]> ps
  | None => ps
  end.

Definition Product_findByIdAndUpdate_inc_stock (id : string) (d : float) : M unit :=
  modify (fun w => set_products (inc_stock id d (products w)) w).

Definition Order_findById (id : string) : M (option Order.t) :=
  gets (fun w => orders w !! id).

Definition Order_save (o : Order.t) : M unit :=
  modify (fun w => set_orders (<[Order._id o := o]> (orders w)) w).

(** [doc.save()] on a document whose earlier [save()] has not settled:
    Mongoose rejects the call with a ParallelSaveError and lets the earlier
    save run to its end. *)
Definition ParallelSaveError : Exn := MongooseError "ParallelSaveError".

Definition Order_save_in_parallel (o : Order.t) : M unit :=
  throw ParallelSaveError.

Definition User_findById (id : string) : M (option User.t) :=
  gets (fun w => users w !! id).

Definition User_save (u : User.t) : M unit :=
  modify (fun w => set_users (<[User._id u := u]> (users w)) w).

(** ** The environment *)

(** A parsed JSON request body.  [JUndefined] is what reading a missing
    property gives. *)
#[warnings="-register-all"]
Inductive JSON :=
| JUndefined
| JNull
| JBool (b : bool)
| JNumber (x : float)
| JString (s : string)
| JArray (l : list JSON)
| JObject (fields : list (string * JSON)).

Inductive JwtResult :=
| JwtOk (userId : string)
| JwtExpired
| JwtInvalid.

(** What the query [{ _id: v }] gives for an object or array [v]: the cast
    of the filter fails, or it selects no document, or the document with
    the given id. *)
Inductive Selection :=
| CastFails
| NoMatch
| Match (id : string).

Record Env := mkEnv {
  RAZORPAY_KEY_ID : string;
  RAZORPAY_KEY_SECRET : string;
  RAZORPAY_WEBHOOK_SECRET : string;
  JWT_SECRET : string;
  JWT_REFRESH_SECRET : string;
  (** [crypto.createHmac('sha256', key).update(msg).digest('hex')] *)
  hmac_sha256_hex : string -> string -> string;
  (** [JSON.stringify] *)
  JSON_stringify : JSON -> string;
  (** [jwt.sign({ userId }, secret, { expiresIn })] at a given time *)
  jwt_sign : string -> string -> Z -> string;
  (** [jwt.verify(token, secret)] at a given time *)
  jwt_verify : string -> string -> Z -> JwtResult;
  (** [razorpay.orders.create] and [razorpay.payments.refund]: the
      gateway's answer, or the error the SDK throws *)
  razorpay_orders_create : OrdersCreate.t -> Exn + RazorpayOrder.t;
  razorpay_payments_refund : PaymentsRefund.t -> Exn + string;
  (** the fixed shipping and tax policy of [calculateTotals] *)
  shipping_policy : float -> float;
  tax_policy : float -> float;
  (** whether Mongoose casts the string to an ObjectId *)
  ObjectId_isValid : string -> bool;
  (** Mongoose's reading of an object or array given as an id: the query
      filter [{ _id: v }] run on the orders collection *)
  Order_findOne : JSON -> gmap string Order.t -> Selection
}.

(** ** Order model methods *)

(** Modelled from the spec: [Order.calculateTotals] of models/Order.js,
    which is not among the sources.  The spec says that the handler "sums
    price*quantity across items into itemsPrice, then computes
    shipping/tax/total by fixed policy" and that the "total price is always
    the sum of item prices at order-creation time plus shipping/tax".  The
    policy itself is read from the environment. *)
Definition calculateTotals (E : Env) (o : Order.t) : Order.t :=
  let sh := shipping_policy E (Order.itemsPrice o) in
  let tx := tax_policy E (Order.itemsPrice o) in
  Order.set_totals sh tx
    (PrimFloat.add (PrimFloat.add (Order.itemsPrice o) sh) tx) o.

(** Modelled from the spec: [Order.addStatusUpdate(status, note)] of
    models/Order.js, which is not among the sources.  The spec describes
    the status history as an "ordered sequence of {status, note,
    timestamp}" to which transitions are "only appended", and every caller
    in the routes relies on the method to store the document (the status
    route calls no [save] of its own).  The method appends the entry, sets
    the current status and saves the document. *)
Definition push_status (status note : string) (now : Z) (o : Order.t) : Order.t :=
  Order.set_status status
    (Order.statusHistory o ++ [StatusEntry.mk status note now]) o.

Definition addStatusUpdate (o : Order.t) (status note : string) (now : Z) : M Order.t :=
  let o' := push_status status note now o in
  let! _ := Order_save o' in
  ret o'.

(** ** POST /orders *)

Module ItemReq.
Record t := mk { product : string; quantity : float }.
End ItemReq.

Module CreateOrderBody.
Record t := mk {
  items : list ItemReq.t;
  shippingAddress : ShippingAddress.t;
  paymentMethod : string;
  notes : option string
}.
End CreateOrderBody.

(** [product.images[0]?.url || ''] *)
Definition first_image_url (p : Product.t) : string :=
  match Product.images p with
  | img :: _ => Image.url img
  | [] => ""
  end.

Definition snapshot (p : Product.t) (item : ItemReq.t) : OrderItem.t :=
  OrderItem.mk (Product._id p) (Product.name p) (first_image_url p)
    (Product.price p) (ItemReq.quantity item).

(** The first loop of the handler, "Validate products and calculate
    prices", with its two accumulators [orderItems] and [itemsPrice]. *)
Fixpoint validate_items (items : list ItemReq.t)
    (orderItems : list OrderItem.t) (itemsPrice : float)
    : M (list OrderItem.t * float) :=
  match items with
  | [] => ret (orderItems, itemsPrice)
  | item :: rest =>
      let! product := Product_findById (ItemReq.product item) in
      match product with
      | None =>
          throw (AppError
            ("Product with ID " ++ ItemReq.product item ++ " not found") 404)
      | Some product =>
          if PrimFloat.ltb (Product.stock product) (ItemReq.quantity item)
          then throw (AppError
            ("Insufficient stock for product " ++ Product.name product) 400)
          else
            validate_items rest
              (orderItems ++ [snapshot product item])
              (PrimFloat.add itemsPrice
                 (PrimFloat.mul (Product.price product) (ItemReq.quantity item)))
      end
  end.

(** The second loop, "Update product stock". *)
Fixpoint decrement_stock (items : list ItemReq.t) : M unit :=
  match items with
  | [] => ret tt
  | item :: rest =>
      let! _ := Product_findByIdAndUpdate_inc_stock (ItemReq.product item)
                  (PrimFloat.opp (ItemReq.quantity item)) in
      decrement_stock rest
  end.

(** [new Order({ user, items, shippingAddress, paymentMethod, notes,
    itemsPrice })].  The document id and the order number are generated by
    Mongoose and the model; they are arguments here.  The remaining paths
    take the defaults of the schema ('pending', unpaid, no payment
    result). *)
Definition new_Order (oid orderNumber user : string)
    (orderItems : list OrderItem.t) (body : CreateOrderBody.t)
    (itemsPrice : float) : Order.t :=
  Order.mk oid orderNumber user orderItems
    (CreateOrderBody.shippingAddress body)
    (CreateOrderBody.paymentMethod body)
    (CreateOrderBody.notes body)
    itemsPrice PrimFloat.zero PrimFloat.zero PrimFloat.zero
    "pending" [] PaymentResult.empty "pending" false None None.

(** The handler.  [order.addStatusUpdate('pending', ...)] is called without
    [await]: the entry is pushed and the save that the method starts runs
    on, so the document is stored.  The [await order.save()] of the next
    line is a second save of the same document while the first one is in
    flight, which Mongoose rejects; the loop that updates the stock comes
    after it. *)
Definition create_order (E : Env) (now : Z) (oid orderNumber : string)
    (user : User.t) (body : CreateOrderBody.t) : M Order.t :=
  let! r := validate_items (CreateOrderBody.items body) [] PrimFloat.zero in
  let order := new_Order oid orderNumber (User._id user) (fst r) body (snd r) in
  let order := calculateTotals E order in
  let! order := addStatusUpdate order "pending" "Order placed successfully" now in
  let! _ := Order_save_in_parallel order in
  let! _ := decrement_stock (CreateOrderBody.items body) in
  ret order.

(** ** PUT /orders/:id/cancel *)

(** [['pending', 'confirmed'].includes(order.status)] *)
Definition cancellable (status : string) : bool :=
  String.eqb status "pending" || String.eqb status "confirmed".

(** The loop "Restore product stock" over the line items of the order. *)
Fixpoint restore_stock (items : list OrderItem.t) : M unit :=
  match items with
  | [] => ret tt
  | item :: rest =>
      let! _ := Product_findByIdAndUpdate_inc_stock (OrderItem.product item)
                  (OrderItem.quantity item) in
      restore_stock rest
  end.

Definition cancel_order (now : Z) (user : User.t) (id : string) : M Order.t :=
  let! order := Order_findById id in
  match order with
  | None => throw (AppError "Order not found" 404)
  | Some order =>
      if negb (String.eqb (Order.user order) (User._id user))
      then throw (AppError "Not authorized to cancel this order" 403)
      else if negb (cancellable (Order.status order))
      then throw (AppError "Order cannot be cancelled at this stage" 400)
      else
        let! order := addStatusUpdate order "cancelled" "Cancelled by user" now in
        let! _ := restore_stock (Order.items order) in
        ret order
  end.

(** ** Math.round

    [Math.round] of ECMAScript on a binary64 value [(-1)^s * m * 2^e]: a
    value that is not finite, a zero and a value with [0 <= e] (already
    integral) are returned as they are; otherwise the result is the integer
    nearest to the value, the upper one on a tie, which is
    [floor ((2 * n + d) / (2 * d))] for the value [n / d]; a result of
    zero keeps the sign of the argument. *)

(** Sign, mantissa and exponent of an integer of magnitude [p]: the
    magnitude shifted up to the 53 bits of a binary64 mantissa, and the
    exponent that undoes the shift.  Below 2^53 this is the canonical form
    of the integer, which binary64 holds exactly. *)
Definition integer_SF (s : bool) (p : positive) : spec_float :=
  let k := Z.max 0 (53 - Z.pos (digits2_pos p)) in
  S754_finite s (Pos.shiftl p (Z.to_N k)) (- k).

(** The Number of an integer, exact below 2^53 in magnitude. *)
Definition float_of_Z (z : Z) : float :=
  match z with
  | Z0 => PrimFloat.zero
  | Zpos p => SF2Prim (integer_SF false p)
  | Zneg p => SF2Prim (integer_SF true p)
  end.

Definition round_half_up (s : bool) (m : positive) (e : Z) : Z :=
  let d := 2 ^ (- e) in
  let n := if s then Zneg m else Zpos m in
  (2 * n + d) / (2 * d).

Definition Math_round (x : float) : float :=
  match Prim2SF x with
  | S754_finite s m e =>
      if (0 <=? e)%Z then x
      else
        let r := round_half_up s m e in
        if (r =? 0)%Z then (if s then PrimFloat.neg_zero else PrimFloat.zero)
        else float_of_Z r
  | _ => x
  end.

(** A Number that is neither NaN nor an infinity. *)
Definition finite (x : float) : bool :=
  match Prim2SF x with
  | S754_zero _ | S754_finite _ _ _ => true
  | _ => false
  end.

(** A Number whose value is an integer: a zero, or a finite value
    [m * 2^e] with [0 <= e] or with [m] a multiple of [2^(-e)]. *)
Definition is_integer (x : float) : bool :=
  match Prim2SF x with
  | S754_zero _ => true
  | S754_finite _ m e => (0 <=? e)%Z || (Z.pos m mod 2 ^ (- e) =? 0)%Z
  | _ => false
  end.

(** ** POST /payments/create-razorpay-order *)

Definition gateway_orders_create (E : Env) (r : OrdersCreate.t) : M RazorpayOrder.t :=
  fun w =>
    let w' := log_gateway (orders_create r) w in
    match razorpay_orders_create E r with
    | inl e => (Thrown e, w')
    | inr o => (Returned o, w')
    end.

Definition gateway_payments_refund (E : Env) (r : PaymentsRefund.t) : M string :=
  fun w =>
    let w' := log_gateway (payments_refund r) w in
    match razorpay_payments_refund E r with
    | inl e => (Thrown e, w')
    | inr id => (Returned id, w')
    end.

Definition create_razorpay_order (E : Env) (user : User.t) (orderId : string)
    : M RazorpayOrder.t :=
  let! order := Order_findById orderId in
  match order with
  | None => throw (AppError "Order not found" 404)
  | Some order =>
      if negb (String.eqb (Order.user order) (User._id user))
      then throw (AppError "Not authorized" 403)
      else
        let! razorpayOrder := gateway_orders_create E
          (OrdersCreate.mk
             (Math_round (PrimFloat.mul (Order.totalPrice order) 100%float))
             "INR" (Order.orderNumber order)
             (Order._id order) (User._id user)) in
        let order := Order.set_paymentResult
          (PaymentResult.set_razorpayOrderId (RazorpayOrder.id razorpayOrder)
             (Order.paymentResult order)) order in
        let! _ := Order_save order in
        ret razorpayOrder
  end.

(** ** POST /payments/verify-payment *)

Module VerifyBody.
Record t := mk {
  orderId : string;
  razorpayOrderId : string;
  razorpayPaymentId : string;
  razorpaySignature : string
}.
End VerifyBody.

Definition expected_payment_signature (E : Env) (body : VerifyBody.t) : string :=
  hmac_sha256_hex E (RAZORPAY_KEY_SECRET E)
    (VerifyBody.razorpayOrderId body ++ "|" ++ VerifyBody.razorpayPaymentId body).

Definition mark_verified (body : VerifyBody.t) (now : Z) (o : Order.t) : Order.t :=
  Order.set_paidAt now
    (Order.set_isPaid true
       (Order.set_paymentStatus "completed"
          (Order.set_paymentResult
             (PaymentResult.mk
                (Some (VerifyBody.razorpayPaymentId body))
                (Some "completed")
                (Some (VerifyBody.razorpayOrderId body))
                (Some (VerifyBody.razorpayPaymentId body))
                (Some (VerifyBody.razorpaySignature body)))
             o))).

Definition verify_payment (E : Env) (now : Z) (user : User.t)
    (body : VerifyBody.t) : M Order.t :=
  let! order := Order_findById (VerifyBody.orderId body) in
  match order with
  | None => throw (AppError "Order not found" 404)
  | Some order =>
      if negb (String.eqb (Order.user order) (User._id user))
      then throw (AppError "Not authorized" 403)
      else if negb (String.eqb (expected_payment_signature E body)
                      (VerifyBody.razorpaySignature body))
      then throw (AppError "Invalid payment signature" 400)
      else
        addStatusUpdate (mark_verified body now order)
          "confirmed" "Payment completed successfully" now
  end.

(** ** POST /payments/webhook *)

Fixpoint assoc (k : string) (fields : list (string * JSON)) : JSON :=
  match fields with
  | [] => JUndefined
  | (k', v) :: rest => if String.eqb k k' then v else assoc k rest
  end.

(** Property read [v.k] for a name [k] that no prototype defines: a
    TypeError on [undefined] and [null], the field of an object,
    [undefined] on everything else. *)
Definition prop (v : JSON) (k : string) : M JSON :=
  match v with
  | JUndefined =>
      throw (TypeError ("Cannot read properties of undefined (reading '" ++ k ++ "')"))
  | JNull =>
      throw (TypeError ("Cannot read properties of null (reading '" ++ k ++ "')"))
  | JObject fields => ret (assoc k fields)
  | _ => ret JUndefined
  end.

(** The value that the property read [v.k] gives when it does not throw,
    and whether it throws. *)
Definition get (v : JSON) (k : string) : JSON :=
  match v with
  | JObject fields => assoc k fields
  | _ => JUndefined
  end.

Definition readable (v : JSON) : bool :=
  match v with
  | JUndefined | JNull => false
  | _ => true
  end.

Definition CastError : Exn := MongooseError "CastError".

(** [Order.findById(v)] for a value read from the payload, which the
    handler hands over as it is.  [undefined] and [null] find no document.
    A string is cast to an ObjectId: it finds the document stored under it
    (the ids of stored documents are ObjectIds), no document when it casts
    and none is stored under it, and fails with a CastError when it does
    not cast.  A number and a boolean do not cast.  An object or an array
    is taken as a query filter on [_id]. *)
Definition Order_findById_json (E : Env) (v : JSON) : M (option Order.t) :=
  match v with
  | JUndefined | JNull => ret None
  | JString id =>
      let! order := Order_findById id in
      match order with
      | Some order => ret (Some order)
      | None => if ObjectId_isValid E id then ret None else throw CastError
      end
  | JNumber _ | JBool _ => throw CastError
  | JArray _ | JObject _ =>
      let! stored := gets orders in
      match Order_findOne E v stored with
      | CastFails => throw CastError
      | NoMatch => ret None
      | Match id => Order_findById id
      end
  end.

Definition is_event (event : JSON) (name : string) : bool :=
  match event with
  | JString s => String.eqb s name
  | _ => false
  end.

Definition mark_captured (now : Z) (o : Order.t) : Order.t :=
  Order.set_paidAt now (Order.set_isPaid true (Order.set_paymentStatus "completed" o)).

Definition payload_orderId (payload : JSON) : M JSON :=
  let! payment := prop payload "payment" in
  let! entity := prop payment "entity" in
  let! notes := prop entity "notes" in
  prop notes "orderId".

Definition on_payment_captured (E : Env) (now : Z) (payload : JSON) : M unit :=
  let! orderId := payload_orderId payload in
  let! order := Order_findById_json E orderId in
  match order with
  | Some order =>
      let! _ := addStatusUpdate (mark_captured now order)
                  "confirmed" "Payment captured via webhook" now in
      ret tt
  | None => ret tt
  end.

Definition on_payment_failed (E : Env) (now : Z) (payload : JSON) : M unit :=
  let! failedOrderId := payload_orderId payload in
  let! failedOrder := Order_findById_json E failedOrderId in
  match failedOrder with
  | Some failedOrder =>
      let! _ := addStatusUpdate (Order.set_paymentStatus "failed" failedOrder)
                  "pending" "Payment failed" now in
      ret tt
  | None => ret tt
  end.

Module WebhookReq.
Record t := mk {
  (** [req.headers['x-razorpay-signature']] *)
  signature : option string;
  body : JSON
}.
End WebhookReq.

Definition expected_webhook_signature (E : Env) (req : WebhookReq.t) : string :=
  hmac_sha256_hex E (RAZORPAY_WEBHOOK_SECRET E)
    (JSON_stringify E (WebhookReq.body req)).

(** [expectedSignature !== signature] *)
Definition signature_differs (expected : string) (signature : option string) : bool :=
  match signature with
  | Some s => negb (String.eqb expected s)
  | None => true
  end.

Definition webhook (E : Env) (now : Z) (req : WebhookReq.t) : M unit :=
  if signature_differs (expected_webhook_signature E req) (WebhookReq.signature req)
  then throw (AppError "Invalid webhook signature" 400)
  else
    let! event := prop (WebhookReq.body req) "event" in
    let! payload := prop (WebhookReq.body req) "payload" in
    if is_event event "payment.captured" then on_payment_captured E now payload
    else if is_event event "payment.failed" then on_payment_failed E now payload
    else ret tt.

(** ** POST /payments/refund *)

Module RefundBody.
Record t := mk { orderId : string; amount : float; reason : option string }.
End RefundBody.

(** [reason || 'Refund requested'] *)
Definition reason_or_default (reason : option string) : string :=
  match reason with
  | Some r => if String.eqb r "" then "Refund requested" else r
  | None => "Refund requested"
  end.

Definition refund (E : Env) (now : Z) (body : RefundBody.t) : M string :=
  let! order := Order_findById (RefundBody.orderId body) in
  match order with
  | None => throw (AppError "Order not found" 404)
  | Some order =>
      if negb (Order.isPaid order)
      then throw (AppError "Order is not paid" 400)
      else
        let! refundId := gateway_payments_refund E
          (PaymentsRefund.mk
             (PaymentResult.razorpayPaymentId (Order.paymentResult order))
             (Math_round (PrimFloat.mul (RefundBody.amount body) 100%float))
             "normal"
             (reason_or_default (RefundBody.reason body))) in
        let! _ := addStatusUpdate (Order.set_paymentStatus "refunded" order)
                    "cancelled" ("Refund processed: " ++ refundId) now in
        ret refundId
  end.

(** ** Middleware of server/middleware/auth.js *)

Record Response := mkResponse {
  res_status : Z;
  res_success : bool;
  res_message : option string
}.

(** Modelled from the spec: the [isLocked] virtual of models/User.js, which
    is not among the sources.  The spec lists a "lock timestamp" among the
    attributes of a user and the error kind Locked for an "account
    temporarily locked": the account is locked while the lock timestamp is
    in the future. *)
Definition isLocked (now : Z) (u : User.t) : bool :=
  match User.lockUntil u with
  | Some t => (now <? t)%Z
  | None => false
  end.

(** [generateTokens(userId)] *)
Definition generateTokens (E : Env) (now : Z) (userId : string) : string * string :=
  (jwt_sign E (JWT_SECRET E) userId now,
   jwt_sign E (JWT_REFRESH_SECRET E) userId now).

(** [authenticate]: either answers the request itself or attaches the
    caller to the request and calls [next]. *)
Definition authenticate (E : Env) (now : Z) (authorization : option string)
    (w : World) : Response + User.t :=
  match authorization with
  | None => inl (mkResponse 401 false (Some "Access token required"))
  | Some authHeader =>
      if negb (String.prefix "Bearer " authHeader)
      then inl (mkResponse 401 false (Some "Access token required"))
      else
        let token := String.substring 7 (String.length authHeader - 7)%nat authHeader in
        match jwt_verify E (JWT_SECRET E) token now with
        | JwtOk userId =>
            match users w !! userId with
            | None => inl (mkResponse 401 false (Some "User not found"))
            | Some user =>
                if isLocked now user
                then inl (mkResponse 423 false (Some "Account is temporarily locked"))
                else inr user
            end
        | JwtExpired => inl (mkResponse 401 false (Some "Access token expired"))
        | JwtInvalid => inl (mkResponse 401 false (Some "Invalid access token"))
        end
  end.

(** [authorize(...roles)], applied after [authenticate]. *)
Definition authorize (roles : list string) (user : User.t) : option Response :=
  if existsb (String.eqb (User.role user)) roles then None
  else Some (mkResponse 403 false (Some "Insufficient permissions")).

(** JavaScript truthiness of an optional string. *)
Definition truthy (s : option string) : bool :=
  match s with
  | Some s => negb (String.eqb s "")
  | None => false
  end.

Definition tokenExists (refreshToken : string) (u : User.t) : bool :=
  existsb (fun tokenObj => String.eqb (TokenObj.token tokenObj) refreshToken)
    (User.refreshTokens u).

(** [verifyRefreshToken]: answers 401 itself or attaches the user and the
    token to the request. *)
Definition verifyRefreshToken (E : Env) (now : Z) (refreshToken : option string)
    (w : World) : Response + (User.t * string) :=
  match refreshToken with
  | None => inl (mkResponse 401 false (Some "Refresh token required"))
  | Some tok =>
      if negb (truthy refreshToken)
      then inl (mkResponse 401 false (Some "Refresh token required"))
      else
        match jwt_verify E (JWT_REFRESH_SECRET E) tok now with
        | JwtOk userId =>
            match users w !! userId with
            | None => inl (mkResponse 401 false (Some "User not found"))
            | Some user =>
                if negb (tokenExists tok user)
                then inl (mkResponse 401 false (Some "Invalid refresh token"))
                else inr (user, tok)
            end
        | _ => inl (mkResponse 401 false (Some "Invalid refresh token"))
        end
  end.

(** Modelled from the spec: [catchAsync] and the error handler of
    middleware/errorHandler.js, which is not among the sources.  The spec
    says that "domain errors produced inside workflow logic carry an HTTP
    status and message and are surfaced directly to the caller" and that
    other errors "propagate as generic Internal failures". *)
Definition errorHandler (e : Exn) : Response :=
  match e with
  | AppError message statusCode => mkResponse statusCode false (Some message)
  | _ => mkResponse 500 false (Some "Internal server error")
  end.

Definition catchAsync {A} (handler : M A) (respond : A -> Response)
    (w : World) : Response * World :=
  match handler w with
  | (Returned a, w') => (respond a, w')
  | (Thrown e, w') => (errorHandler e, w')
  end.

(** A route behind [authenticate]. *)
Definition authenticated {A} (E : Env) (now : Z) (authorization : option string)
    (handler : User.t -> M A) (respond : A -> Response)
    (w : World) : Response * World :=
  match authenticate E now authorization w with
  | inl res => (res, w)
  | inr user => catchAsync (handler user) respond w
  end.

(** A route behind [authenticate] and [authorize(...roles)]. *)
Definition authorized {A} (E : Env) (now : Z) (authorization : option string)
    (roles : list string)
    (handler : User.t -> M A) (respond : A -> Response)
    (w : World) : Response * World :=
  match authenticate E now authorization w with
  | inl res => (res, w)
  | inr user =>
      match authorize roles user with
      | Some res => (res, w)
      | None => catchAsync (handler user) respond w
      end
  end.

(** ** POST /auth/refresh and POST /auth/logout *)

(** [user.refreshTokens.filter(tokenObj => tokenObj.token !== t)] *)
Definition without_token (t : string) (l : list TokenObj.t) : list TokenObj.t :=
  List.filter (fun tokenObj => negb (String.eqb (TokenObj.token tokenObj) t)) l.

Definition refresh_tokens (E : Env) (now : Z) (user : User.t)
    (oldRefreshToken : string) : M (string * string) :=
  let tokens := generateTokens E now (User._id user) in
  let user := User.set_refreshTokens
    (without_token oldRefreshToken (User.refreshTokens user)
       ++ [TokenObj.mk (snd tokens)]) user in
  let! _ := User_save user in
  ret tokens.

Definition logout (user : User.t) (refreshToken : option string) : M unit :=
  let user :=
    match refreshToken with
    | Some t =>
        if truthy refreshToken
        then User.set_refreshTokens (without_token t (User.refreshTokens user)) user
        else User.set_refreshTokens [] user
    | None => User.set_refreshTokens [] user
    end in
  User_save user.

(** ** The routes, with their middleware chains *)

Definition ok (message : string) : Response := mkResponse 200 true (Some message).

(** [router.post('/refresh', verifyRefreshToken, catchAsync(...))] *)
Definition route_refresh (E : Env) (now : Z) (refreshToken : option string)
    (w : World) : Response * World :=
  match verifyRefreshToken E now refreshToken w with
  | inl res => (res, w)
  | inr (user, tok) =>
      catchAsync (refresh_tokens E now user tok)
        (fun _ => ok "Token refreshed successfully") w
  end.

(** [router.post('/logout', authenticate, catchAsync(...))] *)
Definition route_logout (E : Env) (now : Z) (authorization : option string)
    (refreshToken : option string) : World -> Response * World :=
  authenticated E now authorization
    (fun user => logout user refreshToken)
    (fun _ => ok "Logout successful").

(** [router.post('/webhook', catchAsync(...))] *)
Definition route_webhook (E : Env) (now : Z) (req : WebhookReq.t)
    : World -> Response * World :=
  catchAsync (webhook E now req) (fun _ => mkResponse 200 true None).

(** [router.post('/refund', authenticate, catchAsync(...))] *)
Definition route_refund (E : Env) (now : Z) (authorization : option string)
    (body : RefundBody.t) : World -> Response * World :=
  authenticated E now authorization
    (fun _ => refund E now body)
    (fun _ => ok "Refund processed successfully").

(** [router.put('/:id/status', authenticate, authorize('admin'),
    catchAsync(...))] of the order routes: the privileged status update. *)
Definition update_status (now : Z) (id status note : string)
    (trackingNumber : option string) : M Order.t :=
  let! order := Order_findById id in
  match order with
  | None => throw (AppError "Order not found" 404)
  | Some order =>
      let! order := addStatusUpdate order status note now in
      if truthy trackingNumber then
        let order := Order.set_trackingNumber trackingNumber order in
        let! _ := Order_save order in
        ret order
      else ret order
  end.

Definition route_update_status (E : Env) (now : Z) (authorization : option string)
    (id status note : string) (trackingNumber : option string)
    : World -> Response * World :=
  authorized E now authorization ["admin"]
    (fun _ => update_status now id status note trackingNumber)
    (fun _ => ok "Order status updated successfully").

(** ** PUT /products/:id

    [Object.assign(product, req.body)] for a body that carries any of the
    optional paths [name], [price] and [stock]. *)

Module UpdateProductBody.
Record t := mk { name : option string; price : option float; stock : option float }.
End UpdateProductBody.

Definition assign_product (body : UpdateProductBody.t) (p : Product.t) : Product.t :=
  Product.mk (Product._id p)
    (default (Product.name p) (UpdateProductBody.name body))
    (default (Product.price p) (UpdateProductBody.price body))
    (default (Product.stock p) (UpdateProductBody.stock body))
    (Product.images p) (Product.seller p).

Definition Product_save (p : Product.t) : M unit :=
  modify (fun w => set_products (<[Product._id p := p]> (products w)) w).

Definition update_product (user : User.t) (id : string)
    (body : UpdateProductBody.t) : M Product.t :=
  let! product := Product_findById id in
  match product with
  | None => throw (AppError "Product not found" 404)
  | Some product =>
      if negb (String.eqb (Product.seller product) (User._id user))
         && negb (String.eqb (User.role user) "admin")
      then throw (AppError "Not authorized to update this product" 403)
      else
        let product := assign_product body product in
        let! _ := Product_save product in
        ret product
  end.

(** ** What the properties speak about *)

(** The error kinds of the order workflow, as the handlers raise them. *)
Definition NotFound (id : string) : Exn :=
  AppError ("Product with ID " ++ id ++ " not found") 404.

Definition InsufficientStock (name : string) : Exn :=
  AppError ("Insufficient stock for product " ++ name) 400.

Definition Conflict : Exn :=
  AppError "Order cannot be cancelled at this stage" 400.

Definition InvalidSignature : Exn :=
  AppError "Invalid payment signature" 400.

Definition is_InsufficientStock (e : Exn) : Prop :=
  exists name, e = InsufficientStock name.

(** The contract of order creation in the words of the specification: for
    each item in turn, resolve the product, fail with NotFound if it is
    absent, fail with InsufficientStock if its stock is less than the
    quantity, and otherwise take the snapshot of name, price and image. *)
Fixpoint resolve_items (ps : gmap string Product.t) (items : list ItemReq.t)
    : Exn + list OrderItem.t :=
  match items with
  | [] => inr []
  | item :: rest =>
      match ps !! ItemReq.product item with
      | None => inl (NotFound (ItemReq.product item))
      | Some p =>
          if PrimFloat.ltb (Product.stock p) (ItemReq.quantity item)
          then inl (InsufficientStock (Product.name p))
          else
            match resolve_items ps rest with
            | inl e => inl e
            | inr lines =>
                inr (OrderItem.mk (Product._id p) (Product.name p)
                       (first_image_url p) (Product.price p)
                       (ItemReq.quantity item) :: lines)
            end
      end
  end.

(** The sum over the line items of snapshot price times quantity, taken
    from left to right starting at zero. *)
Definition sum_line_totals (lines : list OrderItem.t) : float :=
  fold_left
    (fun acc line =>
       PrimFloat.add acc (PrimFloat.mul (OrderItem.price line) (OrderItem.quantity line)))
    lines PrimFloat.zero.

(** A line passes its stock check against a products collection. *)
Definition in_stock (ps : gmap string Product.t) (item : ItemReq.t) : Prop :=
  exists p, ps !! ItemReq.product item = Some p /\
            PrimFloat.ltb (Product.stock p) (ItemReq.quantity item) = false.

Definition under_stocked (ps : gmap string Product.t) (item : ItemReq.t) : Prop :=
  exists p, ps !! ItemReq.product item = Some p /\
            PrimFloat.ltb (Product.stock p) (ItemReq.quantity item) = true.

(** All the stock decrements of an item list, applied in order. *)
Definition decremented (items : list ItemReq.t) (ps : gmap string Product.t)
    : gmap string Product.t :=
  fold_left
    (fun ps item => inc_stock (ItemReq.product item)
                      (PrimFloat.opp (ItemReq.quantity item)) ps)
    items ps.

(** All the stock restorations of the line items of an order. *)
Definition restored (lines : list OrderItem.t) (ps : gmap string Product.t)
    : gmap string Product.t :=
  fold_left
    (fun ps line => inc_stock (OrderItem.product line) (OrderItem.quantity line) ps)
    lines ps.

(** The quantities of the line items that reference a given product. *)
Definition quantities_of (pid : string) (lines : list OrderItem.t) : list float :=
  map OrderItem.quantity
    (List.filter (fun line => String.eqb (OrderItem.product line) pid) lines).

(** The order document that [create_order] builds from the line items. *)
Definition placed (E : Env) (now : Z) (oid orderNumber : string) (user : User.t)
    (body : CreateOrderBody.t) (lines : list OrderItem.t) : Order.t :=
  push_status "pending" "Order placed successfully" now
    (calculateTotals E
       (new_Order oid orderNumber (User._id user) lines body (sum_line_totals lines))).

(** A line item is the snapshot of the product its item resolves to. *)
Definition snapshot_of (ps : gmap string Product.t) (item : ItemReq.t)
    (line : OrderItem.t) : Prop :=
  exists p,
    ps !! ItemReq.product item = Some p /\
    PrimFloat.ltb (Product.stock p) (ItemReq.quantity item) = false /\
    OrderItem.product line = Product._id p /\
    OrderItem.name line = Product.name p /\
    OrderItem.price line = Product.price p /\
    OrderItem.image line = first_image_url p /\
    OrderItem.quantity line = ItemReq.quantity item.

(** ** Sample data *)

Definition sample_address : ShippingAddress.t :=
  ShippingAddress.mk "Asha Rao" "12 Lake Road" "Pune" "MH" "411001" "India" "+91 98765 43210".

Definition alice : User.t := User.mk "u-alice" "user" [TokenObj.mk "refresh-alice"] None.

Definition bob : User.t := User.mk "u-bob" "user" [] None.

Definition lamp : Product.t :=
  Product.mk "p-lamp" "Lamp" 100%float 5%float
    [Image.mk "https://img.example/lamp.png" None true] "u-seller".

Definition desk : Product.t :=
  Product.mk "p-desk" "Desk" 250.5%float 1%float [] "u-seller".

Definition sample_world : World :=
  mkWorld (<["p-lamp" := lamp]> (<["p-desk" := desk]> ∅)) ∅
          (<["u-alice" := alice]> (<["u-bob" := bob]> ∅)) [].

(** Stand-ins for the external packages, to run the handlers on the sample
    data: a keyed digest that writes out its key and message, tokens that
    are looked up in a table of issued tokens with their expiry, and a
    gateway that accepts every call. *)
Definition sample_hmac (key msg : string) : string := "hmac(" ++ key ++ "," ++ msg ++ ")".

Definition issued_tokens : list (string * (string * string * Z)) :=
  [ ("access-alice", ("jwt-secret", "u-alice", 2000));
    ("access-bob", ("jwt-secret", "u-bob", 2000));
    ("refresh-alice", ("jwt-refresh-secret", "u-alice", 5000)) ].

Fixpoint find_token (token : string) (table : list (string * (string * string * Z)))
    : option (string * string * Z) :=
  match table with
  | [] => None
  | (t, info) :: rest => if String.eqb t token then Some info else find_token token rest
  end.

Definition sample_jwt_verify (secret token : string) (now : Z) : JwtResult :=
  match find_token token issued_tokens with
  | Some (sec, userId, exp) =>
      if negb (String.eqb sec secret) then JwtInvalid
      else if (now <? exp)%Z then JwtOk userId
      else JwtExpired
  | None => JwtInvalid
  end.

Definition sample_jwt_sign (secret userId : string) (now : Z) : string :=
  "jwt(" ++ secret ++ "," ++ userId ++ ")".

Fixpoint sample_stringify (v : JSON) : string :=
  match v with
  | JUndefined => "undefined"
  | JNull => "null"
  | JBool true => "true"
  | JBool false => "false"
  | JNumber _ => "0"
  | JString s => "'" ++ s ++ "'"
  | JArray l => "[" ++ String.concat "," (map sample_stringify l) ++ "]"
  | JObject fields =>
      "{" ++ String.concat ","
               (map (fun kv => "'" ++ fst kv ++ "':" ++ sample_stringify (snd kv)) fields)
          ++ "}"
  end.

(** Stand-ins for Mongoose: a string casts to an ObjectId when it is made
    of 24 hexadecimal digits; of the query filters, [{ $ne: null }] selects
    the first order of the collection and every other one fails to cast. *)
Definition is_hex_digit (c : Ascii.ascii) : bool :=
  let n := Ascii.nat_of_ascii c in
  ((48 <=? n) && (n <=? 57) || (97 <=? n) && (n <=? 102)
   || (65 <=? n) && (n <=? 70))%nat.

Definition sample_isValid (s : string) : bool :=
  (String.length s =? 24)%nat && forallb is_hex_digit (String.list_ascii_of_string s).

Definition sample_findOne (v : JSON) (stored : gmap string Order.t) : Selection :=
  match v with
  | JObject [("$ne", JNull)] =>
      match map_to_list stored with
      | (id, _) :: _ => Match id
      | [] => NoMatch
      end
  | _ => CastFails
  end.

Definition sample_env : Env :=
  mkEnv "rzp_key" "rzp_secret" "whsec" "jwt-secret" "jwt-refresh-secret"
    sample_hmac sample_stringify sample_jwt_sign sample_jwt_verify
    (fun r => inr (RazorpayOrder.mk "order_1" (OrdersCreate.amount r) (OrdersCreate.currency r)))
    (fun _ => inr "rfnd_1")
    (fun itemsPrice => if PrimFloat.ltb itemsPrice 500%float then 50%float else 0%float)
    (fun itemsPrice => PrimFloat.mul itemsPrice 0.125%float)
    sample_isValid sample_findOne.

Definition two_lamps : CreateOrderBody.t :=
  CreateOrderBody.mk [ItemReq.mk "p-lamp" 2%float] sample_address "razorpay" None.

(** The same product in two lines of three, against a stock of five. *)
Definition lamp_twice : CreateOrderBody.t :=
  CreateOrderBody.mk [ItemReq.mk "p-lamp" 3%float; ItemReq.mk "p-lamp" 3%float]
    sample_address "cod" None.

(** A line for a product that does not exist, then a line of two desks
    against a stock of one. *)
Definition ghost_then_desks : CreateOrderBody.t :=
  CreateOrderBody.mk [ItemReq.mk "p-ghost" 1%float; ItemReq.mk "p-desk" 2%float]
    sample_address "cod" None.

(** One lamp, which passes its check, then two desks against a stock of
    one. *)
Definition lamp_then_desks : CreateOrderBody.t :=
  CreateOrderBody.mk [ItemReq.mk "p-lamp" 1%float; ItemReq.mk "p-desk" 2%float]
    sample_address "cod" None.

Definition lamp_line : OrderItem.t :=
  OrderItem.mk "p-lamp" "Lamp" "https://img.example/lamp.png" 100%float 2%float.

Definition desk_line : OrderItem.t := OrderItem.mk "p-desk" "Desk" "" 250.5%float 1%float.

(** An unpaid order of alice for two lamps, status 'pending'. *)
Definition pending_order : Order.t :=
  Order.mk "o-7" "ORD-7" "u-alice" [lamp_line] sample_address "razorpay" None
    200%float 50%float 25%float 275%float
    "pending" [StatusEntry.mk "pending" "Order placed successfully" 900]
    PaymentResult.empty "pending" false None None.

(** An order of alice that has been shipped. *)
Definition shipped_order : Order.t :=
  Order.mk "o-8" "ORD-8" "u-alice" [lamp_line] sample_address "cod" None
    200%float 50%float 25%float 275%float
    "shipped"
    [StatusEntry.mk "pending" "Order placed successfully" 700;
     StatusEntry.mk "shipped" "Left the warehouse" 800]
    PaymentResult.empty "pending" false None (Some "TRK-1").

(** A paid order of alice with a total price of 250.50. *)
Definition paid_order : Order.t :=
  Order.mk "o-9" "ORD-9" "u-alice" [desk_line] sample_address "razorpay" None
    250.5%float 0%float 0%float 250.5%float
    "confirmed"
    [StatusEntry.mk "pending" "Order placed successfully" 500;
     StatusEntry.mk "confirmed" "Payment completed successfully" 600]
    (PaymentResult.mk (Some "pay_1") (Some "completed") (Some "order_1")
       (Some "pay_1") (Some "hmac(rzp_secret,order_1|pay_1)"))
    "completed" true (Some 600) None.

Definition world_with_orders : World :=
  set_orders
    (<["o-7" := pending_order]>
       (<["o-8" := shipped_order]> (<["o-9" := paid_order]> ∅)))
    sample_world.

(** The order id that a webhook payload carries at
    [payload.payment.entity.notes.orderId], when every read on the way is
    possible. *)
Definition notes_orderId (payload : JSON) : option JSON :=
  let payment := get payload "payment" in
  let entity := get payment "entity" in
  let notes := get entity "notes" in
  if readable payload && readable payment && readable entity && readable notes
  then Some (get notes "orderId")
  else None.

(** The body of a webhook request has the shape the handler reads: it is
    not [undefined] or [null], and for the two payment events the path to
    the notes of the payment exists. *)
Definition well_shaped (body : JSON) : bool :=
  readable body &&
  (if is_event (get body "event") "payment.captured"
      || is_event (get body "event") "payment.failed"
   then match notes_orderId (get body "payload") with Some _ => true | None => false end
   else true).

Definition signature_verifies (E : Env) (req : WebhookReq.t) : bool :=
  negb (signature_differs (expected_webhook_signature E req) (WebhookReq.signature req)).

(** C7, as stated: a request whose signature verifies is
    answered with 200. *)
Definition verified_webhook_answers_200 (E : Env) (now : Z) (req : WebhookReq.t)
    (w : World) : Prop :=
  signature_verifies E req = true ->
  res_status (fst (route_webhook E now req w)) = 200.

(** C3, as stated: a second delivery of the same request
    leaves the world that the first delivery produced. *)
Definition second_delivery_is_noop (E : Env) (now1 now2 : Z) (req : WebhookReq.t)
    (w : World) : Prop :=
  snd (route_webhook E now2 req (snd (route_webhook E now1 req w)))
  = snd (route_webhook E now1 req w).

Definition signed (body : JSON) : WebhookReq.t :=
  WebhookReq.mk (Some (sample_hmac "whsec" (sample_stringify body))) body.

(** A [payment.captured] event for the order o-7. *)
Definition captured_o7 : JSON :=
  JObject
    [ ("event", JString "payment.captured");
      ("payload",
       JObject
         [ ("payment",
            JObject
              [ ("entity",
                 JObject
                   [ ("id", JString "pay_7");
                     ("notes", JObject [("orderId", JString "o-7")]) ]) ]) ]) ].

(** A [payment.captured] event without a payload. *)
Definition captured_without_payload : JSON :=
  JObject [ ("event", JString "payment.captured") ].

(** A [payment.captured] event that carries the given value at
    [payload.payment.entity.notes.orderId]. *)
Definition captured_with (orderId : JSON) : JSON :=
  JObject
    [ ("event", JString "payment.captured");
      ("payload",
       JObject
         [ ("payment",
            JObject
              [ ("entity",
                 JObject [ ("notes", JObject [("orderId", orderId)]) ]) ]) ]) ].

(** An object or an array, which [findById] takes as a query filter. *)
Definition is_filter (v : JSON) : bool :=
  match v with
  | JArray _ | JObject _ => true
  | _ => false
  end.

(** The values that [Order.findById] takes without an error: [undefined],
    [null], the id of a stored order, any other string that casts to an
    ObjectId, and a filter whose cast succeeds. *)
Definition castable (E : Env) (w : World) (v : JSON) : bool :=
  match v with
  | JUndefined | JNull => true
  | JString id =>
      match orders w !! id with
      | Some _ => true
      | None => ObjectId_isValid E id
      end
  | JNumber _ | JBool _ => false
  | JArray _ | JObject _ =>
      match Order_findOne E v (orders w) with
      | CastFails => false
      | _ => true
      end
  end.

(** The order that a value read from the payload names or, as a filter,
    selects. *)
Definition find_order (E : Env) (w : World) (v : JSON) : option Order.t :=
  match v with
  | JString id => orders w !! id
  | JArray _ | JObject _ =>
      match Order_findOne E v (orders w) with
      | Match id => orders w !! id
      | _ => None
      end
  | _ => None
  end.

(** For the two payment events, the value at the notes of the payment is
    one that [Order.findById] takes without an error. *)
Definition orderId_castable (E : Env) (w : World) (body : JSON) : bool :=
  if is_event (get body "event") "payment.captured"
     || is_event (get body "event") "payment.failed"
  then match notes_orderId (get body "payload") with
       | Some v => castable E w v
       | None => true
       end
  else true.

(** What the two payment events store for the order they name. *)
Definition captured (now : Z) (o : Order.t) : Order.t :=
  push_status "confirmed" "Payment captured via webhook" now (mark_captured now o).

Definition payment_failed (now : Z) (o : Order.t) : Order.t :=
  push_status "pending" "Payment failed" now (Order.set_paymentStatus "failed" o).

Definition store_for (E : Env) (w : World) (v : option JSON)
    (f : Order.t -> Order.t) : World :=
  match v ≫= find_order E w with
  | Some o => set_orders (<[Order._id o := f o]> (orders w)) w
  | None => w
  end.

(** The world after a webhook request that is verified and well shaped and
    whose order id casts. *)
Definition after_webhook (E : Env) (now : Z) (body : JSON) (w : World) : World :=
  if is_event (get body "event") "payment.captured"
  then store_for E w (notes_orderId (get body "payload")) (captured now)
  else if is_event (get body "event") "payment.failed"
  then store_for E w (notes_orderId (get body "payload")) (payment_failed now)
  else w.

(** A verify-payment request of alice for the order o-7, with the
    signature the sample digest gives, and the same with another one. *)
Definition signed_verification : VerifyBody.t :=
  VerifyBody.mk "o-7" "order_7" "pay_7" "hmac(rzp_secret,order_7|pay_7)".

Definition forged_verification : VerifyBody.t :=
  VerifyBody.mk "o-7" "order_7" "pay_7" "0000".

(** The refund request the handler hands to the gateway. *)
Definition refund_request (body : RefundBody.t) (o : Order.t) : PaymentsRefund.t :=
  PaymentsRefund.mk
    (PaymentResult.razorpayPaymentId (Order.paymentResult o))
    (Math_round (PrimFloat.mul (RefundBody.amount body) 100%float))
    "normal"
    (reason_or_default (RefundBody.reason body)).

Definition refunded (now : Z) (refundId : string) (o : Order.t) : Order.t :=
  push_status "cancelled" ("Refund processed: " ++ refundId) now
    (Order.set_paymentStatus "refunded" o).

(** The gateway-order request of [create_razorpay_order]. *)
Definition order_request (user : User.t) (o : Order.t) : OrdersCreate.t :=
  OrdersCreate.mk
    (Math_round (PrimFloat.mul (Order.totalPrice o) 100%float))
    "INR" (Order.orderNumber o) (Order._id o) (User._id user).

(** A refund of the order o-9, which belongs to alice. *)
Definition refund_o9 : RefundBody.t := RefundBody.mk "o-9" 250.5%float None.

(** A refund of the same order with the amount 2^1023 (about 8.99e307),
    whose hundredfold is beyond the largest Number. *)
Definition huge_refund : RefundBody.t := RefundBody.mk "o-9" 0x1p1023%float None.

(** An unpaid order of alice with a total price of 250.50. *)
Definition desk_order : Order.t :=
  Order.mk "o-10" "ORD-10" "u-alice" [desk_line] sample_address "razorpay" None
    250.5%float 0%float 0%float 250.5%float
    "pending" [StatusEntry.mk "pending" "Order placed successfully" 950]
    PaymentResult.empty "pending" false None None.

Definition world_with_desk_order : World :=
  set_orders (<["o-10" := desk_order]> ∅) sample_world.

(** The amount that a call hands to the gateway. *)
Definition amount_of (c : GatewayCall) : float :=
  match c with
  | orders_create r => OrdersCreate.amount r
  | payments_refund r => PaymentsRefund.amount r
  end.

(** C8, as stated: every amount sent to the gateway is an integer. *)
Definition gateway_amounts_are_integers (calls : list GatewayCall) : Prop :=
  Forall (fun c => is_integer (amount_of c) = true) calls.

(** The user holds the refresh token in the active set. *)
Definition holds_token (u : User.t) (tok : string) : Prop :=
  exists t, In t (User.refreshTokens u) /\ TokenObj.token t = tok.

(** C9, as stated: the refresh of a token is accepted if and
    only if the token is in the active set of the user. *)
Definition accepted_iff_in_set (E : Env) (now : Z) (w : World) (u : User.t)
    (tok : string) : Prop :=
  res_status (fst (route_refresh E now (Some tok) w)) = 200 <-> holds_token u tok.

(** C4, as stated: whenever some item is under-stocked the
    request fails with InsufficientStock and writes nothing. *)
Definition insufficient_stock_reported (E : Env) (now : Z) (oid orderNumber : string)
    (user : User.t) (body : CreateOrderBody.t) (w : World) : Prop :=
  Exists (under_stocked (products w)) (CreateOrderBody.items body) ->
  exists e,
    create_order E now oid orderNumber user body w = (Thrown e, w) /\
    is_InsufficientStock e.

(** ** Further middleware and handlers *)

(** [optionalAuth] of server/middleware/auth.js: attaches the user the
    bearer token names, or [null], and always calls [next]. *)
Definition optionalAuth (E : Env) (now : Z) (authorization : option string)
    (w : World) : option User.t :=
  match authorization with
  | None => None
  | Some authHeader =>
      if negb (String.prefix "Bearer " authHeader) then None
      else
        let token := String.substring 7 (String.length authHeader - 7)%nat authHeader in
        match jwt_verify E (JWT_SECRET E) token now with
        | JwtOk userId => users w !! userId
        | _ => None
        end
  end.

(** GET /orders/:id.  [populate('user', 'name email')] replaces the user
    reference of the order by the user document, or by [null] when there
    is none, before the handler reads [order.user._id]. *)
Definition get_order (user : User.t) (id : string) : M Order.t :=
  let! order := Order_findById id in
  match order with
  | None => throw (AppError "Order not found" 404)
  | Some order =>
      let! owner := User_findById (Order.user order) in
      match owner with
      | None => throw (TypeError "Cannot read properties of null (reading '_id')")
      | Some owner =>
          if negb (String.eqb (User._id owner) (User._id user))
             && negb (String.eqb (User.role user) "admin")
          then throw (AppError "Not authorized to view this order" 403)
          else ret order
      end
  end.

(** DELETE /products/:id *)
Definition Product_findByIdAndDelete (id : string) : M unit :=
  modify (fun w => set_products (delete id (products w)) w).

Definition delete_product (user : User.t) (id : string) : M unit :=
  let! product := Product_findById id in
  match product with
  | None => throw (AppError "Product not found" 404)
  | Some product =>
      if negb (String.eqb (Product.seller product) (User._id user))
         && negb (String.eqb (User.role user) "admin")
      then throw (AppError "Not authorized to delete this product" 403)
      else Product_findByIdAndDelete id
  end.

(** POST /products: [Product.create({ ...req.body, seller: req.user._id })]
    for the paths of the body that the product record carries.  The
    document id is generated by Mongoose; it is an argument here. *)
Module CreateProductBody.
Record t := mk {
  name : string;
  price : float;
  stock : float;
  images : list Image.t
}.
End CreateProductBody.

Definition create_product (pid : string) (user : User.t)
    (body : CreateProductBody.t) : M Product.t :=
  let product :=
    Product.mk pid (CreateProductBody.name body) (CreateProductBody.price body)
      (CreateProductBody.stock body) (CreateProductBody.images body)
      (User._id user) in
  let! _ := Product_save product in
  ret product.

(** DELETE /users/:id, the handler behind [authenticate] and
    [authorize('admin')]; [caller] is the user they attach. *)
Definition User_findByIdAndDelete (id : string) : M unit :=
  modify (fun w => set_users (delete id (users w)) w).

Definition delete_user (caller : User.t) (id : string) : M unit :=
  let! user := User_findById id in
  match user with
  | None => throw (AppError "User not found" 404)
  | Some user =>
      if String.eqb (User._id user) (User._id caller)
      then throw (AppError "Cannot delete your own account" 400)
      else User_findByIdAndDelete id
  end.

(** GET /auth/google/callback, after [passport.authenticate] has attached
    the user: a new pair of tokens is issued and the refresh token is
    pushed onto the set. *)
Definition google_callback (E : Env) (now : Z) (user : User.t) : M (string * string) :=
  let tokens := generateTokens E now (User._id user) in
  let user := User.set_refreshTokens
    (User.refreshTokens user ++ [TokenObj.mk (snd tokens)]) user in
  let! _ := User_save user in
  ret tokens.

(** ** Reviews of the Product model

    The paths [reviews] and [rating] of [productSchema] and the methods
    [updateRating] and [addReview] that work on them.  [toFixed1] stands
    for [x.toFixed(1)] read back as a Number. *)

Module Review.
Record t := mk { user : string; rating : float; comment : string; helpful : float }.
End Review.

Module Rated.
Record t := mk {
  reviews : list Review.t;
  rating_average : float;
  rating_count : float
}.
End Rated.

Definition updateRating (toFixed1 : float -> float) (d : Rated.t) : Rated.t :=
  match Rated.reviews d with
  | [] => Rated.mk [] PrimFloat.zero PrimFloat.zero
  | _ =>
      let sum :=
        fold_left (fun acc review => PrimFloat.add acc (Review.rating review))
          (Rated.reviews d) PrimFloat.zero in
      let n := float_of_Z (Z.of_nat (length (Rated.reviews d))) in
      Rated.mk (Rated.reviews d) (toFixed1 (PrimFloat.div sum n)) n
  end.

(** [existingReview.rating = rating; existingReview.comment = comment] on
    the element that [find] returns, the first one of the user. *)
Fixpoint overwrite_review (userId : string) (rating : float) (comment : string)
    (reviews : list Review.t) : list Review.t :=
  match reviews with
  | [] => []
  | review :: rest =>
      if String.eqb (Review.user review) userId
      then Review.mk (Review.user review) rating comment (Review.helpful review) :: rest
      else review :: overwrite_review userId rating comment rest
  end.

Definition addReview (toFixed1 : float -> float) (d : Rated.t)
    (userId : string) (rating : float) (comment : string) : Rated.t :=
  let existingReview :=
    List.find (fun review => String.eqb (Review.user review) userId)
      (Rated.reviews d) in
  let reviews :=
    match existingReview with
    | Some _ => overwrite_review userId rating comment (Rated.reviews d)
    | None =>
        (Rated.reviews d ++ [Review.mk userId rating comment PrimFloat.zero])%list
    end in
  updateRating toFixed1
    (Rated.mk reviews (Rated.rating_average d) (Rated.rating_count d)).

(** The review a user has left, if any. *)
Definition review_of (userId : string) (d : Rated.t) : option Review.t :=
  List.find (fun review => String.eqb (Review.user review) userId) (Rated.reviews d).

(** ** More sample data *)

Definition carol : User.t := User.mk "u-carol" "admin" [] None.

Definition world_with_admin : World :=
  set_users (<["u-carol" := carol]> (users world_with_orders)) world_with_orders.

Definition one_decimal (x : float) : float :=
  PrimFloat.div (Math_round (PrimFloat.mul x 10%float)) 10%float.

Definition lamp_reviews : Rated.t :=
  Rated.mk [Review.mk "u-alice" 4%float "Bright" 2%float] 4%float 1%float.

(** Bob with an account that is locked until time 5000. *)
Definition locked_bob : User.t := User.mk "u-bob" "user" [] (Some 5000).

Definition world_with_lock : World :=
  set_users (<["u-bob" := locked_bob]> (users sample_world)) sample_world.

(** An environment whose token verification also accepts the refresh token
    that [sample_jwt_sign] issues for alice. *)
Definition issuing_jwt_verify (secret token : string) (now : Z) : JwtResult :=
  if String.eqb token (sample_jwt_sign "jwt-refresh-secret" "u-alice" 0)
  then (if String.eqb secret "jwt-refresh-secret" then JwtOk "u-alice" else JwtInvalid)
  else sample_jwt_verify secret token now.

Definition issuing_env : Env :=
  mkEnv "rzp_key" "rzp_secret" "whsec" "jwt-secret" "jwt-refresh-secret"
    sample_hmac sample_stringify sample_jwt_sign issuing_jwt_verify
    (razorpay_orders_create sample_env) (razorpay_payments_refund sample_env)
    (shipping_policy sample_env) (tax_policy sample_env)
    (ObjectId_isValid sample_env) (Order_findOne sample_env).

(** Every document of the users collection is stored under its own id. *)
Definition users_keyed (w : World) : Prop :=
  forall id u, users w !! id = Some u -> User._id u = id.

(** Every document of the orders collection is stored under its own id. *)
Definition orders_keyed (w : World) : Prop :=
  forall id o, orders w !! id = Some o -> Order._id o = id.

(** Alice as an administrator. *)
Definition admin_alice : User.t :=
  User.mk "u-alice" "admin" [TokenObj.mk "refresh-alice"] None.

Definition world_admin_alice : World :=
  set_users (<["u-alice" := admin_alice]> (users world_with_orders)) world_with_orders.

(** A [payment.failed] event for the paid order o-9. *)
Definition failed_o9 : JSON :=
  JObject
    [ ("event", JString "payment.failed");
      ("payload",
       JObject
         [ ("payment",
            JObject
              [ ("entity",
                 JObject [ ("notes", JObject [("orderId", JString "o-9")]) ]) ]) ]) ].

(** A verify-payment request aimed at another order. *)
Definition with_orderId (id : string) (body : VerifyBody.t) : VerifyBody.t :=
  VerifyBody.mk id (VerifyBody.razorpayOrderId body)
    (VerifyBody.razorpayPaymentId body) (VerifyBody.razorpaySignature body).

(** The seller of the sample products. *)
Definition seller : User.t := User.mk "u-seller" "user" [] None.

Definition chair_body : CreateProductBody.t :=
  CreateProductBody.mk "Chair" 80%float 4%float [].

(** * Properties *)

(** ** Running the loops of the order routes *)

Lemma validate_items_run (items : list ItemReq.t) :
  forall (orderItems : list OrderItem.t) (itemsPrice : float) (w : World),
    validate_items items orderItems itemsPrice w =
    match resolve_items (products w) items with
    | inl e => (Thrown e, w)
    | inr lines =>
        (Returned
           ((orderItems ++ lines)%list,
            fold_left
              (fun acc line =>
                 PrimFloat.add acc
                   (PrimFloat.mul (OrderItem.price line) (OrderItem.quantity line)))
              lines itemsPrice),
         w)
    end.
Proof.
  induction items as [|item rest IH]; intros orderItems itemsPrice w; simpl.
  - unfold ret. by rewrite app_nil_r.
  - unfold bind, Product_findById, gets.
    destruct (products w !! ItemReq.product item) as [p|] eqn:Hp; [|done].
    destruct (PrimFloat.ltb (Product.stock p) (ItemReq.quantity item)); [done|].
    rewrite IH.
    destruct (resolve_items (products w) rest) as [e|lines]; [done|].
    simpl. by rewrite <- app_assoc.
Qed.

Lemma decrement_stock_run (items : list ItemReq.t) :
  forall w : World,
    decrement_stock items w =
    (Returned tt, set_products (decremented items (products w)) w).
Proof.
  induction items as [|item rest IH]; intros w; simpl.
  - by destruct w.
  - unfold bind, Product_findByIdAndUpdate_inc_stock, modify.
    rewrite IH. by destruct w.
Qed.

Lemma restore_stock_run (lines : list OrderItem.t) :
  forall w : World,
    restore_stock lines w =
    (Returned tt, set_products (restored lines (products w)) w).
Proof.
  induction lines as [|line rest IH]; intros w; simpl.
  - by destruct w.
  - unfold bind, Product_findByIdAndUpdate_inc_stock, modify.
    rewrite IH. by destruct w.
Qed.

Lemma create_order_run (E : Env) (now : Z) (oid orderNumber : string)
    (user : User.t) (body : CreateOrderBody.t) (w : World) :
  create_order E now oid orderNumber user body w =
  match resolve_items (products w) (CreateOrderBody.items body) with
  | inl e => (Thrown e, w)
  | inr lines =>
      (Thrown ParallelSaveError,
       set_orders
         (<[oid := placed E now oid orderNumber user body lines]> (orders w)) w)
  end.
Proof.
  unfold create_order, bind at 1.
  rewrite validate_items_run.
  destruct (resolve_items (products w) (CreateOrderBody.items body)) as [e|lines];
    [done|].
  reflexivity.
Qed.

Lemma resolve_items_snapshots (ps : gmap string Product.t) (items : list ItemReq.t) :
  forall lines : list OrderItem.t,
    resolve_items ps items = inr lines -> Forall2 (snapshot_of ps) items lines.
Proof.
  induction items as [|item rest IH]; intros lines H; simpl in H.
  - inversion H. constructor.
  - destruct (ps !! ItemReq.product item) as [p|] eqn:Hp; [|discriminate].
    destruct (PrimFloat.ltb (Product.stock p) (ItemReq.quantity item)) eqn:Hlt;
      [discriminate|].
    destruct (resolve_items ps rest) as [e|lines'] eqn:Hrest; [discriminate|].
    inversion H; subst. constructor; [|by apply IH].
    exists p. repeat split; done.
Qed.


(** ** Order creation *)


Lemma resolve_items_in_stock (ps : gmap string Product.t) (items : list ItemReq.t) :
  Forall (in_stock ps) items -> exists lines, resolve_items ps items = inr lines.
Proof.
  induction 1 as [|item rest [p [Hp Hlt]] _ [lines IH]]; simpl.
  - by exists [].
  - rewrite Hp, Hlt, IH. by eexists.
Qed.

(** The first item, in the order of the request, that fails its check
    decides the error. *)
Lemma resolve_items_first_failure (ps : gmap string Product.t)
    (items : list ItemReq.t) :
  Exists (under_stocked ps) items ->
  exists pre item post,
    items = (pre ++ item :: post)%list /\
    Forall (in_stock ps) pre /\
    ((exists p,
        ps !! ItemReq.product item = Some p /\
        PrimFloat.ltb (Product.stock p) (ItemReq.quantity item) = true /\
        resolve_items ps items = inl (InsufficientStock (Product.name p))) \/
     (ps !! ItemReq.product item = None /\
      resolve_items ps items = inl (NotFound (ItemReq.product item)))).
Proof.
  induction items as [|a rest IH]; intros Hex; [inversion Hex|].
  simpl.
  destruct (ps !! ItemReq.product a) as [q|] eqn:Hq.
  - destruct (PrimFloat.ltb (Product.stock q) (ItemReq.quantity a)) eqn:Hlt.
    + exists [], a, rest. split; [reflexivity|]. split; [constructor|].
      left. exists q. by rewrite Hq.
    + assert (Hrest : Exists (under_stocked ps) rest).
      { inversion Hex as [? ? [p [Hp Hp']]|]; subst; [|done].
        rewrite Hq in Hp. injection Hp as <-. congruence. }
      destruct (IH Hrest) as [pre [item [post [-> [Hpre Hkind]]]]].
      exists (a :: pre), item, post. split; [reflexivity|].
      split; [constructor; [by exists q|done]|].
      destruct Hkind as [[p [Hp [Hp' ->]]]|[Hp ->]].
      * left. by exists p.
      * by right.
  - exists [], a, rest. split; [reflexivity|]. split; [constructor|].
    right. by rewrite Hq.
Qed.

(** C4, counterexample.  A line for a product that does not exist, followed
    by a line of two desks against a stock of one: the request fails on the
    first line, with NotFound (404) and not with InsufficientStock. *)
Lemma insufficient_stock_reported_fails :
  ~ insufficient_stock_reported sample_env 1000 "o-1" "ORD-1" alice
      ghost_then_desks sample_world.
Proof.
  intros H.
  assert (Hdesks : Exists (under_stocked (products sample_world))
                     (CreateOrderBody.items ghost_then_desks)).
  { apply Exists_cons_tl, Exists_cons_hd. exists desk. split; reflexivity. }
  destruct (H Hdesks) as [e [Hrun [name Hname]]].
  rewrite create_order_run in Hrun. vm_compute in Hrun.
  inversion Hrun as [He]. unfold InsufficientStock in Hname. congruence.
Qed.

(** C4, amended.  When some item is under-stocked the request fails and
    writes nothing: no product's stock is changed and no order is stored.
    The error is the one of the first item, in the order of the request,
    that fails its check, every item before it having passed its own: it
    is InsufficientStock with the name of the product when that item asks
    for more than the stock of its product, and NotFound with the id when
    the product of that item is absent. *)
Theorem create_order_fails_atomically (E : Env) (now : Z) (oid orderNumber : string)
    (user : User.t) (body : CreateOrderBody.t) (w : World) :
  Exists (under_stocked (products w)) (CreateOrderBody.items body) ->
  exists pre item post,
    CreateOrderBody.items body = (pre ++ item :: post)%list /\
    Forall (in_stock (products w)) pre /\
    ((exists p,
        products w !! ItemReq.product item = Some p /\
        PrimFloat.ltb (Product.stock p) (ItemReq.quantity item) = true /\
        create_order E now oid orderNumber user body w
        = (Thrown (InsufficientStock (Product.name p)), w)) \/
     (products w !! ItemReq.product item = None /\
      create_order E now oid orderNumber user body w
      = (Thrown (NotFound (ItemReq.product item)), w))).
Proof.
  intros Hex. rewrite create_order_run.
  destruct (resolve_items_first_failure _ _ Hex)
    as [pre [item [post [Hitems [Hpre Hkind]]]]].
  exists pre, item, post. split; [exact Hitems|]. split; [exact Hpre|].
  destruct Hkind as [[p [Hp [Hlt ->]]]|[Hp ->]].
  - left. by exists p.
  - by right.
Qed.

(** One lamp, which passes, then two desks against a stock of one. *)
Lemma create_order_fails_atomically_witness :
  exists pre item post,
    CreateOrderBody.items lamp_then_desks = (pre ++ item :: post)%list /\
    Forall (in_stock (products sample_world)) pre /\
    ((exists p,
        products sample_world !! ItemReq.product item = Some p /\
        PrimFloat.ltb (Product.stock p) (ItemReq.quantity item) = true /\
        create_order sample_env 1000 "o-1" "ORD-1" alice lamp_then_desks sample_world
        = (Thrown (InsufficientStock (Product.name p)), sample_world)) \/
     (products sample_world !! ItemReq.product item = None /\
      create_order sample_env 1000 "o-1" "ORD-1" alice lamp_then_desks sample_world
      = (Thrown (NotFound (ItemReq.product item)), sample_world))).
Proof.
  apply (create_order_fails_atomically sample_env 1000 "o-1" "ORD-1" alice
           lamp_then_desks sample_world).
  apply Exists_cons_tl, Exists_cons_hd. exists desk. split; reflexivity.
Defined.

Lemma resolve_items_passes (ps : gmap string Product.t) (items : list ItemReq.t) :
  (exists lines, resolve_items ps items = inr lines) <-> Forall (in_stock ps) items.
Proof.
  split; [|apply resolve_items_in_stock].
  intros [lines Hres]. apply resolve_items_snapshots in Hres.
  induction Hres as [|item line items lines [p [Hp [Hlt _]]] _ IH];
    constructor; [by exists p|done].
Qed.

Lemma resolve_items_error (ps : gmap string Product.t) (items : list ItemReq.t)
    (e : Exn) :
  resolve_items ps items = inl e ->
  exists msg code, e = AppError msg code /\ (code = 404 \/ code = 400).
Proof.
  induction items as [|item rest IH]; simpl; [discriminate|].
  destruct (ps !! ItemReq.product item) as [p|].
  - destruct (PrimFloat.ltb (Product.stock p) (ItemReq.quantity item)).
    + intros [= <-]. eexists _, _. split; [reflexivity|by right].
    + destruct (resolve_items ps rest) as [e'|lines]; [|discriminate].
      intros [= <-]. by apply IH.
  - intros [= <-]. eexists _, _. split; [reflexivity|by left].
Qed.

(** C10.  Every line is checked on its own against the products as they
    are when the request arrives: a request with a line that fails its own
    check is refused with 404 or 400 and writes nothing, and a request
    whose lines each pass, whatever they add up to, goes on.  The loop that
    takes the stock comes after the last check, but it is never reached:
    the order is stored by the save that the un-awaited [addStatusUpdate]
    starts, the handler's own [save] is rejected as a parallel save, the
    request is answered with 500, and every product keeps its stock. *)
Theorem create_order_stops_at_second_save (E : Env) (now : Z)
    (oid orderNumber : string) (user : User.t) (body : CreateOrderBody.t)
    (w : World) :
  (Forall (in_stock (products w)) (CreateOrderBody.items body) ->
   exists lines,
     Forall2 (snapshot_of (products w)) (CreateOrderBody.items body) lines /\
     create_order E now oid orderNumber user body w
     = (Thrown ParallelSaveError,
        mkWorld (products w)
          (<[oid := placed E now oid orderNumber user body lines]> (orders w))
          (users w) (gateway w)) /\
     res_status (errorHandler ParallelSaveError) = 500) /\
  (~ Forall (in_stock (products w)) (CreateOrderBody.items body) ->
   exists msg code,
     create_order E now oid orderNumber user body w
     = (Thrown (AppError msg code), w) /\
     (code = 404 \/ code = 400)).
Proof.
  rewrite create_order_run.
  pose proof (resolve_items_passes (products w) (CreateOrderBody.items body))
    as Hpass.
  destruct (resolve_items (products w) (CreateOrderBody.items body))
    as [e|lines] eqn:Hres.
  - split.
    + intros Hall. apply Hpass in Hall as [lines Habs]. discriminate.
    + intros _. destruct (resolve_items_error _ _ _ Hres) as [msg [code [-> Hcode]]].
      by exists msg, code.
  - split.
    + intros _. exists lines. split; [by apply resolve_items_snapshots|]. by split.
    + intros Hnot. destruct Hnot. apply Hpass. by exists lines.
Qed.

(** The same product in two lines of three against a stock of five: each
    line passes, the order is stored, the request fails and the stock is
    still five. *)
Lemma create_order_stops_at_second_save_witness :
  (exists lines,
     Forall2 (snapshot_of (products sample_world)) (CreateOrderBody.items lamp_twice)
       lines /\
     create_order sample_env 1000 "o-1" "ORD-1" alice lamp_twice sample_world
     = (Thrown ParallelSaveError,
        mkWorld (products sample_world)
          (<["o-1" := placed sample_env 1000 "o-1" "ORD-1" alice lamp_twice lines]>
             (orders sample_world))
          (users sample_world) (gateway sample_world)) /\
     res_status (errorHandler ParallelSaveError) = 500) /\
  Product.stock <$>
    products (snd (create_order sample_env 1000 "o-1" "ORD-1" alice lamp_twice
                     sample_world)) !! "p-lamp"
  = Some 5%float.
Proof.
  split.
  - apply (proj1 (create_order_stops_at_second_save sample_env 1000 "o-1" "ORD-1"
                    alice lamp_twice sample_world)).
    repeat constructor; exists lamp; split; reflexivity.
  - vm_compute. reflexivity.
Defined.

(** ** Cancellation *)

Lemma cancellable_spec (status : string) :
  cancellable status = true <-> status = "pending" \/ status = "confirmed".
Proof.
  unfold cancellable. rewrite orb_true_iff, !String.eqb_eq. tauto.
Qed.

Lemma inc_stock_lookup_ne (id pid : string) (d : float) (ps : gmap string Product.t) :
  id <> pid -> inc_stock id d ps !! pid = ps !! pid.
Proof.
  intros Hne. unfold inc_stock.
  destruct (ps !! id); [|done]. by rewrite lookup_insert_ne.
Qed.

Lemma inc_stock_lookup_eq (pid : string) (d : float) (ps : gmap string Product.t)
    (p : Product.t) :
  ps !! pid = Some p ->
  inc_stock pid d ps !! pid
  = Some (Product.set_stock (PrimFloat.add (Product.stock p) d) p).
Proof.
  intros Hp. unfold inc_stock. rewrite Hp. by rewrite lookup_insert_eq.
Qed.

(** After the restoration loop a product holds its former stock plus, one
    after the other, the quantities of the line items that reference it. *)
Lemma restored_lookup (pid : string) (lines : list OrderItem.t) :
  forall (ps : gmap string Product.t) (p : Product.t),
    ps !! pid = Some p ->
    restored lines ps !! pid
    = Some (Product.set_stock
              (fold_left PrimFloat.add (quantities_of pid lines) (Product.stock p)) p).
Proof.
  unfold restored, quantities_of.
  induction lines as [|line rest IH]; intros ps p Hp; simpl.
  - rewrite Hp. by destruct p.
  - destruct (String.eqb (OrderItem.product line) pid) eqn:Heq; simpl.
    + apply String.eqb_eq in Heq. rewrite Heq.
      erewrite IH by (by apply inc_stock_lookup_eq). by destruct p.
    + apply String.eqb_neq in Heq. apply IH. by rewrite inc_stock_lookup_ne.
Qed.

Lemma restored_lookup_None (pid : string) (lines : list OrderItem.t) :
  forall ps : gmap string Product.t,
    ps !! pid = None -> restored lines ps !! pid = None.
Proof.
  unfold restored.
  induction lines as [|line rest IH]; intros ps Hp; simpl; [done|].
  apply IH. unfold inc_stock.
  destruct (ps !! OrderItem.product line) eqn:Hq; [|done].
  rewrite lookup_insert_ne; [done|]. intros Heq. rewrite Heq in Hq. congruence.
Qed.

(** C5.  Cancellation of a stored order returns only when its status is
    'pending' or 'confirmed' (and the caller owns it).  For the owner of
    such an order it appends the 'cancelled' entry and runs the restoration
    loop, after which every product holds its former stock plus the
    quantities of the line items that reference it.  For an order in any
    other status it fails and leaves products and orders as they were; the
    error is the Conflict error when the caller owns the order. *)
Theorem cancel_order_restores_stock (now : Z) (user : User.t) (id : string)
    (w : World) (o : Order.t) :
  orders w !! id = Some o ->
  Order._id o = id ->
  (forall o' w', cancel_order now user id w = (Returned o', w') ->
     (Order.status o = "pending" \/ Order.status o = "confirmed") /\
     Order.user o = User._id user) /\
  (Order.user o = User._id user ->
   Order.status o = "pending" \/ Order.status o = "confirmed" ->
     let o' := push_status "cancelled" "Cancelled by user" now o in
     cancel_order now user id w
     = (Returned o',
        mkWorld (restored (Order.items o) (products w))
                (<[id := o']> (orders w)) (users w) (gateway w)) /\
     Order.statusHistory o'
     = (Order.statusHistory o
          ++ [StatusEntry.mk "cancelled" "Cancelled by user" now])%list /\
     forall pid p,
       products w !! pid = Some p ->
       restored (Order.items o) (products w) !! pid
       = Some (Product.set_stock
                 (fold_left PrimFloat.add (quantities_of pid (Order.items o))
                    (Product.stock p)) p)) /\
  (~ (Order.status o = "pending" \/ Order.status o = "confirmed") ->
     exists e,
       cancel_order now user id w = (Thrown e, w) /\
       (Order.user o = User._id user -> e = Conflict)).
Proof.
  intros Ho Hid.
  assert (Hrun : cancel_order now user id w =
                 if negb (String.eqb (Order.user o) (User._id user))
                 then (Thrown (AppError "Not authorized to cancel this order" 403), w)
                 else if cancellable (Order.status o)
                 then (Returned (push_status "cancelled" "Cancelled by user" now o),
                       mkWorld (restored (Order.items o) (products w))
                         (<[id := push_status "cancelled" "Cancelled by user" now o]>
                            (orders w)) (users w) (gateway w))
                 else (Thrown Conflict, w)).
  { unfold cancel_order, bind at 1. unfold Order_findById, gets. rewrite Ho.
    destruct (negb (String.eqb (Order.user o) (User._id user))); [done|].
    destruct (cancellable (Order.status o)); [|done]. simpl.
    unfold bind, addStatusUpdate, bind, Order_save, modify, ret. simpl.
    rewrite restore_stock_run. simpl. by rewrite Hid. }
  rewrite Hrun. split; [|split].
  - intros o' w' H.
    destruct (String.eqb_spec (Order.user o) (User._id user)) as [Hu|Hu];
      [|discriminate].
    split; [|exact Hu]. apply cancellable_spec.
    simpl in H. destruct (cancellable (Order.status o)); [done|discriminate].
  - intros Huser Hst. rewrite Huser, String.eqb_refl. simpl.
    apply cancellable_spec in Hst. rewrite Hst.
    split; [reflexivity|]. split; [reflexivity|].
    intros pid p Hp. by apply restored_lookup.
  - intros Hnot.
    assert (Hc : cancellable (Order.status o) = false).
    { destruct (cancellable (Order.status o)) eqn:Hc; [|done].
      by apply cancellable_spec in Hc. }
    rewrite Hc.
    destruct (String.eqb_spec (Order.user o) (User._id user)) as [Hu|Hu]; simpl.
    + by exists Conflict.
    + eexists. split; [reflexivity|]. intros Heq. by destruct Hu.
Qed.

Lemma cancel_order_restores_stock_witness :
  let o' := push_status "cancelled" "Cancelled by user" 1000 pending_order in
  cancel_order 1000 alice "o-7" world_with_orders
  = (Returned o',
     mkWorld (restored (Order.items pending_order) (products world_with_orders))
             (<["o-7" := o']> (orders world_with_orders))
             (users world_with_orders) (gateway world_with_orders)) /\
  Product.stock <$>
    restored (Order.items pending_order) (products world_with_orders) !! "p-lamp"
  = Some 7%float.
Proof.
  pose proof (cancel_order_restores_stock 1000 alice "o-7" world_with_orders
                pending_order eq_refl eq_refl) as [_ [Hok _]].
  destruct (Hok eq_refl (or_introl eq_refl)) as [Hrun [_ Hstock]].
  split; [exact Hrun|].
  by rewrite (Hstock "p-lamp" lamp).
Defined.

(** The end-to-end scenario of the specification: a product with stock 5
    and price 100, an order of two of them, and its cancellation.  The
    order is stored with an items price of 200 while the request fails and
    the stock stays at 5; the cancellation of the stored order then adds
    the two lamps that were never taken. *)
Example order_then_cancel :
  exists o w1 o' w2,
    create_order sample_env 1000 "o-1" "ORD-1" alice two_lamps sample_world
    = (Thrown ParallelSaveError, w1) /\
    orders w1 !! "o-1" = Some o /\
    Order.itemsPrice o = 200%float /\
    Product.stock <$> products w1 !! "p-lamp" = Some 5%float /\
    cancel_order 2000 alice "o-1" w1 = (Returned o', w2) /\
    Product.stock <$> products w2 !! "p-lamp" = Some 7%float /\
    Order.status o' = "cancelled" /\
    Order.statusHistory o'
    = (Order.statusHistory o
         ++ [StatusEntry.mk "cancelled" "Cancelled by user" 2000])%list.
Proof.
  eexists _, _, _, _.
  split; [vm_compute; reflexivity|].
  split; [vm_compute; reflexivity|].
  split; [reflexivity|]. split; [vm_compute; reflexivity|].
  split; [vm_compute; reflexivity|].
  split; [vm_compute; reflexivity|]. split; reflexivity.
Qed.

(** ** Payment verification *)

Lemma addStatusUpdate_run (o : Order.t) (status note : string) (now : Z) (w : World) :
  addStatusUpdate o status note now w
  = (Returned (push_status status note now o),
     set_orders (<[Order._id o := push_status status note now o]> (orders w)) w).
Proof. reflexivity. Qed.

(** C2.  Verify-payment compares the provided signature with the
    HMAC-SHA256, keyed by the gateway secret, of the gateway order id, a
    bar and the payment id.  The request returns only when the two are
    equal (and the order exists and belongs to the caller); it then stores
    the order as paid, with the time of the request as paid timestamp and a
    'confirmed' entry appended to its history.  When they differ the
    request fails and the world, the order and its [isPaid] included, is
    left as it was; the error is InvalidSignature (400) when the request
    reaches the comparison, that is for the owner of an existing order. *)
Theorem verify_payment_checks_signature (E : Env) (now : Z) (user : User.t)
    (body : VerifyBody.t) (w : World) :
  let expected :=
    hmac_sha256_hex E (RAZORPAY_KEY_SECRET E)
      (VerifyBody.razorpayOrderId body ++ "|" ++ VerifyBody.razorpayPaymentId body) in
  (forall o' w',
     verify_payment E now user body w = (Returned o', w') ->
     VerifyBody.razorpaySignature body = expected) /\
  (forall o,
     orders w !! VerifyBody.orderId body = Some o ->
     Order._id o = VerifyBody.orderId body ->
     Order.user o = User._id user ->
     VerifyBody.razorpaySignature body = expected ->
     exists o',
       verify_payment E now user body w
       = (Returned o', set_orders (<[VerifyBody.orderId body := o']> (orders w)) w) /\
       Order.isPaid o' = true /\
       Order.paidAt o' = Some now /\
       Order.status o' = "confirmed" /\
       Order.statusHistory o'
       = (Order.statusHistory o
            ++ [StatusEntry.mk "confirmed" "Payment completed successfully" now])%list) /\
  (VerifyBody.razorpaySignature body <> expected ->
     exists e,
       verify_payment E now user body w = (Thrown e, w) /\
       forall o,
         orders w !! VerifyBody.orderId body = Some o ->
         Order.user o = User._id user ->
         e = InvalidSignature).
Proof.
  intros expected.
  assert (Hrun : verify_payment E now user body w =
                 match orders w !! VerifyBody.orderId body with
                 | None => (Thrown (AppError "Order not found" 404), w)
                 | Some o =>
                     if negb (String.eqb (Order.user o) (User._id user))
                     then (Thrown (AppError "Not authorized" 403), w)
                     else if String.eqb expected (VerifyBody.razorpaySignature body)
                     then addStatusUpdate (mark_verified body now o)
                            "confirmed" "Payment completed successfully" now w
                     else (Thrown InvalidSignature, w)
                 end).
  { unfold verify_payment, bind, Order_findById, gets.
    destruct (orders w !! VerifyBody.orderId body) as [o|]; [|done].
    destruct (negb (String.eqb (Order.user o) (User._id user))); [done|].
    unfold expected_payment_signature. fold expected.
    by destruct (String.eqb expected (VerifyBody.razorpaySignature body)). }
  rewrite Hrun. split; [|split].
  - intros o' w'.
    destruct (orders w !! VerifyBody.orderId body) as [o|]; [|discriminate].
    destruct (negb (String.eqb (Order.user o) (User._id user))); [discriminate|].
    destruct (String.eqb_spec expected (VerifyBody.razorpaySignature body))
      as [Heq|Hne]; [|discriminate].
    intros _. by symmetry.
  - intros o Ho Hid Huser Hsig. rewrite Ho, Huser, String.eqb_refl. simpl.
    rewrite <- Hsig, String.eqb_refl, addStatusUpdate_run. simpl. rewrite Hid.
    eexists. split; [reflexivity|]. repeat split; reflexivity.
  - intros Hdiff.
    destruct (orders w !! VerifyBody.orderId body) as [o|].
    + destruct (String.eqb_spec (Order.user o) (User._id user)) as [Hu|Hu]; simpl.
      * destruct (String.eqb_spec expected (VerifyBody.razorpaySignature body))
          as [Heq|Hne]; [by destruct Hdiff|].
        by exists InvalidSignature.
      * eexists. split; [reflexivity|].
        intros o0 [= <-] Huser. by destruct Hu.
    + eexists. split; [reflexivity|]. intros o0 Habs. discriminate.
Qed.

Lemma verify_payment_checks_signature_witness :
  (exists o',
     verify_payment sample_env 1000 alice signed_verification world_with_orders
     = (Returned o',
        set_orders (<["o-7" := o']> (orders world_with_orders)) world_with_orders) /\
     Order.isPaid o' = true /\
     Order.paidAt o' = Some 1000 /\
     Order.status o' = "confirmed" /\
     Order.statusHistory o'
     = (Order.statusHistory pending_order
          ++ [StatusEntry.mk "confirmed" "Payment completed successfully" 1000])%list) /\
  (exists e,
     verify_payment sample_env 1000 alice forged_verification world_with_orders
     = (Thrown e, world_with_orders) /\
     e = InvalidSignature).
Proof.
  split.
  - exact (proj1 (proj2
             (verify_payment_checks_signature sample_env 1000 alice
                signed_verification world_with_orders))
             pending_order eq_refl eq_refl eq_refl eq_refl).
  - destruct (proj2 (proj2
                (verify_payment_checks_signature sample_env 1000 alice
                   forged_verification world_with_orders)))
      as [e [Hrun He]]; [discriminate|].
    exists e. split; [exact Hrun|]. exact (He pending_order eq_refl eq_refl).
Defined.

(** ** The webhook *)

Lemma prop_readable (v : JSON) (k : string) (w : World) :
  readable v = true -> prop v k w = (Returned (get v k), w).
Proof. by destruct v. Qed.

Lemma prop_unreadable (v : JSON) (k : string) (w : World) :
  readable v = false -> exists msg, prop v k w = (Thrown (TypeError msg), w).
Proof. destruct v; try discriminate; intros _; by eexists. Qed.

Lemma payload_orderId_some (payload v : JSON) (w : World) :
  notes_orderId payload = Some v -> payload_orderId payload w = (Returned v, w).
Proof.
  unfold notes_orderId, payload_orderId.
  destruct (readable payload) eqn:H1; [|discriminate].
  destruct (readable (get payload "payment")) eqn:H2; [|discriminate].
  destruct (readable (get (get payload "payment") "entity")) eqn:H3; [|discriminate].
  destruct (readable (get (get (get payload "payment") "entity") "notes")) eqn:H4;
    [|discriminate].
  simpl. intros [= <-]. unfold bind.
  rewrite (prop_readable _ _ _ H1), (prop_readable _ _ _ H2),
    (prop_readable _ _ _ H3).
  by apply prop_readable.
Qed.

Lemma payload_orderId_none (payload : JSON) (w : World) :
  notes_orderId payload = None ->
  exists msg, payload_orderId payload w = (Thrown (TypeError msg), w).
Proof.
  unfold notes_orderId, payload_orderId, bind.
  destruct (readable payload) eqn:H1.
  2: { intros _. destruct (prop_unreadable _ "payment" w H1) as [msg ->]. by eexists. }
  rewrite (prop_readable _ _ _ H1).
  destruct (readable (get payload "payment")) eqn:H2.
  2: { intros _. destruct (prop_unreadable _ "entity" w H2) as [msg ->]. by eexists. }
  rewrite (prop_readable _ _ _ H2).
  destruct (readable (get (get payload "payment") "entity")) eqn:H3.
  2: { intros _. destruct (prop_unreadable _ "notes" w H3) as [msg ->]. by eexists. }
  rewrite (prop_readable _ _ _ H3).
  destruct (readable (get (get (get payload "payment") "entity") "notes")) eqn:H4.
  - discriminate.
  - intros _. by apply prop_unreadable.
Qed.

Lemma Order_findById_json_run (E : Env) (v : JSON) (w : World) :
  Order_findById_json E v w
  = if castable E w v then (Returned (find_order E w v), w)
    else (Thrown CastError, w).
Proof.
  destruct v as [| | | |id|l|fields]; simpl; try reflexivity.
  - unfold bind, Order_findById, gets.
    destruct (orders w !! id); [reflexivity|].
    by destruct (ObjectId_isValid E id).
  - unfold bind, gets. by destruct (Order_findOne E (JArray l) (orders w)).
  - unfold bind, gets. by destruct (Order_findOne E (JObject fields) (orders w)).
Qed.

Lemma on_payment_captured_run (E : Env) (now : Z) (payload v : JSON) (w : World) :
  notes_orderId payload = Some v ->
  on_payment_captured E now payload w
  = if castable E w v
    then (Returned tt, store_for E w (Some v) (captured now))
    else (Thrown CastError, w).
Proof.
  intros Hv. unfold on_payment_captured, bind at 1.
  rewrite (payload_orderId_some _ _ _ Hv).
  unfold bind at 1. rewrite Order_findById_json_run.
  destruct (castable E w v); [|reflexivity].
  unfold store_for. simpl. by destruct (find_order E w v).
Qed.

Lemma on_payment_failed_run (E : Env) (now : Z) (payload v : JSON) (w : World) :
  notes_orderId payload = Some v ->
  on_payment_failed E now payload w
  = if castable E w v
    then (Returned tt, store_for E w (Some v) (payment_failed now))
    else (Thrown CastError, w).
Proof.
  intros Hv. unfold on_payment_failed, bind at 1.
  rewrite (payload_orderId_some _ _ _ Hv).
  unfold bind at 1. rewrite Order_findById_json_run.
  destruct (castable E w v); [|reflexivity].
  unfold store_for. simpl. by destruct (find_order E w v).
Qed.

Lemma webhook_rejected (E : Env) (now : Z) (req : WebhookReq.t) (w : World) :
  signature_verifies E req = false ->
  webhook E now req w = (Thrown (AppError "Invalid webhook signature" 400), w).
Proof.
  unfold signature_verifies, webhook. intros H.
  apply negb_false_iff in H. by rewrite H.
Qed.

(** A verified request with a body of the shape the handler reads runs to
    the lookup of the order, which decides the outcome. *)
Lemma webhook_shaped (E : Env) (now : Z) (req : WebhookReq.t) (w : World) :
  signature_verifies E req = true ->
  well_shaped (WebhookReq.body req) = true ->
  webhook E now req w
  = if orderId_castable E w (WebhookReq.body req)
    then (Returned tt, after_webhook E now (WebhookReq.body req) w)
    else (Thrown CastError, w).
Proof.
  unfold signature_verifies, webhook, well_shaped, after_webhook, orderId_castable.
  intros Hsig Hshape. apply negb_true_iff in Hsig. rewrite Hsig.
  apply andb_true_iff in Hshape as [Hbody Hpath].
  unfold bind. rewrite !(prop_readable _ _ _ Hbody).
  destruct (is_event (get (WebhookReq.body req) "event") "payment.captured").
  - simpl in Hpath |- *.
    destruct (notes_orderId (get (WebhookReq.body req) "payload")) as [v|] eqn:Hv;
      [|discriminate].
    by apply on_payment_captured_run.
  - destruct (is_event (get (WebhookReq.body req) "event") "payment.failed");
      [|done].
    simpl in Hpath |- *.
    destruct (notes_orderId (get (WebhookReq.body req) "payload")) as [v|] eqn:Hv;
      [|discriminate].
    by apply on_payment_failed_run.
Qed.

Lemma webhook_well_shaped (E : Env) (now : Z) (req : WebhookReq.t) (w : World) :
  signature_verifies E req = true ->
  well_shaped (WebhookReq.body req) = true ->
  orderId_castable E w (WebhookReq.body req) = true ->
  webhook E now req w = (Returned tt, after_webhook E now (WebhookReq.body req) w).
Proof.
  intros Hsig Hshape Hcast. by rewrite (webhook_shaped _ _ _ _ Hsig Hshape), Hcast.
Qed.

Lemma webhook_ill_shaped (E : Env) (now : Z) (req : WebhookReq.t) (w : World) :
  signature_verifies E req = true ->
  well_shaped (WebhookReq.body req) = false ->
  exists msg, webhook E now req w = (Thrown (TypeError msg), w).
Proof.
  unfold signature_verifies, webhook, well_shaped.
  intros Hsig Hshape. apply negb_true_iff in Hsig. rewrite Hsig.
  unfold bind.
  destruct (readable (WebhookReq.body req)) eqn:Hbody.
  2: { destruct (prop_unreadable _ "event" w Hbody) as [msg ->]. by eexists. }
  rewrite !(prop_readable _ _ _ Hbody). simpl in Hshape.
  destruct (is_event (get (WebhookReq.body req) "event") "payment.captured").
  - simpl in Hshape.
    destruct (notes_orderId (get (WebhookReq.body req) "payload")) eqn:Hv;
      [discriminate|].
    unfold on_payment_captured, bind.
    destruct (payload_orderId_none _ w Hv) as [msg ->]. by eexists.
  - destruct (is_event (get (WebhookReq.body req) "event") "payment.failed");
      [|discriminate].
    simpl in Hshape.
    destruct (notes_orderId (get (WebhookReq.body req) "payload")) eqn:Hv;
      [discriminate|].
    unfold on_payment_failed, bind.
    destruct (payload_orderId_none _ w Hv) as [msg ->]. by eexists.
Qed.

(** An event for a stored order that the notes name by its id: the shape
    is the one the handler reads and the id casts. *)
Lemma named_order_accepted (E : Env) (req : WebhookReq.t) (w : World)
    (event id : string) (o : Order.t) :
  readable (WebhookReq.body req) = true ->
  get (WebhookReq.body req) "event" = JString event ->
  notes_orderId (get (WebhookReq.body req) "payload") = Some (JString id) ->
  orders w !! id = Some o ->
  well_shaped (WebhookReq.body req) = true /\
  orderId_castable E w (WebhookReq.body req) = true.
Proof.
  intros Hbody Hevent Hv Ho. unfold well_shaped, orderId_castable.
  rewrite Hbody, Hevent, Hv. simpl. rewrite Ho.
  split; by destruct (_ || _).
Qed.

(** C7, counterexample.  A [payment.captured] event without a payload,
    signed with the webhook secret: the signature verifies, the read of
    [payload.payment] throws a TypeError and the answer is not 200. *)
Lemma verified_webhook_answers_200_fails :
  ~ verified_webhook_answers_200 sample_env 1000
      (signed captured_without_payload) world_with_orders.
Proof.
  intros H. specialize (H eq_refl). vm_compute in H. discriminate.
Qed.

(** C7, amended.  A signature that does not verify is answered with 400
    and nothing is written.  A request whose signature verifies is
    answered with 200 exactly when the body has the shape the handler reads
    (an object that, for the events payment.captured and payment.failed,
    carries payload.payment.entity.notes) and, for these two events, the
    value at notes.orderId is one that [Order.findById] takes: undefined,
    null, the id of a stored order, another string that casts to an
    ObjectId, or a filter whose cast succeeds.  This covers a verified
    event of any other type, which is ignored, and a payment event for an
    order that does not exist, which writes nothing.  Every other verified
    request is answered with 500 and writes nothing. *)
Theorem webhook_answers (E : Env) (now : Z) (req : WebhookReq.t) (w : World) :
  (res_status (fst (route_webhook E now req w)) = 200
   <-> signature_verifies E req = true /\
       well_shaped (WebhookReq.body req) = true /\
       orderId_castable E w (WebhookReq.body req) = true) /\
  (signature_verifies E req = false ->
   route_webhook E now req w
   = (mkResponse 400 false (Some "Invalid webhook signature"), w)) /\
  (signature_verifies E req = true ->
   readable (WebhookReq.body req) = true ->
   is_event (get (WebhookReq.body req) "event") "payment.captured" = false ->
   is_event (get (WebhookReq.body req) "event") "payment.failed" = false ->
   route_webhook E now req w = (mkResponse 200 true None, w)) /\
  (signature_verifies E req = true ->
   forall v,
     readable (WebhookReq.body req) = true ->
     notes_orderId (get (WebhookReq.body req) "payload") = Some v ->
     castable E w v = true ->
     find_order E w v = None ->
     route_webhook E now req w = (mkResponse 200 true None, w)) /\
  (signature_verifies E req = true ->
   well_shaped (WebhookReq.body req) = false
   \/ orderId_castable E w (WebhookReq.body req) = false ->
   route_webhook E now req w
   = (mkResponse 500 false (Some "Internal server error"), w)).
Proof.
  unfold route_webhook, catchAsync.
  destruct (signature_verifies E req) eqn:Hsig.
  - destruct (well_shaped (WebhookReq.body req)) eqn:Hshape.
    + rewrite (webhook_shaped _ _ _ _ Hsig Hshape).
      destruct (orderId_castable E w (WebhookReq.body req)) eqn:Hcast; simpl.
      * split; [tauto|]. split; [discriminate|].
        unfold after_webhook. split; [|split].
        -- intros _ _ -> ->. reflexivity.
        -- intros _ v _ Hv _ Hnone. rewrite Hv. unfold store_for. simpl.
           rewrite Hnone.
           destruct (is_event (get (WebhookReq.body req) "event") "payment.captured");
             [reflexivity|].
           destruct (is_event (get (WebhookReq.body req) "event") "payment.failed");
             reflexivity.
        -- intros _ [?|?]; discriminate.
      * split; [split; [discriminate|intros [_ [_ ?]]; discriminate]|].
        split; [discriminate|].
        unfold orderId_castable in Hcast. split; [|split].
        -- intros _ _ Hc Hf. rewrite Hc, Hf in Hcast. discriminate.
        -- intros _ v _ Hv Hcastable _. rewrite Hv, Hcastable in Hcast.
           destruct (_ || _); discriminate.
        -- reflexivity.
    + destruct (webhook_ill_shaped _ now _ w Hsig Hshape) as [msg ->]. simpl.
      split; [split; [discriminate|intros [_ [? _]]; discriminate]|].
      split; [discriminate|].
      unfold well_shaped in Hshape. split; [|split].
      * intros _ Hbody Hc Hf. rewrite Hbody, Hc, Hf in Hshape. discriminate.
      * intros _ v Hbody Hv _ _. rewrite Hbody, Hv in Hshape. simpl in Hshape.
        destruct (is_event (get (WebhookReq.body req) "event") "payment.captured"
                  || is_event (get (WebhookReq.body req) "event") "payment.failed");
          discriminate.
      * reflexivity.
  - rewrite (webhook_rejected _ _ _ _ Hsig). simpl.
    split; [split; [discriminate|intros [? _]; discriminate]|].
    split; [done|]. split; [discriminate|]. split; discriminate.
Qed.

(** An event of another type, a signature that does not verify, a payment
    event for a well-formed id under which no order is stored, and one for
    the id 'zzz', which does not cast. *)
Lemma webhook_answers_witness :
  route_webhook sample_env 1000
    (signed (JObject [("event", JString "payment.authorized")])) world_with_orders
  = (mkResponse 200 true None, world_with_orders) /\
  route_webhook sample_env 1000
    (WebhookReq.mk (Some "0000") captured_o7) world_with_orders
  = (mkResponse 400 false (Some "Invalid webhook signature"), world_with_orders) /\
  route_webhook sample_env 1000
    (signed (captured_with (JString "64b7f3a2c9e1d4f5a6b7c8d9"))) world_with_orders
  = (mkResponse 200 true None, world_with_orders) /\
  route_webhook sample_env 1000
    (signed (captured_with (JString "zzz"))) world_with_orders
  = (mkResponse 500 false (Some "Internal server error"), world_with_orders).
Proof.
  split; [|split; [|split]].
  - exact (proj1 (proj2 (proj2
             (webhook_answers sample_env 1000
                (signed (JObject [("event", JString "payment.authorized")]))
                world_with_orders)))
             eq_refl eq_refl eq_refl eq_refl).
  - exact (proj1 (proj2
             (webhook_answers sample_env 1000
                (WebhookReq.mk (Some "0000") captured_o7) world_with_orders))
             eq_refl).
  - exact (proj1 (proj2 (proj2 (proj2
             (webhook_answers sample_env 1000
                (signed (captured_with (JString "64b7f3a2c9e1d4f5a6b7c8d9")))
                world_with_orders))))
             eq_refl (JString "64b7f3a2c9e1d4f5a6b7c8d9")
             eq_refl eq_refl eq_refl eq_refl).
  - exact (proj2 (proj2 (proj2 (proj2
             (webhook_answers sample_env 1000
                (signed (captured_with (JString "zzz"))) world_with_orders))))
             eq_refl (or_intror eq_refl)).
Defined.

(** C3, counterexample.  The [payment.captured] event for the order o-7,
    delivered at time 1000 and again at time 2000: the second delivery
    changes the order once more. *)
Lemma second_delivery_is_noop_fails :
  ~ second_delivery_is_noop sample_env 1000 2000 (signed captured_o7)
      world_with_orders.
Proof.
  unfold second_delivery_is_noop. intros H.
  apply (f_equal (fun w => Order.paidAt <$> orders w !! "o-7")) in H.
  vm_compute in H. discriminate.
Qed.

(** C3, amended.  Two deliveries of a verified [payment.captured] event
    for a stored order are both answered with 200.  The second one leaves
    [isPaid], [paymentStatus] and [status] as the first one set them, but
    it is a further write: it replaces the paid timestamp by the time of
    the second delivery and appends one more 'confirmed' entry to the
    status history. *)
Theorem captured_twice (E : Env) (now1 now2 : Z) (req : WebhookReq.t)
    (w : World) (id : string) (o : Order.t) :
  signature_verifies E req = true ->
  readable (WebhookReq.body req) = true ->
  get (WebhookReq.body req) "event" = JString "payment.captured" ->
  notes_orderId (get (WebhookReq.body req) "payload") = Some (JString id) ->
  orders w !! id = Some o ->
  Order._id o = id ->
  let o1 := captured now1 o in
  let o2 := captured now2 o1 in
  let w1 := set_orders (<[id := o1]> (orders w)) w in
  route_webhook E now1 req w = (mkResponse 200 true None, w1) /\
  route_webhook E now2 req w1
  = (mkResponse 200 true None, set_orders (<[id := o2]> (orders w)) w) /\
  Order.isPaid o1 = true /\ Order.isPaid o2 = true /\
  Order.paymentStatus o1 = "completed" /\ Order.paymentStatus o2 = "completed" /\
  Order.status o1 = "confirmed" /\ Order.status o2 = "confirmed" /\
  Order.paidAt o1 = Some now1 /\ Order.paidAt o2 = Some now2 /\
  Order.statusHistory o2
  = (Order.statusHistory o1
       ++ [StatusEntry.mk "confirmed" "Payment captured via webhook" now2])%list.
Proof.
  intros Hsig Hbody Hevent Hv Ho Hid o1 o2 w1.
  destruct (named_order_accepted E req w _ id o Hbody Hevent Hv Ho)
    as [Hshape Hcast].
  destruct (named_order_accepted E req w1 _ id o1 Hbody Hevent Hv
              (lookup_insert_eq _ _ _)) as [_ Hcast1].
  unfold route_webhook, catchAsync.
  rewrite (webhook_well_shaped _ _ _ _ Hsig Hshape Hcast).
  rewrite (webhook_well_shaped _ _ _ _ Hsig Hshape Hcast1).
  unfold after_webhook, store_for. rewrite Hevent, Hv. simpl.
  rewrite Ho, lookup_insert_eq. simpl. rewrite Hid, insert_insert_eq.
  repeat split.
Qed.

Lemma captured_twice_witness :
  let o1 := captured 1000 pending_order in
  let o2 := captured 2000 o1 in
  let w1 := set_orders (<["o-7" := o1]> (orders world_with_orders)) world_with_orders in
  route_webhook sample_env 1000 (signed captured_o7) world_with_orders
  = (mkResponse 200 true None, w1) /\
  route_webhook sample_env 2000 (signed captured_o7) w1
  = (mkResponse 200 true None,
     set_orders (<["o-7" := o2]> (orders world_with_orders)) world_with_orders) /\
  Order.paidAt o1 = Some 1000 /\ Order.paidAt o2 = Some 2000 /\
  length (Order.statusHistory o1) = 2%nat /\
  length (Order.statusHistory o2) = 3%nat.
Proof.
  pose proof (captured_twice sample_env 1000 2000 (signed captured_o7)
                world_with_orders "o-7" pending_order
                eq_refl eq_refl eq_refl eq_refl eq_refl eq_refl)
    as [H1 [H2 [_ [_ [_ [_ [_ [_ [H3 [H4 _]]]]]]]]]].
  split; [exact H1|]. split; [exact H2|]. split; [exact H3|].
  split; [exact H4|]. split; reflexivity.
Defined.

(** ** Refund *)

Lemma refund_run (E : Env) (now : Z) (body : RefundBody.t) (w : World) (o : Order.t) :
  orders w !! RefundBody.orderId body = Some o ->
  refund E now body w =
  if Order.isPaid o then
    match razorpay_payments_refund E (refund_request body o) with
    | inl e => (Thrown e, log_gateway (payments_refund (refund_request body o)) w)
    | inr refundId =>
        (Returned refundId,
         mkWorld (products w)
           (<[Order._id o := refunded now refundId o]> (orders w))
           (users w)
           (gateway w ++ [payments_refund (refund_request body o)]))
    end
  else (Thrown (AppError "Order is not paid" 400), w).
Proof.
  intros Ho. unfold refund, bind at 1. unfold Order_findById, gets. rewrite Ho.
  destruct (Order.isPaid o); [|done]. simpl.
  unfold bind at 1. unfold gateway_payments_refund. fold (refund_request body o).
  by destruct (razorpay_payments_refund E (refund_request body o)).
Qed.

(** C6.  The refund route is mounted behind [authenticate] alone.  Bob,
    whose role is 'user', refunds the paid order o-9 of alice: the request
    is answered with 200, the gateway receives the refund, and the order is
    stored with payment status 'refunded' and a 'cancelled' entry that
    carries the refund id.  The same caller is turned away with 403 by the
    status route, which is mounted behind [authorize('admin')]. *)
Theorem refund_open_to_non_admin :
  User.role bob = "user" /\
  authenticate sample_env 1000 (Some "Bearer access-bob") world_with_orders = inr bob /\
  route_refund sample_env 1000 (Some "Bearer access-bob") refund_o9 world_with_orders
  = (ok "Refund processed successfully",
     mkWorld (products world_with_orders)
       (<["o-9" := refunded 1000 "rfnd_1" paid_order]> (orders world_with_orders))
       (users world_with_orders)
       [payments_refund (refund_request refund_o9 paid_order)]) /\
  Order.paymentStatus (refunded 1000 "rfnd_1" paid_order) = "refunded" /\
  last (Order.statusHistory (refunded 1000 "rfnd_1" paid_order))
  = Some (StatusEntry.mk "cancelled" "Refund processed: rfnd_1" 1000) /\
  route_update_status sample_env 1000 (Some "Bearer access-bob")
    "o-9" "cancelled" "" None world_with_orders
  = (mkResponse 403 false (Some "Insufficient permissions"), world_with_orders).
Proof.
  split; [reflexivity|]. split; [reflexivity|].
  split; [|split; [reflexivity|split; reflexivity]].
  unfold route_refund, authenticated, catchAsync.
  change (authenticate sample_env 1000 (Some "Bearer access-bob") world_with_orders)
    with (@inr Response User.t bob).
  by rewrite (refund_run sample_env 1000 refund_o9 world_with_orders paid_order).
Qed.

(** ** Amounts sent to the gateway *)

Lemma create_razorpay_order_run (E : Env) (user : User.t) (w : World) (o : Order.t) :
  orders w !! Order._id o = Some o ->
  Order.user o = User._id user ->
  gateway (snd (create_razorpay_order E user (Order._id o) w))
  = (gateway w ++ [orders_create (order_request user o)])%list.
Proof.
  intros Ho Huser.
  unfold create_razorpay_order, bind at 1. unfold Order_findById, gets. rewrite Ho.
  rewrite Huser, String.eqb_refl. simpl.
  unfold bind at 1. unfold gateway_orders_create.
  fold (order_request user o).
  by destruct (razorpay_orders_create E (order_request user o)).
Qed.

Lemma round_half_up_nearest (s : bool) (m : positive) (e : Z) :
  e < 0 ->
  let d := 2 ^ (- e) in
  let n := if s then Zneg m else Zpos m in
  let r := round_half_up s m e in
  d * (2 * r - 1) <= 2 * n < d * (2 * r + 1).
Proof.
  intros He d n r.
  assert (Hd : 0 < d) by (apply Z.pow_pos_nonneg; lia).
  unfold r, round_half_up. fold d. fold n.
  pose proof (Z.div_mod (2 * n + d) (2 * d) ltac:(lia)) as Hdiv.
  pose proof (Z.mod_pos_bound (2 * n + d) (2 * d) ltac:(lia)) as Hmod.
  nia.
Qed.

(** *** Integers below 2^53 as binary64 values *)

Lemma digits2_pos_iter_xO (n p : positive) :
  Z.pos (digits2_pos (Pos.iter xO p n)) = Z.pos (digits2_pos p) + Z.pos n.
Proof.
  induction n as [|n IH] using Pos.peano_ind.
  - simpl. lia.
  - rewrite Pos.iter_succ. simpl. lia.
Qed.

Lemma pos_iter_xO (n p : positive) :
  Z.pos (Pos.iter xO p n) = Z.pos p * 2 ^ Z.pos n.
Proof.
  induction n as [|n IH] using Pos.peano_ind.
  - simpl. lia.
  - rewrite Pos.iter_succ, Pos2Z.inj_succ, Z.pow_succ_r by lia.
    change (Z.pos (Pos.iter xO p n)~0) with (2 * Z.pos (Pos.iter xO p n)).
    rewrite IH. lia.
Qed.

Lemma digits2_pos_bounds (p : positive) :
  2 ^ (Z.pos (digits2_pos p) - 1) <= Z.pos p < 2 ^ Z.pos (digits2_pos p).
Proof.
  induction p as [p IH|p IH|]; simpl digits2_pos.
  - rewrite Pos2Z.inj_succ. change (Z.pos p~1) with (2 * Z.pos p + 1).
    replace (Z.succ (Z.pos (digits2_pos p)) - 1)
      with (Z.succ (Z.pos (digits2_pos p) - 1)) by lia.
    rewrite !Z.pow_succ_r by lia. lia.
  - rewrite Pos2Z.inj_succ. change (Z.pos p~0) with (2 * Z.pos p).
    replace (Z.succ (Z.pos (digits2_pos p)) - 1)
      with (Z.succ (Z.pos (digits2_pos p) - 1)) by lia.
    rewrite !Z.pow_succ_r by lia. lia.
  - simpl. lia.
Qed.

Lemma digits2_pos_le (p : positive) (n : Z) :
  0 <= n -> Z.pos p < 2 ^ n -> Z.pos (digits2_pos p) <= n.
Proof.
  intros Hn Hp.
  destruct (Z.le_gt_cases (Z.pos (digits2_pos p)) n) as [H|H]; [exact H|].
  pose proof (digits2_pos_bounds p) as [Hlow _].
  assert (2 ^ n <= 2 ^ (Z.pos (digits2_pos p) - 1)) by (apply Z.pow_le_mono_r; lia).
  lia.
Qed.

(** Below 2^53 the mantissa of [integer_SF] is in canonical form, and
    [Prim2SF] gives sign, mantissa and exponent back. *)
Lemma Prim2SF_integer_SF (s : bool) (p : positive) :
  Z.pos p < 2 ^ 53 ->
  Prim2SF (SF2Prim (integer_SF s p)) = integer_SF s p.
Proof.
  intros Hp. apply Prim2SF_SF2Prim.
  pose proof (digits2_pos_le p 53 ltac:(lia) Hp) as Hd.
  assert (Hk : Z.max 0 (53 - Z.pos (digits2_pos p)) = 53 - Z.pos (digits2_pos p))
    by lia.
  unfold integer_SF. rewrite Hk.
  unfold valid_binary, bounded, canonical_mantissa, fexp, emin,
    FloatOps.prec, FloatOps.emax.
  assert (Hdig : Z.pos (digits2_pos (Pos.shiftl p (Z.to_N (53 - Z.pos (digits2_pos p)))))
                 = 53).
  { destruct (Z.to_N (53 - Z.pos (digits2_pos p))) as [|n] eqn:Hn.
    - unfold Pos.shiftl. lia.
    - unfold Pos.shiftl. rewrite digits2_pos_iter_xO. lia. }
  rewrite Hdig. apply andb_true_iff. split.
  - apply Z.eqb_eq. lia.
  - apply Z.leb_le. lia.
Qed.

(** The value of [integer_SF s p]: the mantissa is [p * 2^k] for the
    exponent [- k]. *)
Lemma integer_SF_mantissa (s : bool) (p : positive) :
  let k := Z.max 0 (53 - Z.pos (digits2_pos p)) in
  integer_SF s p = S754_finite s (Pos.shiftl p (Z.to_N k)) (- k) /\
  Z.pos (Pos.shiftl p (Z.to_N k)) = Z.pos p * 2 ^ k.
Proof.
  intros k. split; [reflexivity|].
  destruct (Z.to_N k) as [|n] eqn:Hn; unfold Pos.shiftl.
  - assert (k = 0) by lia. replace k with 0 by lia. lia.
  - rewrite pos_iter_xO. f_equal. f_equal. lia.
Qed.

Lemma mantissa_bound (x : float) (s : bool) (m : positive) (e : Z) :
  Prim2SF x = S754_finite s m e -> Z.pos m < 2 ^ 53.
Proof.
  intros Hx. pose proof (Prim2SF_valid x) as Hv. rewrite Hx in Hv.
  unfold valid_binary, bounded, canonical_mantissa, fexp, emin,
    FloatOps.prec, FloatOps.emax in Hv.
  apply andb_true_iff in Hv as [Hc _]. apply Z.eqb_eq in Hc.
  pose proof (digits2_pos_bounds m) as [_ Hup].
  assert (2 ^ Z.pos (digits2_pos m) <= 2 ^ 53) by (apply Z.pow_le_mono_r; lia).
  lia.
Qed.

Lemma round_half_up_bound (s : bool) (m : positive) (e : Z) :
  e < 0 -> Z.pos m < 2 ^ 53 -> - 2 ^ 53 < round_half_up s m e < 2 ^ 53.
Proof.
  intros He Hm.
  pose proof (round_half_up_nearest s m e He) as H. simpl in H.
  assert (Hd : 2 <= 2 ^ (- e)).
  { change 2 with (2 ^ 1) at 1. apply Z.pow_le_mono_r; lia. }
  set (r := round_half_up s m e) in *.
  set (d := 2 ^ (- e)) in *.
  destruct s.
  - assert (Z.neg m = - Z.pos m) as Hn by lia. rewrite Hn in H. split; nia.
  - split; nia.
Qed.

Lemma is_integer_float_of_Z (z : Z) :
  - 2 ^ 53 < z < 2 ^ 53 -> is_integer (float_of_Z z) = true.
Proof.
  intros Hz. unfold is_integer.
  destruct z as [|p|p]; [reflexivity| |]; unfold float_of_Z;
    rewrite Prim2SF_integer_SF by lia;
    destruct (integer_SF_mantissa false p) as [_ Hm];
    unfold integer_SF; simpl in Hm |- *;
    set (k := Z.max 0 (53 - Z.pos (digits2_pos p))) in *;
    apply orb_true_iff; right; apply Z.eqb_eq;
    rewrite Hm, Z.opp_involutive; apply Z.mod_mul;
    apply Z.pow_nonzero; lia.
Qed.

Lemma Math_round_integer (x : float) :
  finite x = true -> is_integer (Math_round x) = true.
Proof.
  unfold finite, Math_round.
  destruct (Prim2SF x) as [s| | |s m e] eqn:Hx; try discriminate; intros _.
  - unfold is_integer. by rewrite Hx.
  - destruct (Z.leb_spec 0 e) as [He|He].
    + unfold is_integer. rewrite Hx. apply orb_true_iff. left. by apply Z.leb_le.
    + destruct (round_half_up s m e =? 0)%Z.
      * by destruct s.
      * apply is_integer_float_of_Z.
        pose proof (mantissa_bound x s m e Hx) as Hm.
        apply (round_half_up_bound s m e He Hm).
Qed.

Lemma Math_round_not_finite (x : float) : finite x = false -> Math_round x = x.
Proof.
  unfold finite, Math_round. by destruct (Prim2SF x).
Qed.

(** C8, counterexample.  A refund of the paid order o-9 with the amount
    2^1023: the hundredfold is Infinity, [Math.round] returns it as it is,
    and the gateway is handed an amount that is no integer. *)
Lemma gateway_amounts_are_integers_fails :
  ~ gateway_amounts_are_integers
      (gateway (snd (refund sample_env 1000 huge_refund world_with_orders))).
Proof.
  rewrite (refund_run sample_env 1000 huge_refund world_with_orders paid_order
             eq_refl).
  simpl. intros H. apply Forall_inv in H. vm_compute in H. discriminate.
Qed.

(** C8, amended.  Gateway-order creation sends [Math.round(totalPrice *
    100)] and refund sends [Math.round(amount * 100)], one call each; for a
    total price of 250.50 the gateway receives 25050.  [Math.round] of a
    finite Number is an integer, for a value with a fractional part the
    integer nearest to it and the upper one on a tie; [Math.round] of NaN
    or of an infinity is that value itself, so the amount sent is an
    integer exactly as far as the hundredfold is finite. *)
Theorem gateway_amounts_are_rounded (E : Env) (now : Z) (w : World) :
  (forall (user : User.t) (o : Order.t),
     orders w !! Order._id o = Some o ->
     Order.user o = User._id user ->
     exists r,
       gateway (snd (create_razorpay_order E user (Order._id o) w))
       = (gateway w ++ [orders_create r])%list /\
       OrdersCreate.amount r
       = Math_round (PrimFloat.mul (Order.totalPrice o) 100%float) /\
       (Order.totalPrice o = 250.5%float -> OrdersCreate.amount r = 25050%float)) /\
  (forall (body : RefundBody.t) (p : Order.t),
     orders w !! RefundBody.orderId body = Some p ->
     Order.isPaid p = true ->
     exists r,
       gateway (snd (refund E now body w))
       = (gateway w ++ [payments_refund r])%list /\
       PaymentsRefund.amount r
       = Math_round (PrimFloat.mul (RefundBody.amount body) 100%float)) /\
  (forall x, finite x = true -> is_integer (Math_round x) = true) /\
  (forall x, finite x = false ->
     Math_round x = x /\ is_integer (Math_round x) = false) /\
  (forall x s m e,
     Prim2SF x = S754_finite s m e -> e < 0 ->
     let d := 2 ^ (- e) in
     let n := if s then Zneg m else Zpos m in
     exists r,
       d * (2 * r - 1) <= 2 * n < d * (2 * r + 1) /\
       - 2 ^ 53 < r < 2 ^ 53 /\
       (Math_round x = float_of_Z r \/
        r = 0 /\ Math_round x = PrimFloat.neg_zero)).
Proof.
  split; [|split; [|split; [|split]]].
  - intros user o Ho Huser.
    exists (order_request user o). split; [by apply create_razorpay_order_run|].
    split; [reflexivity|]. simpl. by intros ->.
  - intros body p Hp Hpaid.
    exists (refund_request body p). split; [|reflexivity].
    rewrite (refund_run _ _ _ _ _ Hp), Hpaid.
    by destruct (razorpay_payments_refund E (refund_request body p)).
  - apply Math_round_integer.
  - intros x Hx. rewrite (Math_round_not_finite x Hx). split; [reflexivity|].
    unfold finite in Hx. unfold is_integer. by destruct (Prim2SF x).
  - intros x s m e Hx He d n. exists (round_half_up s m e).
    split; [by apply round_half_up_nearest|].
    split; [apply (round_half_up_bound s m e He (mantissa_bound x s m e Hx))|].
    unfold Math_round. rewrite Hx.
    destruct (Z.leb_spec 0 e) as [Hle|_]; [lia|].
    destruct (Z.eqb_spec (round_half_up s m e) 0) as [Hr|_].
    + rewrite Hr. destruct s; [by right|by left].
    + by left.
Qed.

(** The unpaid order of 250.50: the gateway order is created for 25050.
    The refund of 250.50 on the paid order o-9: the gateway is asked for
    25050, an integer. *)
Lemma gateway_amounts_are_rounded_witness :
  (exists r,
     gateway (snd (create_razorpay_order sample_env alice "o-10" world_with_desk_order))
     = (gateway world_with_desk_order ++ [orders_create r])%list /\
     OrdersCreate.amount r = 25050%float) /\
  (exists r,
     gateway (snd (refund sample_env 1000 refund_o9 world_with_orders))
     = (gateway world_with_orders ++ [payments_refund r])%list /\
     PaymentsRefund.amount r = 25050%float) /\
  is_integer (Math_round (PrimFloat.mul 250.5%float 100%float)) = true.
Proof.
  pose proof (gateway_amounts_are_rounded sample_env 1000 world_with_desk_order)
    as [Hcreate _].
  pose proof (gateway_amounts_are_rounded sample_env 1000 world_with_orders)
    as [_ [Hrefund [Hint _]]].
  split; [|split].
  - destruct (Hcreate alice desk_order eq_refl eq_refl) as [r [Hlog [_ Hamount]]].
    exists r. split; [exact Hlog|]. apply Hamount. reflexivity.
  - destruct (Hrefund refund_o9 paid_order eq_refl eq_refl) as [r [Hlog Hamount]].
    exists r. split; [exact Hlog|]. rewrite Hamount. vm_compute. reflexivity.
  - apply Hint. vm_compute. reflexivity.
Defined.

(** ** The refresh-token set *)

Lemma tokenExists_spec (tok : string) (u : User.t) :
  tokenExists tok u = true <-> holds_token u tok.
Proof.
  unfold tokenExists, holds_token. rewrite existsb_exists.
  split; intros [t [Hin Ht]]; exists t; split; try done.
  - by apply String.eqb_eq.
  - by apply String.eqb_eq.
Qed.

Lemma without_token_spec (tok : string) (l : list TokenObj.t) (t : TokenObj.t) :
  In t (without_token tok l) <-> In t l /\ TokenObj.token t <> tok.
Proof.
  unfold without_token. rewrite filter_In, negb_true_iff, String.eqb_neq. tauto.
Qed.

Lemma verifyRefreshToken_spec (E : Env) (now : Z) (tok : string) (w : World) :
  match verifyRefreshToken E now (Some tok) w with
  | inr (u, tok') =>
      tok' = tok /\ tok <> "" /\
      exists uid,
        jwt_verify E (JWT_REFRESH_SECRET E) tok now = JwtOk uid /\
        users w !! uid = Some u /\ holds_token u tok
  | inl res =>
      res_status res = 401 /\
      ~ (tok <> "" /\
         exists uid u,
           jwt_verify E (JWT_REFRESH_SECRET E) tok now = JwtOk uid /\
           users w !! uid = Some u /\ holds_token u tok)
  end.
Proof.
  unfold verifyRefreshToken, truthy.
  destruct (String.eqb_spec tok "") as [->|Hne]; simpl.
  - split; [done|]. by intros [Habs _].
  - destruct (jwt_verify E (JWT_REFRESH_SECRET E) tok now) as [uid| |] eqn:Hjwt.
    + destruct (users w !! uid) as [u|] eqn:Hu.
      * destruct (tokenExists tok u) eqn:Hex; simpl.
        -- split; [done|]. split; [done|]. exists uid.
           split; [done|]. split; [done|]. by apply tokenExists_spec.
        -- split; [done|]. intros [_ [uid' [u' [Hj [Hu' Hh]]]]].
           injection Hj as <-. rewrite Hu in Hu'. injection Hu' as <-.
           apply tokenExists_spec in Hh. congruence.
      * split; [done|]. intros [_ [uid' [u' [Hj [Hu' _]]]]].
        injection Hj as <-. congruence.
    + split; [done|]. intros [_ [uid' [u' [Hj _]]]]. discriminate.
    + split; [done|]. intros [_ [uid' [u' [Hj _]]]]. discriminate.
Qed.

(** C9, counterexample.  The token 'refresh-alice' is in the active set of
    alice and expired at time 5000: a refresh at time 6000 is answered with
    401 although the token is in the set. *)
Lemma accepted_iff_in_set_fails :
  ~ accepted_iff_in_set sample_env 6000 sample_world alice "refresh-alice".
Proof.
  intros [_ H].
  assert (Hholds : holds_token alice "refresh-alice").
  { exists (TokenObj.mk "refresh-alice"). split; [by left|reflexivity]. }
  specialize (H Hholds). vm_compute in H. discriminate.
Qed.

(** C9, amended.  The refresh of a token is accepted exactly when the token
    is not empty, verifies as a token of the refresh secret (signature and
    expiry), names a stored user, and is in the active set of that user.
    An accepted refresh stores the set without the old token and with the
    newly issued one at its end.  Logout with a token stores the set
    without that token and keeps every other token; logout without a token
    (or with an empty one) stores the empty set.  A refresh without a token
    is answered with 401. *)
Theorem refresh_token_lifecycle (E : Env) (now : Z) (w : World) :
  (forall tok,
     res_status (fst (route_refresh E now (Some tok) w)) = 200 <->
     tok <> "" /\
     exists uid u,
       jwt_verify E (JWT_REFRESH_SECRET E) tok now = JwtOk uid /\
       users w !! uid = Some u /\ holds_token u tok) /\
  (forall tok uid u,
     tok <> "" ->
     jwt_verify E (JWT_REFRESH_SECRET E) tok now = JwtOk uid ->
     users w !! uid = Some u ->
     holds_token u tok ->
     let issued := snd (generateTokens E now (User._id u)) in
     let u' := User.set_refreshTokens
                 (without_token tok (User.refreshTokens u) ++ [TokenObj.mk issued]) u in
     route_refresh E now (Some tok) w
     = (ok "Token refreshed successfully",
        set_users (<[User._id u := u']> (users w)) w) /\
     holds_token u' issued /\
     (tok <> issued -> ~ holds_token u' tok)) /\
  (forall user tok,
     tok <> "" ->
     let u' := User.set_refreshTokens
                 (without_token tok (User.refreshTokens user)) user in
     logout user (Some tok) w
     = (Returned tt, set_users (<[User._id user := u']> (users w)) w) /\
     ~ holds_token u' tok /\
     (forall t, t <> tok -> holds_token u' t <-> holds_token user t)) /\
  (forall user rt,
     rt = None \/ rt = Some "" ->
     logout user rt w
     = (Returned tt,
        set_users (<[User._id user := User.set_refreshTokens [] user]> (users w)) w)) /\
  res_status (fst (route_refresh E now None w)) = 401.
Proof.
  split; [|split; [|split; [|split]]].
  - intros tok. unfold route_refresh.
    pose proof (verifyRefreshToken_spec E now tok w) as Hspec.
    destruct (verifyRefreshToken E now (Some tok) w) as [res|[u tok']].
    + destruct Hspec as [Hres Hnot]. simpl. rewrite Hres.
      split; [discriminate|]. intros H. by destruct Hnot.
    + destruct Hspec as [_ [Hne [uid H]]]. simpl.
      split; [|reflexivity]. intros _. split; [done|]. by exists uid, u.
  - intros tok uid u Hne Hjwt Hu Hholds issued u'.
    split; [|split].
    + unfold route_refresh, verifyRefreshToken, truthy.
      apply String.eqb_neq in Hne. rewrite Hne. simpl. rewrite Hjwt, Hu.
      apply tokenExists_spec in Hholds. rewrite Hholds. reflexivity.
    + exists (TokenObj.mk issued). split; [|reflexivity].
      simpl. apply in_or_app. right. by left.
    + intros Hdiff [t [Hin Ht]]. simpl in Hin.
      apply in_app_or in Hin as [Hin|[<-|[]]].
      * apply without_token_spec in Hin. tauto.
      * simpl in Ht. congruence.
  - intros user tok Hne u'. split; [|split].
    + unfold logout, truthy. apply String.eqb_neq in Hne. by rewrite Hne.
    + intros [t [Hin Ht]]. simpl in Hin.
      apply without_token_spec in Hin. tauto.
    + intros t Ht. unfold holds_token. simpl.
      split; intros [x [Hin Hx]]; exists x; split; try done.
      * apply without_token_spec in Hin. tauto.
      * apply without_token_spec. split; [done|congruence].
  - by intros user rt [->| ->].
  - reflexivity.
Qed.

Lemma refresh_token_lifecycle_witness :
  res_status (fst (route_refresh sample_env 1000 (Some "refresh-alice") sample_world))
  = 200.
Proof.
  apply (proj1 (refresh_token_lifecycle sample_env 1000 sample_world) "refresh-alice").
  split; [discriminate|].
  exists "u-alice", alice. split; [reflexivity|]. split; [reflexivity|].
  exists (TokenObj.mk "refresh-alice"). split; [by left|reflexivity].
Defined.

(** * Further properties *)

(** ** Bearer tokens *)

Lemma substring_all (s : string) : String.substring 0 (String.length s) s = s.
Proof. induction s as [|c s IH]; simpl; [done|]. by rewrite IH. Qed.

Lemma bearer_token (authHeader : string) :
  String.prefix "Bearer " authHeader = true ->
  authHeader
  = "Bearer " ++ String.substring 7 (String.length authHeader - 7)%nat authHeader.
Proof.
  intros H.
  do 7 (destruct authHeader as [|? authHeader]; [discriminate|];
        simpl in H;
        match type of H with
        | (if ?d then _ else _) = true => destruct d as [<-|]; [|discriminate]
        end).
  simpl. by rewrite Nat.sub_0_r, substring_all.
Qed.

Lemma bearer_header (token : string) :
  String.prefix "Bearer " ("Bearer " ++ token) = true /\
  String.substring 7 (String.length ("Bearer " ++ token) - 7)%nat ("Bearer " ++ token)
  = token.
Proof.
  split.
  - simpl. repeat (destruct (Ascii.ascii_dec _ _); [|done]). by destruct token.
  - simpl. by rewrite Nat.sub_0_r, substring_all.
Qed.

(** X1.  [authenticate] attaches a user exactly when the Authorization
    header is "Bearer " followed by a token that verifies under the access
    secret, the user the token names is stored, and the account is not
    locked. *)
Theorem authenticate_admits (E : Env) (now : Z) (authorization : option string)
    (w : World) (u : User.t) :
  authenticate E now authorization w = inr u <->
  exists token userId,
    authorization = Some ("Bearer " ++ token) /\
    jwt_verify E (JWT_SECRET E) token now = JwtOk userId /\
    users w !! userId = Some u /\
    isLocked now u = false.
Proof.
  unfold authenticate. split.
  - destruct authorization as [authHeader|]; [|discriminate].
    destruct (String.prefix "Bearer " authHeader) eqn:Hp; [|discriminate]. simpl.
    destruct (jwt_verify E (JWT_SECRET E) _ now) as [userId| |] eqn:Hjwt;
      try discriminate.
    destruct (users w !! userId) as [user|] eqn:Hu; [|discriminate].
    destruct (isLocked now user) eqn:Hl; [discriminate|].
    intros [= <-]. eexists _, userId.
    split; [f_equal; by apply bearer_token|]. by rewrite Hjwt.
  - intros [token [userId [-> [Hjwt [Hu Hl]]]]].
    destruct (bearer_header token) as [-> ->]. simpl.
    by rewrite Hjwt, Hu, Hl.
Qed.

Lemma authenticate_admits_witness :
  authenticate sample_env 1000 (Some "Bearer access-bob") sample_world = inr bob.
Proof.
  apply (authenticate_admits sample_env 1000 (Some "Bearer access-bob")
           sample_world bob).
  exists "access-bob", "u-bob". repeat split; reflexivity.
Defined.

(** X2.  [optionalAuth] attaches the user that the bearer token names
    exactly when the token verifies under the access secret and the user is
    stored; it does not look at the lock.  [authenticate] answers the same
    request with 423 when the account is locked, and admits the same user
    when it is not. *)
Theorem optionalAuth_ignores_lock (E : Env) (now : Z)
    (authorization : option string) (w : World) (u : User.t) :
  (optionalAuth E now authorization w = Some u <->
   exists token userId,
     authorization = Some ("Bearer " ++ token) /\
     jwt_verify E (JWT_SECRET E) token now = JwtOk userId /\
     users w !! userId = Some u) /\
  (optionalAuth E now authorization w = Some u ->
   authenticate E now authorization w
   = if isLocked now u
     then inl (mkResponse 423 false (Some "Account is temporarily locked"))
     else inr u) /\
  (authenticate E now authorization w = inr u ->
   optionalAuth E now authorization w = Some u).
Proof.
  split; [|split].
  - unfold optionalAuth. split.
    + destruct authorization as [authHeader|]; [|discriminate].
      destruct (String.prefix "Bearer " authHeader) eqn:Hp; [|discriminate]. simpl.
      destruct (jwt_verify E (JWT_SECRET E) _ now) as [userId| |] eqn:Hjwt;
        try discriminate.
      intros Hu. eexists _, userId.
      split; [f_equal; by apply bearer_token|]. by rewrite Hjwt.
    + intros [token [userId [-> [Hjwt Hu]]]].
      destruct (bearer_header token) as [-> ->]. simpl. by rewrite Hjwt.
  - unfold authenticate, optionalAuth.
    destruct authorization as [authHeader|]; [|discriminate].
    destruct (negb (String.prefix "Bearer " authHeader)); [discriminate|].
    destruct (jwt_verify E (JWT_SECRET E) _ now) as [userId| |]; try discriminate.
    destruct (users w !! userId) as [user|]; [|discriminate].
    by intros [= <-].
  - unfold authenticate, optionalAuth.
    destruct authorization as [authHeader|]; [|discriminate].
    destruct (negb (String.prefix "Bearer " authHeader)); [discriminate|].
    destruct (jwt_verify E (JWT_SECRET E) _ now) as [userId| |]; try discriminate.
    destruct (users w !! userId) as [user|]; [|discriminate].
    destruct (isLocked now user); [discriminate|]. by intros [= <-].
Qed.

(** Bob, whose account is locked until 5000, at time 1000. *)
Lemma optionalAuth_ignores_lock_witness :
  isLocked 1000 locked_bob = true /\
  optionalAuth sample_env 1000 (Some "Bearer access-bob") world_with_lock
  = Some locked_bob /\
  authenticate sample_env 1000 (Some "Bearer access-bob") world_with_lock
  = inl (mkResponse 423 false (Some "Account is temporarily locked")).
Proof.
  pose proof (optionalAuth_ignores_lock sample_env 1000
                (Some "Bearer access-bob") world_with_lock locked_bob)
    as [Hattach [Hlock _]].
  assert (Hu : optionalAuth sample_env 1000 (Some "Bearer access-bob") world_with_lock
               = Some locked_bob).
  { apply Hattach. exists "access-bob", "u-bob". repeat split; reflexivity. }
  split; [reflexivity|]. split; [exact Hu|]. exact (Hlock Hu).
Defined.

(** ** Revocation and rotation of refresh tokens *)

Lemma route_refresh_refused (E : Env) (now : Z) (tok : string) (w : World) :
  (forall userId u,
     jwt_verify E (JWT_REFRESH_SECRET E) tok now = JwtOk userId ->
     users w !! userId = Some u -> ~ holds_token u tok) ->
  exists res,
    route_refresh E now (Some tok) w = (res, w) /\ res_status res = 401.
Proof.
  intros Hnot. unfold route_refresh.
  pose proof (verifyRefreshToken_spec E now tok w) as Hspec.
  destruct (verifyRefreshToken E now (Some tok) w) as [res|[u tok']].
  - exists res. by destruct Hspec.
  - destruct Hspec as [_ [_ [userId [Hjwt [Hu Hholds]]]]].
    by destruct (Hnot userId u Hjwt Hu).
Qed.

Lemma route_refresh_accepted (E : Env) (now : Z) (tok userId : string)
    (w : World) (u : User.t) :
  tok <> "" ->
  jwt_verify E (JWT_REFRESH_SECRET E) tok now = JwtOk userId ->
  users w !! userId = Some u ->
  holds_token u tok ->
  route_refresh E now (Some tok) w
  = (ok "Token refreshed successfully",
     set_users
       (<[User._id u :=
            User.set_refreshTokens
              (without_token tok (User.refreshTokens u)
                 ++ [TokenObj.mk (snd (generateTokens E now (User._id u)))]) u]>
          (users w)) w).
Proof.
  intros Hne Hjwt Hu Hholds.
  unfold route_refresh, verifyRefreshToken, truthy.
  apply String.eqb_neq in Hne. rewrite Hne. simpl. rewrite Hjwt, Hu.
  apply tokenExists_spec in Hholds. by rewrite Hholds.
Qed.

(** X3.  Logout revokes: after a logout that supplies a refresh token, a
    refresh with that token is answered with 401 at any later time and
    writes nothing, whenever the token, if it still verifies, names the
    user who logged out. *)
Theorem logout_revokes_token (E : Env) (now : Z) (w : World) (u : User.t)
    (tok : string) :
  tok <> "" ->
  (forall userId,
     jwt_verify E (JWT_REFRESH_SECRET E) tok now = JwtOk userId ->
     userId = User._id u) ->
  let w1 := snd (logout u (Some tok) w) in
  exists res,
    route_refresh E now (Some tok) w1 = (res, w1) /\ res_status res = 401.
Proof.
  intros Hne Hnames w1. apply route_refresh_refused.
  intros userId u1 Hjwt Hu1 [t [Hin Ht]].
  apply Hnames in Hjwt as ->.
  unfold w1, logout, truthy in Hu1. apply String.eqb_neq in Hne.
  rewrite Hne in Hu1. simpl in Hu1. rewrite lookup_insert_eq in Hu1.
  injection Hu1 as <-. simpl in Hin.
  apply without_token_spec in Hin. tauto.
Qed.

Lemma logout_revokes_token_witness :
  let w1 := snd (logout alice (Some "refresh-alice") sample_world) in
  exists res,
    route_refresh sample_env 1000 (Some "refresh-alice") w1 = (res, w1) /\
    res_status res = 401.
Proof.
  apply (logout_revokes_token sample_env 1000 sample_world alice "refresh-alice").
  - discriminate.
  - intros userId H. vm_compute in H. by injection H as <-.
Defined.

(** X4.  Logout from all devices: after a logout that supplies no token,
    no refresh token that names the user is accepted. *)
Theorem logout_all_revokes (E : Env) (now : Z) (w : World) (u : User.t)
    (tok : string) :
  (forall userId,
     jwt_verify E (JWT_REFRESH_SECRET E) tok now = JwtOk userId ->
     userId = User._id u) ->
  let w1 := snd (logout u None w) in
  exists res,
    route_refresh E now (Some tok) w1 = (res, w1) /\ res_status res = 401.
Proof.
  intros Hnames w1. apply route_refresh_refused.
  intros userId u1 Hjwt Hu1 [t [Hin Ht]].
  apply Hnames in Hjwt as ->.
  unfold w1, logout in Hu1. simpl in Hu1. rewrite lookup_insert_eq in Hu1.
  injection Hu1 as <-. destruct Hin.
Qed.

Lemma logout_all_revokes_witness :
  let w1 := snd (logout alice None sample_world) in
  exists res,
    route_refresh sample_env 1000 (Some "refresh-alice") w1 = (res, w1) /\
    res_status res = 401.
Proof.
  apply (logout_all_revokes sample_env 1000 sample_world alice "refresh-alice").
  intros userId H. vm_compute in H. by injection H as <-.
Defined.

(** X5.  Rotation: once a refresh with a token has been accepted, a second
    refresh with the same token is answered with 401, unless the token
    issued in exchange is the very same string. *)
Theorem refresh_rotates_old_token_out (E : Env) (now now' : Z) (w : World)
    (tok userId : string) (u : User.t) :
  tok <> "" ->
  jwt_verify E (JWT_REFRESH_SECRET E) tok now = JwtOk userId ->
  users w !! userId = Some u ->
  User._id u = userId ->
  holds_token u tok ->
  tok <> snd (generateTokens E now userId) ->
  (forall userId',
     jwt_verify E (JWT_REFRESH_SECRET E) tok now' = JwtOk userId' ->
     userId' = userId) ->
  let w1 := snd (route_refresh E now (Some tok) w) in
  exists res,
    route_refresh E now' (Some tok) w1 = (res, w1) /\ res_status res = 401.
Proof.
  intros Hne Hjwt Hu Hid Hholds Hdiff Hnames w1. subst userId.
  apply route_refresh_refused.
  intros userId' u1 Hjwt' Hu1 [t [Hin Ht]].
  apply Hnames in Hjwt' as ->.
  unfold w1 in Hu1.
  rewrite (route_refresh_accepted E now tok _ w u Hne Hjwt Hu Hholds) in Hu1.
  simpl in Hu1. rewrite lookup_insert_eq in Hu1.
  injection Hu1 as <-. simpl in Hin.
  apply in_app_or in Hin as [Hin|[<-|[]]].
  - apply without_token_spec in Hin. tauto.
  - simpl in Ht, Hdiff. congruence.
Qed.

Lemma refresh_rotates_old_token_out_witness :
  let w1 := snd (route_refresh sample_env 1000 (Some "refresh-alice") sample_world) in
  exists res,
    route_refresh sample_env 1500 (Some "refresh-alice") w1 = (res, w1) /\
    res_status res = 401.
Proof.
  apply (refresh_rotates_old_token_out sample_env 1000 1500 sample_world
           "refresh-alice" "u-alice" alice).
  - discriminate.
  - reflexivity.
  - reflexivity.
  - reflexivity.
  - exists (TokenObj.mk "refresh-alice"). split; [by left|reflexivity].
  - discriminate.
  - intros userId H. vm_compute in H. by injection H as <-.
Defined.

(** X6.  Rotation: the refresh token issued by an accepted refresh is held
    by the user afterwards, and a refresh with it is accepted as long as it
    verifies for that user. *)
Theorem refresh_issues_usable_token (E : Env) (now now' : Z) (w : World)
    (tok userId : string) (u : User.t) :
  tok <> "" ->
  jwt_verify E (JWT_REFRESH_SECRET E) tok now = JwtOk userId ->
  users w !! userId = Some u ->
  User._id u = userId ->
  holds_token u tok ->
  let issued := snd (generateTokens E now userId) in
  issued <> "" ->
  jwt_verify E (JWT_REFRESH_SECRET E) issued now' = JwtOk userId ->
  let w1 := snd (route_refresh E now (Some tok) w) in
  res_status (fst (route_refresh E now' (Some issued) w1)) = 200.
Proof.
  intros Hne Hjwt Hu Hid Hholds issued Hissued Hjwt' w1. subst userId.
  unfold w1.
  rewrite (route_refresh_accepted E now tok _ w u Hne Hjwt Hu Hholds).
  simpl. fold issued.
  erewrite (route_refresh_accepted E now' issued (User._id u));
    [reflexivity|done|done| |].
  - simpl. apply lookup_insert_eq.
  - exists (TokenObj.mk issued). split; [|reflexivity].
    simpl. apply in_or_app. right. by left.
Qed.

Lemma refresh_issues_usable_token_witness :
  let issued := snd (generateTokens issuing_env 1000 "u-alice") in
  let w1 := snd (route_refresh issuing_env 1000 (Some "refresh-alice") sample_world) in
  res_status (fst (route_refresh issuing_env 1500 (Some issued) w1)) = 200.
Proof.
  apply (refresh_issues_usable_token issuing_env 1000 1500 sample_world
           "refresh-alice" "u-alice" alice).
  - discriminate.
  - reflexivity.
  - reflexivity.
  - reflexivity.
  - exists (TokenObj.mk "refresh-alice"). split; [by left|reflexivity].
  - discriminate.
  - reflexivity.
Defined.

Lemma without_token_shrinks (tok : string) (l : list TokenObj.t) :
  (exists t, In t l /\ TokenObj.token t = tok) ->
  (length (without_token tok l) < length l)%nat.
Proof.
  unfold without_token. intros [t [Hin Ht]].
  induction l as [|x l IH]; [destruct Hin|]. simpl.
  pose proof (filter_length_le
                (fun tokenObj => negb (String.eqb (TokenObj.token tokenObj) tok)) l)
    as Hle.
  destruct Hin as [->|Hin].
  - rewrite Ht, String.eqb_refl. simpl. lia.
  - specialize (IH Hin).
    destruct (negb (String.eqb (TokenObj.token x) tok)); simpl; lia.
Qed.

(** X7.  An accepted refresh never enlarges the token set of the user: the
    old token leaves (in all its copies) and one token enters. *)
Theorem refresh_does_not_grow_set (E : Env) (now : Z) (w : World)
    (tok userId : string) (u : User.t) :
  tok <> "" ->
  jwt_verify E (JWT_REFRESH_SECRET E) tok now = JwtOk userId ->
  users w !! userId = Some u ->
  User._id u = userId ->
  holds_token u tok ->
  exists u',
    users (snd (route_refresh E now (Some tok) w)) !! userId = Some u' /\
    (length (User.refreshTokens u') <= length (User.refreshTokens u))%nat /\
    User.role u' = User.role u /\
    User.lockUntil u' = User.lockUntil u.
Proof.
  intros Hne Hjwt Hu Hid Hholds. subst userId.
  rewrite (route_refresh_accepted E now tok _ w u Hne Hjwt Hu Hholds). simpl.
  eexists. split; [apply lookup_insert_eq|]. simpl.
  split; [|done]. rewrite length_app. simpl.
  pose proof (without_token_shrinks tok (User.refreshTokens u) Hholds). lia.
Qed.

Lemma refresh_does_not_grow_set_witness :
  exists u',
    users (snd (route_refresh sample_env 1000 (Some "refresh-alice") sample_world))
      !! "u-alice" = Some u' /\
    (length (User.refreshTokens u') <= length (User.refreshTokens alice))%nat /\
    User.role u' = User.role alice /\
    User.lockUntil u' = User.lockUntil alice.
Proof.
  apply (refresh_does_not_grow_set sample_env 1000 sample_world
           "refresh-alice" "u-alice" alice).
  - discriminate.
  - reflexivity.
  - reflexivity.
  - reflexivity.
  - exists (TokenObj.mk "refresh-alice"). split; [by left|reflexivity].
Defined.

(** X8.  The OAuth callback issues a refresh token without retiring any:
    whatever the user holds, an empty set included, the callback stores the
    former set with the issued token at its end, so the set grows by one
    and every token held before is still held; a refresh with such a token
    is still accepted afterwards, as long as the token verifies for the
    user. *)
Theorem google_callback_keeps_sessions (E : Env) (now now' : Z) (w : World)
    (u : User.t) :
  let issued := snd (generateTokens E now (User._id u)) in
  let u' := User.set_refreshTokens
              (User.refreshTokens u ++ [TokenObj.mk issued]) u in
  let w1 := snd (google_callback E now u w) in
  google_callback E now u w
  = (Returned (generateTokens E now (User._id u)),
     set_users (<[User._id u := u']> (users w)) w) /\
  users w1 !! User._id u = Some u' /\
  length (User.refreshTokens u') = S (length (User.refreshTokens u)) /\
  holds_token u' issued /\
  (forall tok, holds_token u tok -> holds_token u' tok) /\
  (forall tok,
     tok <> "" ->
     holds_token u tok ->
     jwt_verify E (JWT_REFRESH_SECRET E) tok now' = JwtOk (User._id u) ->
     res_status (fst (route_refresh E now' (Some tok) w1)) = 200).
Proof.
  simpl. unfold google_callback, bind, User_save, modify, ret. simpl.
  split; [reflexivity|]. split; [apply lookup_insert_eq|].
  split; [rewrite length_app; simpl; lia|].
  split; [eexists; split; [apply in_or_app; right; by left|reflexivity]|].
  assert (Hkeeps : forall tok,
            holds_token u tok ->
            holds_token
              (User.set_refreshTokens
                 (User.refreshTokens u
                    ++ [TokenObj.mk (jwt_sign E (JWT_REFRESH_SECRET E) (User._id u) now)])
                 u) tok).
  { intros tok [t [Hin Ht]]. exists t. split; [|done]. simpl.
    apply in_or_app. by left. }
  split; [exact Hkeeps|].
  intros tok Hne Hholds Hjwt.
  erewrite (route_refresh_accepted E now' tok (User._id u));
    [reflexivity|done|done| |].
  - simpl. apply lookup_insert_eq.
  - by apply Hkeeps.
Qed.

(** Bob, who holds no token, ends with the one issued; alice, who holds
    one, ends with two, and a refresh with her former token is accepted. *)
Lemma google_callback_keeps_sessions_witness :
  User.refreshTokens bob = [] /\
  (exists u',
     users (snd (google_callback sample_env 900 bob sample_world)) !! "u-bob"
     = Some u' /\
     length (User.refreshTokens u') = 1%nat) /\
  res_status
    (fst (route_refresh sample_env 1000 (Some "refresh-alice")
            (snd (google_callback sample_env 900 alice sample_world))))
  = 200.
Proof.
  pose proof (google_callback_keeps_sessions sample_env 900 1000 sample_world bob)
    as [_ [Hbob [Hlen _]]].
  pose proof (google_callback_keeps_sessions sample_env 900 1000 sample_world alice)
    as [_ [_ [_ [_ [_ Halice]]]]].
  split; [reflexivity|]. split.
  - eexists. split; [exact Hbob|]. exact Hlen.
  - apply Halice.
    + discriminate.
    + exists (TokenObj.mk "refresh-alice"). split; [by left|reflexivity].
    + reflexivity.
Defined.

(** X9.  A refresh touches nothing but the tokens of one user: products,
    orders and gateway log are left alone, a refused refresh writes
    nothing at all, and in a collection keyed by user id every user other
    than the one the token names keeps the stored document. *)
Theorem refresh_frame (E : Env) (now : Z) (refreshToken : option string)
    (w : World) :
  let out := route_refresh E now refreshToken w in
  products (snd out) = products w /\
  orders (snd out) = orders w /\
  gateway (snd out) = gateway w /\
  (res_status (fst out) <> 200 -> snd out = w) /\
  (users_keyed w ->
   forall tok userId id,
     refreshToken = Some tok ->
     jwt_verify E (JWT_REFRESH_SECRET E) tok now = JwtOk userId ->
     id <> userId ->
     users (snd out) !! id = users w !! id).
Proof.
  unfold route_refresh.
  destruct refreshToken as [tok|]; [|by repeat split].
  pose proof (verifyRefreshToken_spec E now tok w) as Hspec.
  destruct (verifyRefreshToken E now (Some tok) w) as [res|[u tok']]; simpl.
  - do 4 (split; [done|]). done.
  - do 3 (split; [done|]). split; [done|].
    destruct Hspec as [_ [_ [userId [Hjwt [Hu _]]]]].
    intros Hkeyed tok0 userId0 id [= <-] Hjwt0 Hid.
    rewrite Hjwt in Hjwt0. injection Hjwt0 as <-.
    rewrite (Hkeyed _ _ Hu). by rewrite lookup_insert_ne.
Qed.

Lemma sample_users_keyed : users_keyed sample_world.
Proof.
  intros id u H. unfold sample_world in H. simpl in H.
  apply lookup_insert_Some in H as [[<- <-]|[_ H]]; [done|].
  apply lookup_insert_Some in H as [[<- <-]|[_ H]]; [done|].
  by rewrite lookup_empty in H.
Qed.

Lemma refresh_frame_witness :
  users (snd (route_refresh sample_env 1000 (Some "refresh-alice") sample_world))
    !! "u-bob" = users sample_world !! "u-bob".
Proof.
  apply (proj2 (proj2 (proj2 (proj2
           (refresh_frame sample_env 1000 (Some "refresh-alice") sample_world))))
           sample_users_keyed "refresh-alice" "u-alice" "u-bob");
    [reflexivity|reflexivity|discriminate].
Defined.

(** ** Administration of users *)

Lemma delete_user_run (caller : User.t) (id : string) (w : World) :
  delete_user caller id w =
  match users w !! id with
  | None => (Thrown (AppError "User not found" 404), w)
  | Some user =>
      if String.eqb (User._id user) (User._id caller)
      then (Thrown (AppError "Cannot delete your own account" 400), w)
      else (Returned tt, set_users (delete id (users w)) w)
  end.
Proof.
  unfold delete_user, bind, User_findById, gets.
  destruct (users w !! id) as [user|]; [|done].
  by destruct (String.eqb (User._id user) (User._id caller)).
Qed.

(** X10.  Deleting a user never removes the caller: in a collection keyed
    by user id the document of the caller is still stored after
    [delete_user], whatever id was asked for; a successful deletion removes
    the named user and no other. *)
Theorem delete_user_spares_caller (caller : User.t) (id : string) (w : World) :
  users_keyed w ->
  let out := delete_user caller id w in
  users (snd out) !! User._id caller = users w !! User._id caller /\
  (forall other, other <> id -> users (snd out) !! other = users w !! other) /\
  (fst out = Returned tt -> users (snd out) !! id = None) /\
  (fst out <> Returned tt -> snd out = w).
Proof.
  intros Hkeyed. simpl. rewrite delete_user_run.
  destruct (users w !! id) as [user|] eqn:Hu; [|by repeat split].
  destruct (String.eqb_spec (User._id user) (User._id caller)) as [Heq|Hne];
    [by repeat split|].
  simpl. split; [|split; [|split]].
  - rewrite lookup_delete_ne; [done|].
    intros Heq. apply Hkeyed in Hu. congruence.
  - intros other Hother. by rewrite lookup_delete_ne.
  - intros _. apply lookup_delete_eq.
  - intros H. by destruct H.
Qed.

Lemma admin_world_keyed : users_keyed world_admin_alice.
Proof.
  intros id u H. unfold world_admin_alice in H. simpl in H.
  apply lookup_insert_Some in H as [[<- <-]|[_ H]]; [done|].
  by apply sample_users_keyed.
Qed.

Lemma delete_user_spares_caller_witness :
  users (snd (delete_user admin_alice "u-alice" world_admin_alice)) !! "u-alice"
  = Some admin_alice /\
  users (snd (delete_user admin_alice "u-bob" world_admin_alice)) !! "u-alice"
  = Some admin_alice /\
  users (snd (delete_user admin_alice "u-bob" world_admin_alice)) !! "u-bob" = None.
Proof.
  pose proof (delete_user_spares_caller admin_alice "u-alice" world_admin_alice
                admin_world_keyed) as [H1 _].
  pose proof (delete_user_spares_caller admin_alice "u-bob" world_admin_alice
                admin_world_keyed) as [H2 [_ [H3 _]]].
  split; [exact H1|]. split; [exact H2|]. apply H3. reflexivity.
Defined.

Lemma authenticate_bearer (E : Env) (now : Z) (token : string) (w : World) :
  authenticate E now (Some ("Bearer " ++ token)) w =
  match jwt_verify E (JWT_SECRET E) token now with
  | JwtOk userId =>
      match users w !! userId with
      | None => inl (mkResponse 401 false (Some "User not found"))
      | Some user =>
          if isLocked now user
          then inl (mkResponse 423 false (Some "Account is temporarily locked"))
          else inr user
      end
  | JwtExpired => inl (mkResponse 401 false (Some "Access token expired"))
  | JwtInvalid => inl (mkResponse 401 false (Some "Invalid access token"))
  end.
Proof.
  unfold authenticate. by destruct (bearer_header token) as [-> ->].
Qed.

(** X11.  A deleted user is locked out although the tokens are still
    valid: after a successful [delete_user], a request that carries an
    access token naming the deleted user is answered with 401 'User not
    found', and a refresh with a token naming that user is refused. *)
Theorem deleted_user_is_locked_out (E : Env) (now : Z) (caller : User.t)
    (id : string) (w : World) (token refreshToken : string) :
  fst (delete_user caller id w) = Returned tt ->
  jwt_verify E (JWT_SECRET E) token now = JwtOk id ->
  jwt_verify E (JWT_REFRESH_SECRET E) refreshToken now = JwtOk id ->
  let w1 := snd (delete_user caller id w) in
  authenticate E now (Some ("Bearer " ++ token)) w1
  = inl (mkResponse 401 false (Some "User not found")) /\
  exists res,
    route_refresh E now (Some refreshToken) w1 = (res, w1) /\ res_status res = 401.
Proof.
  rewrite delete_user_run. intros Hok Hjwt Hrefresh.
  destruct (users w !! id) as [user|]; [|discriminate].
  destruct (String.eqb (User._id user) (User._id caller)); [discriminate|].
  cbn [snd]. split.
  - rewrite authenticate_bearer, Hjwt. simpl. by rewrite lookup_delete_eq.
  - apply route_refresh_refused. intros userId u Hj Hu.
    rewrite Hrefresh in Hj. injection Hj as <-.
    simpl in Hu. by rewrite lookup_delete_eq in Hu.
Qed.

Lemma deleted_user_is_locked_out_witness :
  let w1 := snd (delete_user carol "u-alice" world_with_admin) in
  authenticate sample_env 1000 (Some ("Bearer " ++ "access-alice")) w1
  = inl (mkResponse 401 false (Some "User not found")) /\
  exists res,
    route_refresh sample_env 1000 (Some "refresh-alice") w1 = (res, w1) /\
    res_status res = 401.
Proof.
  apply (deleted_user_is_locked_out sample_env 1000 carol "u-alice"
           world_with_admin "access-alice" "refresh-alice"); reflexivity.
Defined.

(** ** Reading an order *)

Lemma get_order_run (user : User.t) (id : string) (w : World) :
  get_order user id w =
  match orders w !! id with
  | None => (Thrown (AppError "Order not found" 404), w)
  | Some order =>
      match users w !! Order.user order with
      | None =>
          (Thrown (TypeError "Cannot read properties of null (reading '_id')"), w)
      | Some owner =>
          if negb (String.eqb (User._id owner) (User._id user))
             && negb (String.eqb (User.role user) "admin")
          then (Thrown (AppError "Not authorized to view this order" 403), w)
          else (Returned order, w)
      end
  end.
Proof.
  unfold get_order, bind, Order_findById, User_findById, gets.
  destruct (orders w !! id) as [order|]; [|done].
  destruct (users w !! Order.user order) as [owner|]; [|done].
  by destruct (negb (String.eqb (User._id owner) (User._id user))
               && negb (String.eqb (User.role user) "admin")).
Qed.

(** X12.  An order is shown exactly to its owner and to administrators:
    [get_order] returns the stored order when the owner of the order is a
    stored user and the caller is that user or has the role 'admin', and
    fails otherwise; it never writes. *)
Theorem get_order_access (user : User.t) (id : string) (w : World) (o : Order.t) :
  (fst (get_order user id w) = Returned o <->
   orders w !! id = Some o /\
   exists owner,
     users w !! Order.user o = Some owner /\
     (User._id owner = User._id user \/ User.role user = "admin")) /\
  snd (get_order user id w) = w.
Proof.
  rewrite get_order_run.
  destruct (orders w !! id) as [order|] eqn:Ho.
  2: { split; [|done]. split; [discriminate|]. by intros [? _]. }
  destruct (users w !! Order.user order) as [owner|] eqn:Hu.
  2: { split; [|done]. split; [discriminate|].
       intros [[= <-] [owner [Habs _]]]. congruence. }
  destruct (String.eqb_spec (User._id owner) (User._id user)) as [Hid|Hid]; simpl.
  - split; [|done]. split.
    + intros [= <-]. split; [done|]. exists owner. by split; [|left].
    + by intros [[= <-] _].
  - destruct (String.eqb_spec (User.role user) "admin") as [Hr|Hr]; simpl.
    + split; [|done]. split.
      * intros [= <-]. split; [done|]. exists owner. by split; [|right].
      * by intros [[= <-] _].
    + split; [|done]. split; [discriminate|].
      intros [[= <-] [owner' [Hu' [Hx|Hx]]]]; [|done].
      rewrite Hu in Hu'. injection Hu' as <-. done.
Qed.

(** X13.  Orders of a deleted user cannot be read any more: once the owner
    has been deleted, [get_order] on one of their orders throws a
    TypeError, for every caller, the administrator included. *)
Theorem orphaned_order_unreadable (caller reader : User.t) (id oid : string)
    (w : World) (o : Order.t) :
  fst (delete_user caller id w) = Returned tt ->
  orders w !! oid = Some o ->
  Order.user o = id ->
  get_order reader oid (snd (delete_user caller id w))
  = (Thrown (TypeError "Cannot read properties of null (reading '_id')"),
     snd (delete_user caller id w)).
Proof.
  rewrite delete_user_run. intros Hok Ho Huser.
  destruct (users w !! id) as [user|]; [|discriminate].
  destruct (String.eqb (User._id user) (User._id caller)); [discriminate|].
  simpl. rewrite get_order_run. simpl. by rewrite Ho, Huser, lookup_delete_eq.
Qed.

Lemma orphaned_order_unreadable_witness :
  get_order carol "o-7" (snd (delete_user carol "u-alice" world_with_admin))
  = (Thrown (TypeError "Cannot read properties of null (reading '_id')"),
     snd (delete_user carol "u-alice" world_with_admin)).
Proof.
  apply (orphaned_order_unreadable carol carol "u-alice" "o-7" world_with_admin
           pending_order); reflexivity.
Defined.

Lemma get_order_access_witness :
  fst (get_order carol "o-7" world_with_admin) = Returned pending_order /\
  fst (get_order alice "o-7" world_with_admin) = Returned pending_order.
Proof.
  split.
  - apply (proj1 (get_order_access carol "o-7" world_with_admin pending_order)).
    split; [reflexivity|]. exists alice. split; [reflexivity|by right].
  - apply (proj1 (get_order_access alice "o-7" world_with_admin pending_order)).
    split; [reflexivity|]. exists alice. split; [reflexivity|by left].
Defined.

(** ** Gateway orders *)

Lemma create_razorpay_order_cases (E : Env) (user : User.t) (id : string)
    (w : World) :
  create_razorpay_order E user id w =
  match orders w !! id with
  | None => (Thrown (AppError "Order not found" 404), w)
  | Some o =>
      if negb (String.eqb (Order.user o) (User._id user))
      then (Thrown (AppError "Not authorized" 403), w)
      else
        match razorpay_orders_create E (order_request user o) with
        | inl e => (Thrown e, log_gateway (orders_create (order_request user o)) w)
        | inr ro =>
            (Returned ro,
             mkWorld (products w)
               (<[Order._id o :=
                    Order.set_paymentResult
                      (PaymentResult.set_razorpayOrderId (RazorpayOrder.id ro)
                         (Order.paymentResult o)) o]> (orders w))
               (users w)
               (gateway w ++ [orders_create (order_request user o)]))
        end
  end.
Proof.
  unfold create_razorpay_order, bind at 1. unfold Order_findById, gets.
  destruct (orders w !! id) as [o|]; [|done].
  destruct (negb (String.eqb (Order.user o) (User._id user))); [done|].
  unfold bind at 1. unfold gateway_orders_create. fold (order_request user o).
  by destruct (razorpay_orders_create E (order_request user o)).
Qed.



(** X15.  A successful gateway-order creation changes one thing: the
    gateway order id in the payment result of the order.  The order is not
    marked paid, its status, history, items and prices stay, and products
    and users are untouched. *)
Theorem create_razorpay_order_effect (E : Env) (user : User.t) (id : string)
    (w : World) (o : Order.t) (ro : RazorpayOrder.t) (w' : World) :
  orders w !! id = Some o ->
  Order._id o = id ->
  create_razorpay_order E user id w = (Returned ro, w') ->
  exists o',
    orders w' !! id = Some o' /\
    PaymentResult.razorpayOrderId (Order.paymentResult o')
    = Some (RazorpayOrder.id ro) /\
    o' = Order.set_paymentResult
           (PaymentResult.set_razorpayOrderId (RazorpayOrder.id ro)
              (Order.paymentResult o)) o /\
    Order.isPaid o' = Order.isPaid o /\
    Order.paymentStatus o' = Order.paymentStatus o /\
    Order.status o' = Order.status o /\
    Order.statusHistory o' = Order.statusHistory o /\
    Order.totalPrice o' = Order.totalPrice o /\
    products w' = products w /\ users w' = users w /\
    forall other, other <> id -> orders w' !! other = orders w !! other.
Proof.
  intros Ho Hid. rewrite create_razorpay_order_cases, Ho.
  destruct (negb (String.eqb (Order.user o) (User._id user))); [discriminate|].
  destruct (razorpay_orders_create E (order_request user o)) as [e|ro'];
    [discriminate|].
  intros [= <- <-]. simpl. rewrite Hid.
  eexists. split; [apply lookup_insert_eq|].
  do 9 (split; [reflexivity|]).
  intros other Hother. by rewrite lookup_insert_ne.
Qed.

Lemma create_razorpay_order_effect_witness :
  exists o',
    orders (snd (create_razorpay_order sample_env alice "o-7" world_with_orders))
      !! "o-7" = Some o' /\
    PaymentResult.razorpayOrderId (Order.paymentResult o') = Some "order_1" /\
    Order.isPaid o' = false.
Proof.
  destruct (create_razorpay_order_effect sample_env alice "o-7" world_with_orders
              pending_order
              (RazorpayOrder.mk "order_1" 27500%float "INR")
              (snd (create_razorpay_order sample_env alice "o-7" world_with_orders))
              eq_refl eq_refl eq_refl)
    as [o' [Ho' [Hid [_ [Hpaid _]]]]].
  exists o'. split; [exact Ho'|]. split; [exact Hid|]. by rewrite Hpaid.
Defined.

(** ** Refunds *)





(** X18.  Nothing stops a second refund: after a successful refund of an
    order the same request is handed to the gateway once more, so that the
    gateway is asked twice for the same amount of the same payment. *)
Theorem refund_can_be_repeated (E : Env) (now1 now2 : Z) (body : RefundBody.t)
    (w : World) (o : Order.t) (refundId : string) :
  orders w !! RefundBody.orderId body = Some o ->
  Order._id o = RefundBody.orderId body ->
  Order.isPaid o = true ->
  razorpay_payments_refund E (refund_request body o) = inr refundId ->
  let w1 := snd (refund E now1 body w) in
  fst (refund E now2 body w1) = Returned refundId /\
  gateway (snd (refund E now2 body w1))
  = (gateway w ++ [payments_refund (refund_request body o);
                   payments_refund (refund_request body o)])%list.
Proof.
  intros Ho Hid Hpaid Hgw w1. unfold w1.
  rewrite (refund_run E now1 body w o Ho), Hpaid, Hgw. simpl.
  erewrite (refund_run E now2 body _ (refunded now1 refundId o)).
  2: { simpl. rewrite Hid. apply lookup_insert_eq. }
  simpl. rewrite Hpaid.
  change (refund_request body (refunded now1 refundId o))
    with (refund_request body o).
  rewrite Hgw. simpl. split; [reflexivity|]. by rewrite <- app_assoc.
Qed.

Lemma refund_can_be_repeated_witness :
  let w1 := snd (refund sample_env 1000 refund_o9 world_with_orders) in
  fst (refund sample_env 2000 refund_o9 w1) = Returned "rfnd_1" /\
  gateway (snd (refund sample_env 2000 refund_o9 w1))
  = (gateway world_with_orders
       ++ [payments_refund (refund_request refund_o9 paid_order);
           payments_refund (refund_request refund_o9 paid_order)])%list.
Proof.
  apply (refund_can_be_repeated sample_env 1000 2000 refund_o9 world_with_orders
           paid_order "rfnd_1"); reflexivity.
Defined.

(** ** More on the webhook *)

(** X19.  A verified [payment.failed] event sets the payment status to
    'failed' and the status to 'pending', and it leaves [isPaid], the paid
    timestamp and the payment result as they are: an order that was paid
    stays flagged as paid. *)
Theorem payment_failed_keeps_paid_flag (E : Env) (now : Z) (req : WebhookReq.t)
    (w : World) (id : string) (o : Order.t) :
  signature_verifies E req = true ->
  readable (WebhookReq.body req) = true ->
  get (WebhookReq.body req) "event" = JString "payment.failed" ->
  notes_orderId (get (WebhookReq.body req) "payload") = Some (JString id) ->
  orders w !! id = Some o ->
  Order._id o = id ->
  exists o',
    orders (snd (route_webhook E now req w)) !! id = Some o' /\
    Order.paymentStatus o' = "failed" /\
    Order.status o' = "pending" /\
    Order.isPaid o' = Order.isPaid o /\
    Order.paidAt o' = Order.paidAt o /\
    Order.paymentResult o' = Order.paymentResult o.
Proof.
  intros Hsig Hbody Hevent Hv Ho Hid.
  destruct (named_order_accepted E req w _ id o Hbody Hevent Hv Ho)
    as [Hshape Hcast].
  unfold route_webhook, catchAsync.
  rewrite (webhook_well_shaped _ _ _ _ Hsig Hshape Hcast).
  unfold after_webhook, store_for. rewrite Hevent, Hv. simpl. rewrite Ho. simpl.
  rewrite Hid. eexists. split; [apply lookup_insert_eq|]. by repeat split.
Qed.

Lemma payment_failed_keeps_paid_flag_witness :
  exists o',
    orders (snd (route_webhook sample_env 1000 (signed failed_o9) world_with_orders))
      !! "o-9" = Some o' /\
    Order.paymentStatus o' = "failed" /\
    Order.status o' = "pending" /\
    Order.isPaid o' = true.
Proof.
  destruct (payment_failed_keeps_paid_flag sample_env 1000 (signed failed_o9)
              world_with_orders "o-9" paid_order
              eq_refl eq_refl eq_refl eq_refl eq_refl eq_refl)
    as [o' [Ho' [Hps [Hst [Hpaid _]]]]].
  exists o'. split; [exact Ho'|]. split; [exact Hps|]. split; [exact Hst|].
  by rewrite Hpaid.
Defined.

(** X20.  Whatever the request, the webhook route never touches products,
    users or the gateway, and a request whose signature does not verify
    writes nothing.  In a collection keyed by order id the route creates no
    order, and it changes none but the one that the notes of the payment
    name by its id or, when they carry an object or an array, the one that
    this value selects as a query filter: a verified [payment.captured]
    event with such a value marks the selected order as paid. *)
Theorem webhook_frame (E : Env) (now : Z) (req : WebhookReq.t) (w : World) :
  let w' := snd (route_webhook E now req w) in
  let orderId := notes_orderId (get (WebhookReq.body req) "payload") in
  products w' = products w /\ users w' = users w /\ gateway w' = gateway w /\
  (signature_verifies E req = false -> w' = w) /\
  (orders_keyed w ->
   forall id,
     (orders w !! id = None -> orders w' !! id = None) /\
     (orderId <> Some (JString id) ->
      (forall v, orderId = Some v -> is_filter v = true ->
                 Order_findOne E v (orders w) <> Match id) ->
      orders w' !! id = orders w !! id)) /\
  (forall v id o,
     signature_verifies E req = true ->
     readable (WebhookReq.body req) = true ->
     get (WebhookReq.body req) "event" = JString "payment.captured" ->
     orderId = Some v ->
     is_filter v = true ->
     Order_findOne E v (orders w) = Match id ->
     orders w !! id = Some o ->
     Order._id o = id ->
     orders w' !! id = Some (captured now o)).
Proof.
  simpl. unfold route_webhook, catchAsync.
  destruct (signature_verifies E req) eqn:Hsig.
  2: { rewrite (webhook_rejected _ _ _ _ Hsig). simpl.
       do 5 (split; [done|]). discriminate. }
  destruct (well_shaped (WebhookReq.body req)) eqn:Hshape.
  2: { destruct (webhook_ill_shaped _ now _ w Hsig Hshape) as [msg ->]. simpl.
       do 3 (split; [done|]). split; [discriminate|]. split; [done|].
       intros v id o _ Hbody Hevent Hv _ _ _ _.
       unfold well_shaped in Hshape. rewrite Hbody, Hevent, Hv in Hshape.
       discriminate. }
  rewrite (webhook_shaped _ _ _ _ Hsig Hshape).
  destruct (orderId_castable E w (WebhookReq.body req)) eqn:Hcast.
  2: { simpl. do 3 (split; [done|]). split; [discriminate|]. split; [done|].
       intros v id o _ _ Hevent Hv Hf Hsel _ _.
       unfold orderId_castable in Hcast. rewrite Hevent, Hv in Hcast. simpl in Hcast.
       destruct v; try discriminate; simpl in Hcast; by rewrite Hsel in Hcast. }
  simpl.
  assert (Hstore : forall v f,
            let w1 := store_for E w v f in
            products w1 = products w /\ users w1 = users w /\
            gateway w1 = gateway w /\
            (orders_keyed w ->
             forall id,
               (orders w !! id = None -> orders w1 !! id = None) /\
               (v <> Some (JString id) ->
                (forall x, v = Some x -> is_filter x = true ->
                           Order_findOne E x (orders w) <> Match id) ->
                orders w1 !! id = orders w !! id))).
  { intros v f. unfold store_for. simpl.
    destruct v as [v|]; simpl; [|by repeat split].
    destruct (find_order E w v) as [o|] eqn:Hfind; simpl; [|by repeat split].
    do 3 (split; [done|]). intros Hkeyed id.
    assert (Hfound : exists id', orders w !! id' = Some o /\
                       (v = JString id' \/
                        is_filter v = true /\
                        Order_findOne E v (orders w) = Match id')).
    { destruct v as [| | | |id'|l|fields]; try discriminate; simpl in Hfind.
      - exists id'. split; [done|by left].
      - destruct (Order_findOne E (JArray l) (orders w)) as [| |id'] eqn:Hsel;
          try discriminate.
        exists id'. split; [done|right; by split].
      - destruct (Order_findOne E (JObject fields) (orders w)) as [| |id'] eqn:Hsel;
          try discriminate.
        exists id'. split; [done|right; by split]. }
    destruct Hfound as [id' [Ho Hnamed]].
    rewrite (Hkeyed _ _ Ho). split.
    - intros Hnone. rewrite lookup_insert_ne; [done|]. congruence.
    - intros Hne Hsel. rewrite lookup_insert_ne; [done|].
      intros <-. destruct Hnamed as [->|[Hf Hm]]; [done|].
      by apply (Hsel v eq_refl Hf). }
  unfold after_webhook.
  destruct (is_event (get (WebhookReq.body req) "event") "payment.captured")
    eqn:Hcaptured.
  - destruct (Hstore (notes_orderId (get (WebhookReq.body req) "payload"))
                (captured now)) as [H1 [H2 [H3 H4]]].
    do 3 (split; [done|]). split; [discriminate|]. split; [done|].
    intros v id o _ _ _ Hv Hf Hsel Ho Hid. rewrite Hv. unfold store_for. simpl.
    assert (Hfind : find_order E w v = Some o).
    { destruct v; try discriminate; simpl; by rewrite Hsel. }
    rewrite Hfind. simpl. rewrite Hid. apply lookup_insert_eq.
  - destruct (is_event (get (WebhookReq.body req) "event") "payment.failed").
    + destruct (Hstore (notes_orderId (get (WebhookReq.body req) "payload"))
                  (payment_failed now)) as [H1 [H2 [H3 H4]]].
      do 3 (split; [done|]). split; [discriminate|]. split; [done|].
      intros v id o _ _ Hevent. rewrite Hevent in Hcaptured. discriminate.
    + do 3 (split; [done|]). split; [discriminate|]. split; [done|].
      intros v id o _ _ Hevent. rewrite Hevent in Hcaptured. discriminate.
Qed.

Lemma sample_orders_keyed : orders_keyed world_with_orders.
Proof.
  intros id o H. unfold world_with_orders in H. simpl in H.
  apply lookup_insert_Some in H as [[<- <-]|[_ H]]; [done|].
  apply lookup_insert_Some in H as [[<- <-]|[_ H]]; [done|].
  apply lookup_insert_Some in H as [[<- <-]|[_ H]]; [done|].
  by rewrite lookup_empty in H.
Qed.

(** The event for o-7 leaves o-9 alone; an event whose order id is the
    object [{ $ne: null }] names no order and marks the unpaid order o-7 as
    paid. *)
Lemma webhook_frame_witness :
  orders (snd (route_webhook sample_env 1000 (signed captured_o7) world_with_orders))
    !! "o-9" = orders world_with_orders !! "o-9" /\
  orders (snd (route_webhook sample_env 1000
                 (signed (captured_with (JObject [("$ne", JNull)])))
                 world_with_orders)) !! "o-7"
  = Some (captured 1000 pending_order) /\
  Order.isPaid pending_order = false /\
  Order.isPaid (captured 1000 pending_order) = true.
Proof.
  split; [|split; [|split; reflexivity]].
  - apply (proj1 (proj2 (proj2 (proj2 (proj2
             (webhook_frame sample_env 1000 (signed captured_o7) world_with_orders)))))
             sample_orders_keyed "o-9").
    + discriminate.
    + intros v [= <-]. discriminate.
  - apply (proj2 (proj2 (proj2 (proj2 (proj2
             (webhook_frame sample_env 1000
                (signed (captured_with (JObject [("$ne", JNull)])))
                world_with_orders)))))
             (JObject [("$ne", JNull)]) "o-7" pending_order);
      vm_compute; reflexivity.
Defined.

(** ** More on payment verification *)

Lemma verify_payment_run (E : Env) (now : Z) (user : User.t)
    (body : VerifyBody.t) (w : World) :
  verify_payment E now user body w =
  match orders w !! VerifyBody.orderId body with
  | None => (Thrown (AppError "Order not found" 404), w)
  | Some o =>
      if negb (String.eqb (Order.user o) (User._id user))
      then (Thrown (AppError "Not authorized" 403), w)
      else if String.eqb (expected_payment_signature E body)
                (VerifyBody.razorpaySignature body)
      then
        (Returned
           (push_status "confirmed" "Payment completed successfully" now
              (mark_verified body now o)),
         set_orders
           (<[Order._id o :=
                push_status "confirmed" "Payment completed successfully" now
                  (mark_verified body now o)]> (orders w)) w)
      else (Thrown InvalidSignature, w)
  end.
Proof.
  unfold verify_payment, bind, Order_findById, gets.
  destruct (orders w !! VerifyBody.orderId body) as [o|]; [|done].
  destruct (negb (String.eqb (Order.user o) (User._id user))); [done|].
  by destruct (String.eqb (expected_payment_signature E body)
                 (VerifyBody.razorpaySignature body)).
Qed.

(** X21.  The signature is not tied to the order: a triple of gateway
    order id, payment id and signature that verifies marks paid whichever
    order of the caller the request names, also one whose stored gateway
    order id is a different one or none. *)
Theorem verify_payment_not_bound_to_order (E : Env) (now : Z) (user : User.t)
    (body : VerifyBody.t) (w : World) (id : string) (o : Order.t) :
  VerifyBody.razorpaySignature body
  = hmac_sha256_hex E (RAZORPAY_KEY_SECRET E)
      (VerifyBody.razorpayOrderId body ++ "|" ++ VerifyBody.razorpayPaymentId body) ->
  orders w !! id = Some o ->
  Order._id o = id ->
  Order.user o = User._id user ->
  PaymentResult.razorpayOrderId (Order.paymentResult o)
  <> Some (VerifyBody.razorpayOrderId body) ->
  exists o',
    fst (verify_payment E now user (with_orderId id body) w) = Returned o' /\
    orders (snd (verify_payment E now user (with_orderId id body) w)) !! id
    = Some o' /\
    Order.isPaid o' = true /\
    PaymentResult.razorpayOrderId (Order.paymentResult o')
    = Some (VerifyBody.razorpayOrderId body).
Proof.
  intros Hsig Ho Hid Huser _. rewrite verify_payment_run. simpl. rewrite Ho.
  rewrite Huser, String.eqb_refl. simpl.
  unfold expected_payment_signature. simpl. rewrite <- Hsig, String.eqb_refl.
  simpl. rewrite Hid. eexists. split; [reflexivity|].
  split; [apply lookup_insert_eq|]. by split.
Qed.

Lemma verify_payment_not_bound_to_order_witness :
  (exists o',
     fst (verify_payment sample_env 1000 alice
            (with_orderId "o-7" signed_verification) world_with_orders)
     = Returned o' /\
     orders (snd (verify_payment sample_env 1000 alice
                    (with_orderId "o-7" signed_verification) world_with_orders))
       !! "o-7" = Some o' /\
     Order.isPaid o' = true /\
     PaymentResult.razorpayOrderId (Order.paymentResult o') = Some "order_7") /\
  (exists o',
     fst (verify_payment sample_env 1000 alice
            (with_orderId "o-8" signed_verification) world_with_orders)
     = Returned o' /\
     orders (snd (verify_payment sample_env 1000 alice
                    (with_orderId "o-8" signed_verification) world_with_orders))
       !! "o-8" = Some o' /\
     Order.isPaid o' = true /\
     PaymentResult.razorpayOrderId (Order.paymentResult o') = Some "order_7").
Proof.
  split.
  - apply (verify_payment_not_bound_to_order sample_env 1000 alice
             signed_verification world_with_orders "o-7" pending_order);
      try reflexivity. discriminate.
  - apply (verify_payment_not_bound_to_order sample_env 1000 alice
             signed_verification world_with_orders "o-8" shipped_order);
      try reflexivity. discriminate.
Defined.

(** X22.  The browser path and the webhook path reach the same order
    whichever comes first: after verify-payment and a [payment.captured]
    event for the same order, in either sequence and with the later of the
    two at the same time, the stored orders agree in everything but the
    sequence of their last two history entries. *)
Theorem verify_and_webhook_commute (E : Env) (now1 now2 : Z) (user : User.t)
    (body : VerifyBody.t) (req : WebhookReq.t) (w : World) (o : Order.t) :
  VerifyBody.razorpaySignature body = expected_payment_signature E body ->
  orders w !! VerifyBody.orderId body = Some o ->
  Order._id o = VerifyBody.orderId body ->
  Order.user o = User._id user ->
  signature_verifies E req = true ->
  readable (WebhookReq.body req) = true ->
  get (WebhookReq.body req) "event" = JString "payment.captured" ->
  notes_orderId (get (WebhookReq.body req) "payload")
  = Some (JString (VerifyBody.orderId body)) ->
  let verified_first :=
    snd (route_webhook E now2 req (snd (verify_payment E now1 user body w))) in
  let captured_first :=
    snd (verify_payment E now2 user body (snd (route_webhook E now1 req w))) in
  exists a b,
    orders verified_first !! VerifyBody.orderId body = Some a /\
    orders captured_first !! VerifyBody.orderId body = Some b /\
    Order.set_status "" [] a = Order.set_status "" [] b /\
    Order.status a = Order.status b /\
    Order.isPaid a = true /\
    Order.paidAt a = Some now2 /\
    Order.statusHistory a
    = (Order.statusHistory o
         ++ [StatusEntry.mk "confirmed" "Payment completed successfully" now1;
             StatusEntry.mk "confirmed" "Payment captured via webhook" now2])%list /\
    Order.statusHistory b
    = (Order.statusHistory o
         ++ [StatusEntry.mk "confirmed" "Payment captured via webhook" now1;
             StatusEntry.mk "confirmed" "Payment completed successfully" now2])%list.
Proof.
  intros Hsig Ho Hid Huser Hwsig Hbody Hevent Hv verified_first captured_first.
  destruct (named_order_accepted E req w _ _ o Hbody Hevent Hv Ho)
    as [Hshape Hcast].
  unfold verified_first, captured_first, route_webhook, catchAsync.
  rewrite (webhook_well_shaped _ _ _ w Hwsig Hshape Hcast). cbn [snd].
  rewrite !verify_payment_run. rewrite Ho, Huser, String.eqb_refl.
  rewrite <- Hsig, String.eqb_refl. cbn [negb snd].
  rewrite (webhook_well_shaped _ _ _ _ Hwsig Hshape);
    [|apply (named_order_accepted E req _ _ (VerifyBody.orderId body)
               (push_status "confirmed" "Payment completed successfully" now1
                  (mark_verified body now1 o)) Hbody Hevent Hv);
      simpl; rewrite Hid; apply lookup_insert_eq].
  cbn [snd].
  unfold after_webhook, store_for. rewrite Hevent, Hv. simpl.
  rewrite Ho, Hid, !lookup_insert_eq. simpl.
  rewrite !lookup_insert_eq. simpl.
  rewrite Huser, String.eqb_refl. simpl.
  rewrite Hid, !lookup_insert_eq.
  eexists _, _. split; [reflexivity|]. split; [reflexivity|].
  split; [reflexivity|]. split; [reflexivity|]. split; [reflexivity|].
  split; [reflexivity|].
  split; simpl; by rewrite <- app_assoc.
Qed.

Lemma verify_and_webhook_commute_witness :
  exists a b,
    orders (snd (route_webhook sample_env 2000 (signed captured_o7)
                   (snd (verify_payment sample_env 1000 alice signed_verification
                           world_with_orders)))) !! "o-7" = Some a /\
    orders (snd (verify_payment sample_env 2000 alice signed_verification
                   (snd (route_webhook sample_env 1000 (signed captured_o7)
                           world_with_orders)))) !! "o-7" = Some b /\
    Order.set_status "" [] a = Order.set_status "" [] b /\
    Order.status a = Order.status b.
Proof.
  destruct (verify_and_webhook_commute sample_env 1000 2000 alice
              signed_verification (signed captured_o7) world_with_orders
              pending_order
              eq_refl eq_refl eq_refl eq_refl eq_refl eq_refl eq_refl eq_refl)
    as [a [b [Ha [Hb [Hsame [Hst _]]]]]].
  exists a, b. split; [exact Ha|]. split; [exact Hb|]. split; [exact Hsame|].
  exact Hst.
Defined.

(** ** More on order creation and cancellation *)

(** X23.  Order creation never takes stock and never returns.  Whatever
    the request, products, users and the gateway log are left as they are,
    no order but the new one is written, and the outcome is an error.
    When every line passes its check the new order is stored, pending and
    unpaid, and the decrement loop is not reached; when some line fails,
    nothing is written at all. *)
Theorem create_order_leaves_stock (E : Env) (now : Z)
    (oid orderNumber : string) (user : User.t) (body : CreateOrderBody.t)
    (w : World) :
  let w' := snd (create_order E now oid orderNumber user body w) in
  products w' = products w /\ users w' = users w /\ gateway w' = gateway w /\
  (forall id, id <> oid -> orders w' !! id = orders w !! id) /\
  (exists e, fst (create_order E now oid orderNumber user body w) = Thrown e) /\
  (Forall (in_stock (products w)) (CreateOrderBody.items body) ->
   exists o,
     orders w' !! oid = Some o /\
     Order.status o = "pending" /\ Order.isPaid o = false /\
     Order.user o = User._id user) /\
  (~ Forall (in_stock (products w)) (CreateOrderBody.items body) -> w' = w).
Proof.
  simpl. rewrite create_order_run.
  pose proof (resolve_items_passes (products w) (CreateOrderBody.items body))
    as Hpass.
  destruct (resolve_items (products w) (CreateOrderBody.items body))
    as [e|lines]; simpl.
  - do 4 (split; [done|]). split; [by exists e|]. split; [|done].
    intros Hall. apply Hpass in Hall as [lines Habs]. discriminate.
  - do 3 (split; [done|]).
    split; [intros id Hne; by rewrite lookup_insert_ne|].
    split; [by eexists|]. split.
    + intros _. eexists. split; [apply lookup_insert_eq|]. by repeat split.
    + intros Hnot. destruct Hnot. apply Hpass. by exists lines.
Qed.

(** Two lamps against a stock of five: the order is stored and the stock
    is still five. *)
Lemma create_order_leaves_stock_witness :
  (exists o,
     orders (snd (create_order sample_env 1000 "o-1" "ORD-1" alice two_lamps
                    sample_world)) !! "o-1" = Some o /\
     Order.status o = "pending" /\ Order.isPaid o = false /\
     Order.user o = User._id alice) /\
  Product.stock <$>
    products (snd (create_order sample_env 1000 "o-1" "ORD-1" alice two_lamps
                     sample_world)) !! "p-lamp"
  = Some 5%float.
Proof.
  pose proof (create_order_leaves_stock sample_env 1000 "o-1" "ORD-1" alice
                two_lamps sample_world) as [Hproducts [_ [_ [_ [_ [Hstored _]]]]]].
  split.
  - apply Hstored. repeat constructor; exists lamp; split; reflexivity.
  - rewrite Hproducts. reflexivity.
Defined.

Lemma cancel_order_run (now : Z) (user : User.t) (id : string) (w : World) :
  cancel_order now user id w =
  match orders w !! id with
  | None => (Thrown (AppError "Order not found" 404), w)
  | Some o =>
      if negb (String.eqb (Order.user o) (User._id user))
      then (Thrown (AppError "Not authorized to cancel this order" 403), w)
      else if cancellable (Order.status o)
      then (Returned (push_status "cancelled" "Cancelled by user" now o),
            mkWorld (restored (Order.items o) (products w))
              (<[Order._id o := push_status "cancelled" "Cancelled by user" now o]>
                 (orders w)) (users w) (gateway w))
      else (Thrown Conflict, w)
  end.
Proof.
  unfold cancel_order, bind at 1. unfold Order_findById, gets.
  destruct (orders w !! id) as [o|]; [|done].
  destruct (negb (String.eqb (Order.user o) (User._id user))); [done|].
  destruct (cancellable (Order.status o)); [|done]. simpl.
  unfold bind, addStatusUpdate, bind, Order_save, modify, ret. simpl.
  by rewrite restore_stock_run.
Qed.



(** ** Products *)

Lemma update_product_run (user : User.t) (id : string)
    (body : UpdateProductBody.t) (w : World) :
  update_product user id body w =
  match products w !! id with
  | None => (Thrown (AppError "Product not found" 404), w)
  | Some p =>
      if negb (String.eqb (Product.seller p) (User._id user))
         && negb (String.eqb (User.role user) "admin")
      then (Thrown (AppError "Not authorized to update this product" 403), w)
      else (Returned (assign_product body p),
            set_products (<[Product._id p := assign_product body p]> (products w)) w)
  end.
Proof.
  unfold update_product, bind, Product_findById, gets.
  destruct (products w !! id) as [p|]; [|done].
  by destruct (negb (String.eqb (Product.seller p) (User._id user))
               && negb (String.eqb (User.role user) "admin")).
Qed.

Lemma delete_product_run (user : User.t) (id : string) (w : World) :
  delete_product user id w =
  match products w !! id with
  | None => (Thrown (AppError "Product not found" 404), w)
  | Some p =>
      if negb (String.eqb (Product.seller p) (User._id user))
         && negb (String.eqb (User.role user) "admin")
      then (Thrown (AppError "Not authorized to delete this product" 403), w)
      else (Returned tt, set_products (delete id (products w)) w)
  end.
Proof.
  unfold delete_product, bind, Product_findById, gets.
  destruct (products w !! id) as [p|]; [|done].
  by destruct (negb (String.eqb (Product.seller p) (User._id user))
               && negb (String.eqb (User.role user) "admin")).
Qed.



(** X26.  Deleting a product leaves the orders that name it as they are,
    and a later cancellation of such an order still succeeds: the
    restoration of the deleted product is skipped, the product is not
    created again. *)
Theorem cancel_after_product_deleted (now : Z) (seller user : User.t)
    (pid id : string) (w : World) (o : Order.t) :
  fst (delete_product seller pid w) = Returned tt ->
  orders w !! id = Some o ->
  Order.user o = User._id user ->
  Order.status o = "pending" \/ Order.status o = "confirmed" ->
  let w1 := snd (delete_product seller pid w) in
  orders w1 = orders w /\
  fst (cancel_order now user id w1)
  = Returned (push_status "cancelled" "Cancelled by user" now o) /\
  products (snd (cancel_order now user id w1)) !! pid = None.
Proof.
  rewrite delete_product_run. intros Hok Ho Huser Hst.
  destruct (products w !! pid) as [p|]; [|discriminate].
  destruct (negb (String.eqb (Product.seller p) (User._id seller))
            && negb (String.eqb (User.role seller) "admin")); [discriminate|].
  cbn [snd]. split; [reflexivity|].
  rewrite cancel_order_run. simpl. rewrite Ho, Huser, String.eqb_refl. simpl.
  apply cancellable_spec in Hst. rewrite Hst. simpl. split; [reflexivity|].
  apply restored_lookup_None. apply lookup_delete_eq.
Qed.

Lemma cancel_after_product_deleted_witness :
  let w1 := snd (delete_product seller "p-lamp" world_with_orders) in
  orders w1 = orders world_with_orders /\
  fst (cancel_order 1000 alice "o-7" w1)
  = Returned (push_status "cancelled" "Cancelled by user" 1000 pending_order) /\
  products (snd (cancel_order 1000 alice "o-7" w1)) !! "p-lamp" = None.
Proof.
  apply (cancel_after_product_deleted 1000 seller alice "p-lamp" "o-7"
           world_with_orders pending_order); try reflexivity. by left.
Defined.

(** X27.  The seller of a created product is the caller: after
    [create_product] the product is stored with the caller as seller, the
    caller may update and delete it, and a different caller who is not an
    administrator is refused with 403. *)
Theorem create_product_sets_seller (pid : string) (user other : User.t)
    (body : CreateProductBody.t) (change : UpdateProductBody.t) (w : World) :
  User._id other <> User._id user ->
  User.role other <> "admin" ->
  let w1 := snd (create_product pid user body w) in
  (exists p, products w1 !! pid = Some p /\ Product.seller p = User._id user /\
             Product._id p = pid) /\
  (exists p' w2, update_product user pid change w1 = (Returned p', w2)) /\
  (exists w2, delete_product user pid w1 = (Returned tt, w2)) /\
  update_product other pid change w1
  = (Thrown (AppError "Not authorized to update this product" 403), w1) /\
  delete_product other pid w1
  = (Thrown (AppError "Not authorized to delete this product" 403), w1).
Proof.
  intros Hother Hrole w1. unfold w1, create_product, bind, Product_save, modify, ret.
  cbn [snd]. rewrite !update_product_run, !delete_product_run. simpl.
  rewrite !lookup_insert_eq. simpl. rewrite String.eqb_refl. simpl.
  apply not_eq_sym, String.eqb_neq in Hother. apply String.eqb_neq in Hrole.
  rewrite Hother, Hrole. simpl.
  split; [by eexists|]. split; [by eexists _, _|]. split; [by eexists|]. done.
Qed.

Lemma create_product_sets_seller_witness :
  let w1 := snd (create_product "p-chair" alice chair_body sample_world) in
  (exists p, products w1 !! "p-chair" = Some p /\ Product.seller p = "u-alice" /\
             Product._id p = "p-chair") /\
  update_product bob "p-chair" (UpdateProductBody.mk None (Some 1%float) None) w1
  = (Thrown (AppError "Not authorized to update this product" 403), w1).
Proof.
  destruct (create_product_sets_seller "p-chair" alice bob chair_body
              (UpdateProductBody.mk None (Some 1%float) None) sample_world)
    as [H1 [_ [_ [H2 _]]]]; [discriminate|discriminate|].
  split; [exact H1|exact H2].
Defined.

(** ** The privileged status update *)

Lemma update_status_run (now : Z) (id status note : string)
    (trackingNumber : option string) (w : World) :
  update_status now id status note trackingNumber w =
  match orders w !! id with
  | None => (Thrown (AppError "Order not found" 404), w)
  | Some o =>
      let o1 := push_status status note now o in
      if truthy trackingNumber
      then (Returned (Order.set_trackingNumber trackingNumber o1),
            set_orders
              (<[Order._id o := Order.set_trackingNumber trackingNumber o1]>
                 (orders w)) w)
      else (Returned o1, set_orders (<[Order._id o := o1]> (orders w)) w)
  end.
Proof.
  unfold update_status, bind at 1. unfold Order_findById, gets.
  destruct (orders w !! id) as [o|]; [|done].
  unfold bind at 1. rewrite addStatusUpdate_run.
  destruct (truthy trackingNumber); [|done].
  unfold bind, Order_save, modify, ret. simpl. by rewrite insert_insert_eq.
Qed.

(** X28.  The status route enforces no transition rule and moves no stock:
    for a stored order it stores whatever status it is given, from
    whatever status the order is in, appends the entry to the history and
    leaves the products as they are, also when the new status is
    'cancelled'; the tracking number is replaced only by a non-empty
    one. *)
Theorem update_status_unrestricted (now : Z) (id status note : string)
    (trackingNumber : option string) (w : World) (o : Order.t) :
  orders w !! id = Some o ->
  Order._id o = id ->
  exists o',
    fst (update_status now id status note trackingNumber w) = Returned o' /\
    orders (snd (update_status now id status note trackingNumber w)) !! id
    = Some o' /\
    Order.status o' = status /\
    Order.statusHistory o'
    = (Order.statusHistory o ++ [StatusEntry.mk status note now])%list /\
    Order.trackingNumber o'
    = (if truthy trackingNumber then trackingNumber else Order.trackingNumber o) /\
    products (snd (update_status now id status note trackingNumber w))
    = products w.
Proof.
  intros Ho Hid. rewrite update_status_run, Ho, Hid. simpl.
  destruct (truthy trackingNumber); simpl.
  - eexists. split; [reflexivity|].
    split; [apply lookup_insert_eq|]. by repeat split.
  - eexists. split; [reflexivity|].
    split; [apply lookup_insert_eq|]. by repeat split.
Qed.

Lemma update_status_unrestricted_witness :
  exists o',
    fst (update_status 1000 "o-8" "pending" "" None world_with_orders) = Returned o' /\
    Order.status o' = "pending" /\
    products (snd (update_status 1000 "o-8" "cancelled" "" None world_with_orders))
    = products world_with_orders.
Proof.
  destruct (update_status_unrestricted 1000 "o-8" "pending" "" None
              world_with_orders shipped_order eq_refl eq_refl)
    as [o' [Hret [_ [Hst _]]]].
  destruct (update_status_unrestricted 1000 "o-8" "cancelled" "" None
              world_with_orders shipped_order eq_refl eq_refl)
    as [_ [_ [_ [_ [_ [_ Hprod]]]]]].
  exists o'. split; [exact Hret|]. split; [exact Hst|exact Hprod].
Defined.

(** ** Reviews *)

Lemma updateRating_reviews (toFixed1 : float -> float) (d : Rated.t) :
  Rated.reviews (updateRating toFixed1 d) = Rated.reviews d.
Proof. unfold updateRating. by destruct (Rated.reviews d). Qed.

Lemma overwrite_review_users (userId : string) (rating : float) (comment : string)
    (reviews : list Review.t) :
  map Review.user (overwrite_review userId rating comment reviews)
  = map Review.user reviews.
Proof.
  induction reviews as [|r rest IH]; simpl; [done|].
  destruct (String.eqb (Review.user r) userId); simpl; [done|]. by rewrite IH.
Qed.

Lemma find_review_none (userId : string) (reviews : list Review.t) :
  List.find (fun review => String.eqb (Review.user review) userId) reviews = None ->
  ~ In userId (map Review.user reviews).
Proof.
  induction reviews as [|r rest IH]; simpl; [tauto|].
  destruct (String.eqb_spec (Review.user r) userId) as [Heq|Hne]; [discriminate|].
  intros Hfind [Habs|Hin]; [done|]. by apply IH.
Qed.

(** X29.  One review per user: when no user has two reviews of a product,
    [addReview] leaves it so, whoever adds and whether they had a review
    already. *)
Theorem addReview_one_per_user (toFixed1 : float -> float) (d : Rated.t)
    (userId : string) (rating : float) (comment : string) :
  NoDup (map Review.user (Rated.reviews d)) ->
  NoDup (map Review.user
           (Rated.reviews (addReview toFixed1 d userId rating comment))).
Proof.
  intros Hnodup. unfold addReview. rewrite updateRating_reviews. simpl.
  destruct (List.find _ (Rated.reviews d)) eqn:Hfind.
  - by rewrite overwrite_review_users.
  - rewrite map_app. simpl. apply NoDup_app. split; [done|].
    split; [|apply NoDup_singleton].
    intros x Hx Hin. apply list_elem_of_In in Hx, Hin.
    destruct Hin as [<-|[]]. by apply (find_review_none _ _ Hfind).
Qed.

Lemma addReview_one_per_user_witness :
  NoDup (map Review.user
           (Rated.reviews
              (addReview one_decimal
                 (addReview one_decimal lamp_reviews "u-alice" 2%float "Dim")
                 "u-bob" 5%float "Fine"))).
Proof.
  apply addReview_one_per_user, addReview_one_per_user.
  simpl. apply NoDup_singleton.
Defined.

Lemma overwrite_review_find (userId other : string) (rating : float)
    (comment : string) (reviews : list Review.t) :
  List.find (fun review => String.eqb (Review.user review) other)
    (overwrite_review userId rating comment reviews)
  = if String.eqb userId other
    then (fun old => Review.mk (Review.user old) rating comment (Review.helpful old))
           <$> List.find (fun review => String.eqb (Review.user review) userId) reviews
    else List.find (fun review => String.eqb (Review.user review) other) reviews.
Proof.
  induction reviews as [|r rest IH]; simpl.
  - by destruct (String.eqb userId other).
  - destruct (String.eqb (Review.user r) userId) eqn:Hr; simpl.
    + apply String.eqb_eq in Hr. rewrite <- Hr.
      by destruct (String.eqb (Review.user r) other).
    + rewrite IH. destruct (String.eqb userId other) eqn:Ho; [|done].
      apply String.eqb_eq in Ho. subst other. by rewrite Hr.
Qed.

Lemma find_review_app (other : string) (reviews : list Review.t) (r : Review.t) :
  List.find (fun review => String.eqb (Review.user review) other) (reviews ++ [r])
  = match List.find (fun review => String.eqb (Review.user review) other) reviews with
    | Some x => Some x
    | None => if String.eqb (Review.user r) other then Some r else None
    end.
Proof.
  induction reviews as [|x rest IH]; simpl; [done|].
  by destruct (String.eqb (Review.user x) other).
Qed.

(** X30.  The last write wins and touches one review: after [addReview]
    the review of the user carries the given rating and comment (and the
    helpful count of the review it replaces, or zero), the review of every
    other user is the one it was, the number of reviews grows by one
    exactly when the user had none, and the rating count is that number. *)
Theorem addReview_last_write_wins (toFixed1 : float -> float) (d : Rated.t)
    (userId : string) (rating : float) (comment : string) :
  let d' := addReview toFixed1 d userId rating comment in
  review_of userId d'
  = Some (Review.mk userId rating comment
            (match review_of userId d with
             | Some old => Review.helpful old
             | None => PrimFloat.zero
             end)) /\
  (forall other, other <> userId -> review_of other d' = review_of other d) /\
  length (Rated.reviews d')
  = (match review_of userId d with
     | Some _ => length (Rated.reviews d)
     | None => S (length (Rated.reviews d))
     end) /\
  Rated.rating_count d' = float_of_Z (Z.of_nat (length (Rated.reviews d'))).
Proof.
  simpl. unfold review_of. split; [|split; [|split]].
  - unfold addReview. rewrite updateRating_reviews. simpl.
    destruct (List.find _ (Rated.reviews d)) as [old|] eqn:Hfind.
    + rewrite overwrite_review_find, String.eqb_refl, Hfind. simpl.
      apply find_some in Hfind as [_ Hold]. apply String.eqb_eq in Hold.
      by rewrite Hold.
    + rewrite find_review_app, Hfind. simpl. by rewrite String.eqb_refl.
  - intros other Hother. unfold addReview. rewrite updateRating_reviews. simpl.
    apply not_eq_sym, String.eqb_neq in Hother.
    destruct (List.find (fun review => String.eqb (Review.user review) userId)
                (Rated.reviews d)).
    + by rewrite overwrite_review_find, Hother.
    + rewrite find_review_app. simpl. rewrite Hother.
      by destruct (List.find _ (Rated.reviews d)).
  - unfold addReview. rewrite updateRating_reviews. simpl.
    destruct (List.find _ (Rated.reviews d)).
    + rewrite <- (length_map Review.user), overwrite_review_users.
      apply length_map.
    + rewrite length_app. simpl. lia.
  - unfold addReview, updateRating. simpl.
    destruct (List.find _ (Rated.reviews d)).
    + destruct (overwrite_review userId rating comment (Rated.reviews d)); done.
    + destruct (Rated.reviews d ++ _)%list; done.
Qed.

Lemma addReview_last_write_wins_witness :
  review_of "u-alice" (addReview one_decimal lamp_reviews "u-alice" 2%float "Dim")
  = Some (Review.mk "u-alice" 2%float "Dim" 2%float) /\
  review_of "u-alice" (addReview one_decimal lamp_reviews "u-bob" 5%float "Fine")
  = review_of "u-alice" lamp_reviews.
Proof.
  split.
  - exact (proj1 (addReview_last_write_wins one_decimal lamp_reviews
                    "u-alice" 2%float "Dim")).
  - apply (proj1 (proj2 (addReview_last_write_wins one_decimal lamp_reviews
                           "u-bob" 5%float "Fine"))).
    discriminate.
Defined.
